(** * Cyber-Investigation-MCP: the dependency-resolving task executor

    A shallow embedding of [src/executor_agent.py] (the Query Adapter
    [refine_query_for_tool], the Task Dispatcher [execute_task] and the Plan
    Runner [run_execution_plan]) and of the tools of
    [src/tools/main_opensearch.py], with what stands around them: the audit
    log of [src/audit_logger.py], the reading of the model output in
    [src/planner_agent.py], the orchestrator [run_full_analysis] of
    [src/orchestrator.py] and its MCP wrapper of [src/mcp_server.py].  The
    properties of the specification come first, further properties of the
    code after them.

    Layout: Python values and exceptions; the value-level model of the
    executor in a small state-and-exception monad; the tools; the audit
    log; the planner's reading of an answer; the orchestrator; a store-level
    model of [refine_query_for_tool] (objects with identity, [deepcopy]
    with its memo table, in-place updates); the vocabulary of the
    statements; then the theorems. *)

From Stdlib Require Import List String Ascii ZArith Bool Arith Lia.
Import ListNotations.
Open Scope string_scope.

(* ================================================================= *)
(** ** Python values *)

(** The values the executor handles: parsed JSON (plans, tool results) plus
    [VObj], an opaque object such as a function or a class: truthy,
    hashable, compared by identity, atomic for [deepcopy], without the
    methods used here, and rejected by [json.dumps].  Dictionaries keep
    Python's insertion order; their keys are strings, as in JSON.  Floats
    are not modelled. *)
#[warnings="-register-all"]
Inductive value : Type :=
| VNone
| VBool (b : bool)
| VInt (n : Z)
| VStr (s : string)
| VList (xs : list value)
| VDict (kvs : list (string * value))
| VObj (oid : nat).

(** Exception classes raised by the modelled code; all derive from
    [Exception].  [ToolError] stands for whatever a backend raises. *)
Inductive exn_class : Type :=
| KeyError | IndexError | TypeError | AttributeError | ValueError | OverflowError
| ToolError.

(** An exception with the text [str(e)] yields. *)
Record exn : Type := Exn { exn_cls : exn_class; exn_str : string }.

(** Outcome of an expression that may raise. *)
Inductive res (A : Type) : Type :=
| Ok (a : A)
| Raise (e : exn).
Arguments Ok {A} a.
Arguments Raise {A} e.

Definition res_bind {A B} (r : res A) (k : A -> res B) : res B :=
  match r with
  | Ok a => k a
  | Raise e => Raise e
  end.

Declare Scope res_scope.
Delimit Scope res_scope with res.
Notation "x <-? c ;; k" := (res_bind c (fun x => k))
  (at level 61, c at next level, right associativity) : res_scope.

(** The double-quote character. *)
Definition dquote : string := String (ascii_of_nat 34) EmptyString.

(** [type(v).__name__]. *)
Definition type_name (v : value) : string :=
  match v with
  | VNone => "NoneType"
  | VBool _ => "bool"
  | VInt _ => "int"
  | VStr _ => "str"
  | VList _ => "list"
  | VDict _ => "dict"
  | VObj _ => "function"
  end.

(** [bool(v)]. *)
Definition py_truthy (v : value) : bool :=
  match v with
  | VNone => false
  | VBool b => b
  | VInt n => negb (Z.eqb n 0)
  | VStr s => negb (String.eqb s "")
  | VList xs => match xs with [] => false | _ => true end
  | VDict kvs => match kvs with [] => false | _ => true end
  | VObj _ => true
  end.

Definition isinstance_dict (v : value) : bool :=
  match v with VDict _ => true | _ => false end.

Definition isinstance_list (v : value) : bool :=
  match v with VList _ => true | _ => false end.

(** Lists, dicts are unhashable; everything else can be a dict key. *)
Definition hashable (v : value) : bool :=
  match v with
  | VList _ | VDict _ => false
  | _ => true
  end.

(* ----------------------------------------------------------------- *)
(** *** Dictionaries with string keys *)

Section StrDict.
Context {A : Type}.

(** [d.get(k)] as an option. *)
Fixpoint dict_get (k : string) (d : list (string * A)) : option A :=
  match d with
  | [] => None
  | (k', v) :: d' => if String.eqb k k' then Some v else dict_get k d'
  end.

(** [k in d]. *)
Definition dict_mem (k : string) (d : list (string * A)) : bool :=
  match dict_get k d with Some _ => true | None => false end.

(** [d[k] = v]: overwrite in place, or append a new key at the end. *)
Fixpoint dict_set (k : string) (v : A) (d : list (string * A)) : list (string * A) :=
  match d with
  | [] => [(k, v)]
  | (k', v') :: d' =>
      if String.eqb k k' then (k', v) :: d' else (k', v') :: dict_set k v d'
  end.

(** [d.setdefault(k, dflt)]: the value now under [k], and the dict. *)
Definition dict_setdefault (k : string) (dflt : A) (d : list (string * A))
  : A * list (string * A) :=
  match dict_get k d with
  | Some v => (v, d)
  | None => (dflt, dict_set k dflt d)
  end.

End StrDict.

(* ----------------------------------------------------------------- *)
(** *** Equality, attribute access, iteration *)

(** [a == b].  [True == 1] and [False == 0]; dictionaries compare without
    regard to order. *)
Fixpoint py_eqb (a b : value) {struct a} : bool :=
  match a, b with
  | VNone, VNone => true
  | VBool x, VBool y => Bool.eqb x y
  | VBool x, VInt y => Z.eqb (Z.b2z x) y
  | VInt x, VBool y => Z.eqb x (Z.b2z y)
  | VInt x, VInt y => Z.eqb x y
  | VStr x, VStr y => String.eqb x y
  | VList xs, VList ys =>
      (fix go (xs ys : list value) {struct xs} : bool :=
         match xs, ys with
         | [], [] => true
         | x :: xs', y :: ys' => py_eqb x y && go xs' ys'
         | _, _ => false
         end) xs ys
  | VDict d1, VDict d2 =>
      Nat.eqb (List.length d1) (List.length d2) &&
      (fix go (d : list (string * value)) {struct d} : bool :=
         match d with
         | [] => true
         | (k, v) :: d' =>
             match dict_get k d2 with
             | Some v' => py_eqb v v'
             | None => false
             end && go d'
         end) d1
  | VObj i, VObj j => Nat.eqb i j
  | _, _ => false
  end.

Definition no_attribute (v : value) (attr : string) : exn :=
  Exn AttributeError
      ("'" ++ type_name v ++ "' object has no attribute '" ++ attr ++ "'").

(** [v.get(k, dflt)]: only dictionaries have [get]. *)
Definition py_get (v : value) (k : string) (dflt : value) : res value :=
  match v with
  | VDict d => Ok (match dict_get k d with Some x => x | None => dflt end)
  | _ => Raise (no_attribute v "get")
  end.

(** [v[k]] for a string key. *)
Definition py_getitem (v : value) (k : string) : res value :=
  match v with
  | VDict d =>
      match dict_get k d with
      | Some x => Ok x
      | None => Raise (Exn KeyError ("'" ++ k ++ "'"))
      end
  | VList _ => Raise (Exn TypeError "list indices must be integers or slices, not str")
  | VStr _ => Raise (Exn TypeError "string indices must be integers, not 'str'")
  | _ => Raise (Exn TypeError ("'" ++ type_name v ++ "' object is not subscriptable"))
  end.

(** The characters of a string as one-character strings. *)
Fixpoint chars (s : string) : list value :=
  match s with
  | EmptyString => []
  | String c s' => VStr (String c EmptyString) :: chars s'
  end.

(** The elements [for x in v] visits: list elements, dict keys, the
    characters of a string. *)
Definition py_iter (v : value) : res (list value) :=
  match v with
  | VList xs => Ok xs
  | VDict d => Ok (map (fun kv => VStr (fst kv)) d)
  | VStr s => Ok (chars s)
  | _ => Raise (Exn TypeError ("'" ++ type_name v ++ "' object is not iterable"))
  end.

(** [len(v)]. *)
Definition py_len (v : value) : res nat :=
  match v with
  | VList xs => Ok (List.length xs)
  | VDict d => Ok (List.length d)
  | VStr s => Ok (String.length s)
  | _ => Raise (Exn TypeError ("object of type '" ++ type_name v ++ "' has no len()"))
  end.

(** [v[0]]. *)
Definition py_index0 (v : value) : res value :=
  match v with
  | VList (x :: _) => Ok x
  | VList [] => Raise (Exn IndexError "list index out of range")
  | VStr (String c _) => Ok (VStr (String c EmptyString))
  | VStr EmptyString => Raise (Exn IndexError "string index out of range")
  | VDict _ => Raise (Exn KeyError "0")
  | _ => Raise (Exn TypeError ("'" ++ type_name v ++ "' object is not subscriptable"))
  end.

(** [k in v] for the string [k]: key membership in a dict, element
    membership in a list, substring test in a string. *)
Fixpoint is_prefix (p s : string) : bool :=
  match p, s with
  | EmptyString, _ => true
  | String a p', String b s' => Ascii.eqb a b && is_prefix p' s'
  | String _ _, EmptyString => false
  end.

Fixpoint is_substring (p s : string) : bool :=
  is_prefix p s ||
  match s with
  | EmptyString => false
  | String _ s' => is_substring p s'
  end.

Definition py_contains_str (k : string) (v : value) : res bool :=
  match v with
  | VDict d => Ok (dict_mem k d)
  | VList xs => Ok (existsb (py_eqb (VStr k)) xs)
  | VStr s => Ok (is_substring k s)
  | _ => Raise (Exn TypeError ("argument of type '" ++ type_name v ++ "' is not iterable"))
  end.

(* ----------------------------------------------------------------- *)
(** *** Dictionaries keyed by hashable values (the Result Cache) *)

Definition pydict : Type := list (value * value).

Fixpoint pd_get (k : value) (d : pydict) : option value :=
  match d with
  | [] => None
  | (k', v) :: d' => if py_eqb k k' then Some v else pd_get k d'
  end.

Fixpoint pd_set (k v : value) (d : pydict) : pydict :=
  match d with
  | [] => [(k, v)]
  | (k', v') :: d' =>
      if py_eqb k k' then (k', v) :: d' else (k', v') :: pd_set k v d'
  end.

Definition unhashable (k : value) : exn :=
  Exn TypeError ("unhashable type: '" ++ type_name k ++ "'").

(** [d.get(k)]: hashes the key first. *)
Definition cache_get (k : value) (d : pydict) : res value :=
  if hashable k
  then Ok (match pd_get k d with Some v => v | None => VNone end)
  else Raise (unhashable k).

(** [k in d]. *)
Definition cache_mem (k : value) (d : pydict) : res bool :=
  if hashable k
  then Ok (match pd_get k d with Some _ => true | None => false end)
  else Raise (unhashable k).

(** [d[k] = v]. *)
Definition cache_set (k v : value) (d : pydict) : res pydict :=
  if hashable k then Ok (pd_set k v d) else Raise (unhashable k).

(* ================================================================= *)
(** ** Query Adapter, on values *)

(** The predicates [refine_query_for_tool] appends. *)
Definition ssh_phrase : value :=
  VDict [("match_phrase", VDict [("rule.description", VStr "ssh")])].
Definition level_range : value :=
  VDict [("range", VDict [("rule.level", VDict [("gte", VInt 5)])])].
Definition failure_phrase : value :=
  VDict [("match_phrase", VDict [("event.action", VStr "failure")])].
Definition sshd_phrase : value :=
  VDict [("match_phrase", VDict [("process.name", VStr "sshd")])].
Definition cve_wildcard : value :=
  VDict [("wildcard", VDict [("vulnerability.id", VStr "CVE-*")])].

(** [m += extra] for a list literal [extra]: only a list can absorb it. *)
Definition py_iadd_list (m : value) (extra : list value) : res value :=
  match m with
  | VList xs => Ok (VList (xs ++ extra))
  | VStr _ =>
      Raise (Exn TypeError
               ("can only concatenate str (not " ++ dquote ++ "list" ++ dquote ++ ") to str"))
  | _ => Raise (Exn TypeError
                  ("unsupported operand type(s) for +=: '" ++ type_name m ++ "' and 'list'"))
  end.

(** [m.append(x)]. *)
Definition py_append (m : value) (x : value) : res value :=
  match m with
  | VList xs => Ok (VList (xs ++ [x]))
  | _ => Raise (no_attribute m "append")
  end.

(** [refine_query_for_tool(base_query, tool_name)], returning the refined
    query.  The copy made by [deepcopy] is the same value; the in-place
    updates of the copy's ["bool"] dict and of its ["must"] list are written
    as updates along the path [refined_query["bool"]["must"]].  This is the
    adapter for queries without shared parts, as parsed JSON and the tools'
    results are; that the argument object itself is left alone is the
    subject of the store-level model below. *)
Definition refine_query_for_tool (base_query : value) (tool_name : value) : res value :=
  match base_query with
  | VDict d =>
      let refined_query := d in
      (* refined_query.setdefault("bool", {}).setdefault("must", []) *)
      let '(b, refined_query) := dict_setdefault "bool" (VDict []) refined_query in
      match b with
      | VDict bd =>
          let '(must, bd) := dict_setdefault "must" (VList []) bd in
          let refined_query := dict_set "bool" (VDict bd) refined_query in
          (* the list under refined_query["bool"]["must"] becomes [must'] *)
          let with_must (must' : value) : value :=
            VDict (dict_set "bool" (VDict (dict_set "must" must' bd)) refined_query) in
          if py_eqb tool_name (VStr "search_alerts") then
            (must' <-? py_iadd_list must [ssh_phrase; level_range] ;;
             Ok (with_must must'))%res
          else if py_eqb tool_name (VStr "search_raw_logs") then
            (must' <-? py_iadd_list must [failure_phrase; sshd_phrase] ;;
             Ok (with_must must'))%res
          else if py_eqb tool_name (VStr "search_vulnerabilities") then
            (must' <-? py_append must cve_wildcard ;;
             Ok (with_must must'))%res
          else Ok (VDict refined_query)
      | _ => Raise (no_attribute b "setdefault")
      end
  | _ => Ok base_query
  end.

(* ================================================================= *)
(** ** The executor *)

(** The function objects of [TOOL_MAPPING]. *)
Inductive tool : Type :=
| build_query
| search_raw_logs
| search_alerts
| get_agent_data
| search_vulnerabilities.

Definition TOOL_MAPPING : list (string * tool) :=
  [ ("build_query", build_query);
    ("search_raw_logs", search_raw_logs);
    ("search_alerts", search_alerts);
    ("get_agent_data", get_agent_data);
    ("search_vulnerabilities", search_vulnerabilities) ].

(** [TOOL_MAPPING.get(tool_name)]: the key is hashed, and only a string can
    equal one of the registry's keys. *)
Definition TOOL_MAPPING_get (tool_name : value) : res (option tool) :=
  if hashable tool_name then
    Ok (match tool_name with
        | VStr s => dict_get s TOOL_MAPPING
        | _ => None
        end)
  else Raise (unhashable tool_name).

(** One tool invocation, as recorded in the world: the function called and
    its arguments by parameter name. *)
Record call : Type := Call { callee : tool; call_args : list (string * value) }.

(** [json.dumps(obj)] succeeds unless some [VObj] occurs in [obj]. *)
Fixpoint json_serializable (v : value) : bool :=
  match v with
  | VObj _ => false
  | VList xs => forallb json_serializable xs
  | VDict kvs => forallb (fun kv => json_serializable (snd kv)) kvs
  | _ => true
  end.

(** What [run_execution_plan] returns: [{"status": False, "error": ...}] or
    [{"status": True, "executed_at": ..., "task_results": ...,
    "aggregated_results": ...}]. *)
Inductive run_output : Type :=
| RunInvalid (error : string)
| RunDone (executed_at : string) (task_results : list value)
          (aggregated_results : pydict).

Definition status (o : run_output) : bool :=
  match o with
  | RunInvalid _ => false
  | RunDone _ _ _ => true
  end.

Section Executor.

(** The world outside the executor: the search backend and the clocks. *)
Context {W : Type}.

(** The tools behind [TOOL_MAPPING]: given keyword arguments, a tool
    returns a value or raises, and may change the outside world.  A tool
    does not modify the objects it is handed. *)
Variable tools : tool -> list (string * value) -> W -> res value * W.

(** [str(v)] for a value that is not a string. *)
Variable py_repr : value -> string.

(** [datetime.now().strftime("%Y-%m-%d %H:%M:%S")]. *)
Variable strftime_now : W -> string.

(** The executor's world: the outside world and, as ghost state, the tool
    invocations made so far, oldest first. *)
Record world : Type := World { calls : list call; ext : W }.

(** Computations that read and change the world and may raise. *)
Definition M (A : Type) : Type := world -> res A * world.

Definition ret {A} (a : A) : M A := fun w => (Ok a, w).

Definition bind {A B} (m : M A) (k : A -> M B) : M B :=
  fun w =>
    match m w with
    | (Ok a, w') => k a w'
    | (Raise e, w') => (Raise e, w')
    end.

Definition lift {A} (r : res A) : M A := fun w => (r, w).

(** [try: body  except Exception as e: handler(e)]. *)
Definition try_except {A} (body : M A) (handler : exn -> M A) : M A :=
  fun w =>
    match body w with
    | (Ok a, w') => (Ok a, w')
    | (Raise e, w') => handler e w'
    end.

Notation "x <- c ;; k" := (bind c (fun x => k))
  (at level 61, c at next level, right associativity).
Notation "' p <- c ;; k" := (bind c (fun x => let 'p := x in k))
  (at level 61, p pattern, c at next level, right associativity).

(** [for x in xs: st = body(x, st)]. *)
Fixpoint for_each {A S} (xs : list A) (body : A -> S -> M S) (st : S) : M S :=
  match xs with
  | [] => ret st
  | x :: xs' => st' <- body x st ;; for_each xs' body st'
  end.

(** Calling a tool. *)
Definition invoke (f : tool) (kwargs : list (string * value)) : M value :=
  fun w =>
    let '(r, x) := tools f kwargs (ext w) in
    (r, World (calls w ++ [Call f kwargs])%list x).

Definition py_str (v : value) : string :=
  match v with
  | VStr s => s
  | _ => py_repr v
  end.

(** [safe_json(obj)]. *)
Definition safe_json (obj : value) : value :=
  if json_serializable obj then obj else VStr (py_str obj).

(** [x or []]. *)
Definition or_empty_list (x : value) : value :=
  if py_truthy x then x else VList [].

(** The shape rule applied to a dependency's result and to a freshly built
    query: a dict with a dict under ["query"] stands for that inner dict. *)
Definition unwrap_query (v : value) : value :=
  match v with
  | VDict d =>
      match dict_get "query" d with
      | Some (VDict q) => VDict q
      | _ => v
      end
  | _ => v
  end.

(** Lines 108-121 of [execute_task]: the base query the first declared
    dependency provides, [None] when there is none. *)
Definition dependency_base_query (task : value) (results_cache : pydict) : res value :=
  (deps <-? py_get task "dependent_on_tasks" VNone ;;
   let deps := or_empty_list deps in
   n <-? py_len deps ;;
   prev_task_id <-? (if (0 <? n)%nat then py_index0 deps else Ok VNone) ;;
   if py_truthy prev_task_id then
     prev_result <-? cache_get prev_task_id results_cache ;;
     Ok (unwrap_query prev_result)
   else Ok VNone)%res.

(** Line 136-137: a refined query that is a dict with the single key
    ["query"] stands for the value under that key. *)
Definition unwrap_single_query (refined : value) : value :=
  match refined with
  | VDict [(k, q)] => if String.eqb k "query" then q else refined
  | _ => refined
  end.

(** Lines 124-146: build a fresh base query when there is none, refine,
    and call the search tool. *)
Definition search_with (func : tool) (tool_name sub_task base_query : value) : M value :=
  base_query <-
    (if negb (py_truthy base_query) then
       built <- invoke build_query [("query_string", sub_task); ("time_range", VStr "2d")] ;;
       ret (unwrap_query built)
     else ret base_query) ;;
  refined <- lift (refine_query_for_tool base_query tool_name) ;;
  let refined := unwrap_single_query refined in
  invoke func [("query", refined); ("time_range", VStr "2d")].

(** Lines 106-146 of [execute_task]: the search tools. *)
Definition search_branch (func : tool) (task tool_name sub_task : value)
    (results_cache : pydict) : M value :=
  base_query <- lift (dependency_base_query task results_cache) ;;
  search_with func tool_name sub_task base_query.

(** Lines 156-161: the agent name found in the first dependency's result,
    [None] when there is none or when looking for it raises. *)
Definition extract_agent_name (prev_results : list value) : value :=
  match prev_results with
  | [] => VNone
  | first :: _ =>
      match first with
      | VList (first0 :: _) =>
          match (agent <-? py_get first0 "agent" (VDict []) ;;
                 py_get agent "name" VNone)%res with
          | Ok name => name
          | Raise _ => VNone
          end
      | _ => VNone
      end
  end.

(** [[f(x) for x in xs]] for an [f] that may raise. *)
Fixpoint map_res {A B} (f : A -> res B) (xs : list A) : res (list B) :=
  match xs with
  | [] => Ok []
  | x :: xs' => (y <-? f x ;; ys <-? map_res f xs' ;; Ok (y :: ys))%res
  end.

(** Lines 151-163: the agent lookup. *)
Definition agent_branch (func : tool) (task : value) (results_cache : pydict) : M value :=
  deps <- lift (py_get task "dependent_on_tasks" VNone) ;;
  let deps := or_empty_list deps in
  tids <- lift (py_iter deps) ;;
  prev_results <- lift (map_res (fun tid => cache_get tid results_cache) tids) ;;
  let agent_name := extract_agent_name prev_results in
  invoke func [("agent_name", agent_name)].

Definition is_search_tool_name (tool_name : value) : bool :=
  existsb (py_eqb tool_name)
          [VStr "search_raw_logs"; VStr "search_alerts"; VStr "search_vulnerabilities"].

Definition failure_outcome (task : value) (msg : string) : res value :=
  (tid <-? py_get task "task_id" VNone ;;
   Ok (VDict [("task_id", tid); ("error", VStr msg)]))%res.

(** Lines 100-169 of [execute_task]: the call the tool name selects. *)
Definition call_tool (func : tool) (task tool_name sub_task : value)
    (results_cache : pydict) : M value :=
  if py_eqb tool_name (VStr "build_query") then
    invoke func [("query_string", sub_task); ("time_range", VStr "2d")]
  else if is_search_tool_name tool_name then
    search_branch func task tool_name sub_task results_cache
  else if py_eqb tool_name (VStr "get_agent_data") then
    agent_branch func task results_cache
  else invoke func [].

(** [execute_task(task, results_cache)]: the outcome and the cache as the
    call leaves it. *)
Definition execute_task (task : value) (results_cache : pydict) : M (value * pydict) :=
  tool_name <- lift (py_get task "tool_name" VNone) ;;
  sub_task <- lift (py_get task "sub_task" (VStr "")) ;;
  func <- lift (TOOL_MAPPING_get tool_name) ;;
  match func with
  | None =>
      let error_msg := "❌ Tool '" ++ py_str tool_name ++ "' not found or undefined." in
      out <- lift (failure_outcome task error_msg) ;;
      ret (out, results_cache)
  | Some func =>
      try_except
        (result <- call_tool func task tool_name sub_task results_cache ;;
         let result := safe_json result in
         tid <- lift (py_getitem task "task_id") ;;
         results_cache' <- lift (cache_set tid result results_cache) ;;
         ret (VDict [("task_id", tid); ("result", result)], results_cache'))
        (fun e =>
           out <- lift (failure_outcome task (exn_str e)) ;;
           ret (out, results_cache))
  end.

(** [next((t for t in plans if t["task_id"] == dep_id), None)]. *)
Fixpoint find_task (plans : list value) (dep_id : value) : res value :=
  match plans with
  | [] => Ok VNone
  | t :: plans' =>
      (tid <-? py_getitem t "task_id" ;;
       if py_eqb tid dep_id then Ok t else find_task plans' dep_id)%res
  end.

(** The locals [results_cache] and [task_results] of [run_execution_plan]. *)
Definition run_state : Type := (pydict * list value)%type.

(** Lines 206-210: one declared dependency. *)
Definition resolve_dep (plans : list value) (dep_id : value) (st : run_state) : M run_state :=
  let '(results_cache, task_results) := st in
  present <- lift (cache_mem dep_id results_cache) ;;
  if negb present then
    dep_task <- lift (find_task plans dep_id) ;;
    if py_truthy dep_task then
      '(dep_result, results_cache) <- execute_task dep_task results_cache ;;
      ret (results_cache, (task_results ++ [dep_result])%list)
    else ret st
  else ret st.

(** Lines 201-214: the body of the loop over the plan. *)
Definition run_task (plans : list value) (task : value) (st : run_state) : M run_state :=
  task_id <- lift (py_get task "task_id" VNone) ;;
  deps <- lift (py_get task "dependent_on_tasks" (VList [])) ;;
  let deps := or_empty_list deps in
  dep_ids <- lift (py_iter deps) ;;
  '(results_cache, task_results) <- for_each dep_ids (resolve_dep plans) st ;;
  '(result, results_cache) <- execute_task task results_cache ;;
  ret (results_cache, (task_results ++ [result])%list).

(** Lines 197-214: the loop, from an empty cache and an empty trace. *)
Definition run_loop (plans : list value) : M run_state :=
  for_each plans (run_task plans) ([], []).

(** Lines 216-220: the dict comprehension over the trace. *)
Fixpoint aggregate (task_results : list value) (acc : pydict) : res pydict :=
  match task_results with
  | [] => Ok acc
  | r :: rest =>
      (has <-? py_contains_str "result" r ;;
       if has then
         k <-? py_getitem r "task_id" ;;
         v <-? py_get r "result" VNone ;;
         acc' <-? cache_set k v acc ;;
         aggregate rest acc'
       else aggregate rest acc)%res
  end.

(** [run_execution_plan(plan)]. *)
Definition run_execution_plan (plan : value) : M run_output :=
  has_plans <- (if py_truthy plan then lift (py_contains_str "plans" plan) else ret false) ;;
  if negb has_plans then ret (RunInvalid "Invalid plan format")
  else
    plans <- lift (py_getitem plan "plans") ;;
    plans <- lift (py_iter plans) ;;
    '(results_cache, task_results) <- run_loop plans ;;
    aggregated_results <- lift (aggregate task_results []) ;;
    fun w => (Ok (RunDone (strftime_now (ext w)) task_results aggregated_results), w).

End Executor.

(* ================================================================= *)
(** ** The tools of [tools/main_opensearch.py] *)

(** [s.lower()], on ASCII letters (other bytes are kept). *)
Definition lower_ascii (c : ascii) : ascii :=
  let n := nat_of_ascii c in
  if ((65 <=? n) && (n <=? 90))%nat then ascii_of_nat (n + 32) else c.

Fixpoint str_lower (s : string) : string :=
  match s with
  | EmptyString => EmptyString
  | String c s' => String (lower_ascii c) (str_lower s')
  end.

(** [s.replace(c, "")] for a one-character [c]. *)
Fixpoint str_remove (c : ascii) (s : string) : string :=
  match s with
  | EmptyString => EmptyString
  | String a s' => if Ascii.eqb a c then str_remove c s' else String a (str_remove c s')
  end.

(** [int(s)] for ASCII text: blanks around, an optional sign, decimal
    digits with single underscores between them.  Text with other bytes
    (digits of other scripts) is outside the model and is rejected. *)
Definition is_space (c : ascii) : bool :=
  let n := nat_of_ascii c in
  (((9 <=? n) && (n <=? 13)) || ((28 <=? n) && (n <=? 32)))%nat.

Fixpoint lstrip (s : string) : string :=
  match s with
  | String c s' => if is_space c then lstrip s' else s
  | EmptyString => EmptyString
  end.

Fixpoint rstrip (s : string) : string :=
  match s with
  | EmptyString => EmptyString
  | String c s' =>
      match rstrip s' with
      | EmptyString => if is_space c then EmptyString else String c EmptyString
      | r => String c r
      end
  end.

Definition digit_of (c : ascii) : option Z :=
  let n := nat_of_ascii c in
  if ((48 <=? n) && (n <=? 57))%nat then Some (Z.of_nat (n - 48)) else None.

(** Digits after the first one; [after_us] tells that the previous character
    was an underscore, which must be followed by a digit. *)
Fixpoint parse_digits (s : string) (acc : Z) (after_us : bool) : option Z :=
  match s with
  | EmptyString => if after_us then None else Some acc
  | String c s' =>
      match digit_of c with
      | Some d => parse_digits s' (10 * acc + d) false
      | None =>
          if Ascii.eqb c "_"%char && negb after_us then parse_digits s' acc true
          else None
      end
  end.

Definition parse_unsigned (s : string) : option Z :=
  match s with
  | String c s' =>
      match digit_of c with
      | Some d => parse_digits s' d false
      | None => None
      end
  | EmptyString => None
  end.

Definition py_int (s : string) : res Z :=
  let body := rstrip (lstrip s) in
  let parsed :=
    match body with
    | String "-" s' => option_map Z.opp (parse_unsigned s')
    | String "+" s' => parse_unsigned s'
    | _ => parse_unsigned body
    end in
  match parsed with
  | Some n => Ok n
  | None => Raise (Exn ValueError ("invalid literal for int() with base 10: '" ++ s ++ "'"))
  end.

(** Instants are microseconds since [datetime.min]. *)
Definition us_per_day : Z := 86400000000.
Definition datetime_max : Z := 3652059 * us_per_day - 1.
Definition unix_epoch : Z := 719162 * us_per_day.

(** Python binds keyword arguments to parameters: an unknown keyword or a
    missing parameter without default is a [TypeError]. *)
Fixpoint bind_params (fname : string) (params : list (string * option value))
    (kwargs : list (string * value)) : res (list value) :=
  match params with
  | [] => Ok []
  | (p, dflt) :: ps =>
      match dict_get p kwargs, dflt with
      | Some v, _ | None, Some v =>
          (rest <-? bind_params fname ps kwargs ;; Ok (v :: rest))%res
      | None, None =>
          Raise (Exn TypeError
                   (fname ++ "() missing 1 required positional argument: '" ++ p ++ "'"))
      end
  end.

Definition bind_call (fname : string) (params : list (string * option value))
    (kwargs : list (string * value)) : res (list value) :=
  match find (fun kv => negb (dict_mem (fst kv) params)) kwargs with
  | Some (k, _) =>
      Raise (Exn TypeError (fname ++ "() got an unexpected keyword argument '" ++ k ++ "'"))
  | None => bind_params fname params kwargs
  end.

Section MainOpensearch.

Context {W : Type}.

(** The module global [opensearch_client]: [None] when the connection
    failed at import, else the client, of which only
    [search(body=..., index=...)] is used. *)
Variable opensearch_client : option (value -> string -> W -> res value * W).

(** [datetime.utcnow()]: the instant read and the world afterwards. *)
Variable utcnow : W -> Z * W.

(** [t.isoformat()]. *)
Variable isoformat : Z -> string.

Variable py_repr : value -> string.

Definition fmt (v : value) : string :=
  match v with
  | VStr s => s
  | _ => py_repr v
  end.

(** [t - timedelta(days=days)]. *)
Definition minus_days (t days : Z) : res Z :=
  if (Z.abs days >? 999999999)%Z then
    Raise (Exn OverflowError
             ("days=" ++ fmt (VInt days) ++ "; must have magnitude <= 999999999"))
  else
    let r := (t - days * us_per_day)%Z in
    if ((0 <=? r) && (r <=? datetime_max))%Z then Ok r
    else Raise (Exn OverflowError "date value out of range").

Definition not_initialized : value :=
  VDict [("error", VStr "OpenSearch client not initialized")].

(** [build_query(query_string, time_range="2d")]. *)
Definition build_query_fn (query_string time_range : value) (w : W) : res value * W :=
  match time_range with
  | VStr time_range =>
      let '(time_filter, w) :=
        if negb (String.eqb (str_lower time_range) "anytime") then
          let '(end_time, w) := utcnow w in
          let start_time :=
            if is_substring "d" time_range then
              (days <-? py_int (str_remove "d"%char time_range) ;;
               minus_days end_time days)%res
            else Ok end_time in
          (res_bind start_time (fun start_time =>
             Ok (VDict [("range",
                   VDict [("@timestamp",
                     VDict [("gte", VStr (isoformat start_time));
                            ("lte", VStr (isoformat end_time))])])])), w)
        else (Ok (VDict []), w) in
      (res_bind time_filter (fun time_filter =>
         let filter := if py_truthy time_filter then [time_filter] else [] in
         let filter := (filter ++ [VDict [("query_string", VDict [("query", query_string)])]])%list in
         Ok (VDict [("query", VDict [("bool", VDict [("filter", VList filter)])])])), w)
  | _ => (Raise (no_attribute time_range "lower"), w)
  end.

(** The common tail of the search tools:
    [try: resp = client.search(...); return [hit["_source"] for hit in
    resp.get("hits", {}).get("hits", [])]  except Exception: return []]. *)
Definition search_hits (search : value -> string -> W -> res value * W)
    (search_body : value) (index : string) (w : W) : res value * W :=
  let '(resp, w) := search search_body index w in
  let hits :=
    (resp <-? resp ;;
     outer <-? py_get resp "hits" (VDict []) ;;
     inner <-? py_get outer "hits" (VList []) ;;
     hits <-? py_iter inner ;;
     sources <-? map_res (fun hit => py_getitem hit "_source") hits ;;
     Ok (VList sources))%res in
  match hits with
  | Ok v => (Ok v, w)
  | Raise _ => (Ok (VList []), w)
  end.

Definition timestamp_filter (time_range : value) : value :=
  VDict [("range", VDict [("@timestamp", VDict [("gte", VStr ("now-" ++ fmt time_range))])])].

Definition level_filter (min_level : value) : value :=
  VDict [("range", VDict [("rule.level", VDict [("gte", min_level)])])].

Definition bool_query (must filter : list value) (size : Z) : value :=
  VDict [("query", VDict [("bool", VDict [("must", VList must); ("filter", VList filter)])]);
         ("size", VInt size)].

(** [search_raw_logs(query, time_range="1h")]. *)
Definition search_raw_logs_fn (query time_range : value) (w : W) : res value * W :=
  match opensearch_client with
  | None => (Ok not_initialized, w)
  | Some search =>
      let search_body :=
        bool_query [VDict [("query_string", VDict [("query", query)])]]
                   [timestamp_filter time_range] 20 in
      search_hits search search_body "wazuh-archives-*" w
  end.

(** [search_alerts(query, time_range="1h", min_level=0)]. *)
Definition search_alerts_fn (query time_range min_level : value) (w : W) : res value * W :=
  match opensearch_client with
  | None => (Ok not_initialized, w)
  | Some search =>
      let search_body :=
        bool_query [VDict [("query_string", VDict [("query", query)])]]
                   [timestamp_filter time_range; level_filter min_level] 20 in
      search_hits search search_body "wazuh-alerts-*" w
  end.

(** [get_agent_data(agent_id=None, agent_name=None)]. *)
Definition get_agent_data_fn (agent_id agent_name : value) (w : W) : res value * W :=
  match opensearch_client with
  | None => (Ok not_initialized, w)
  | Some search =>
      if negb (py_truthy agent_id) && negb (py_truthy agent_name) then
        (Ok (VDict [("error", VStr "agent_id or agent_name required")]), w)
      else
        let query_str :=
          if py_truthy agent_id then "agent.id:" ++ dquote ++ fmt agent_id ++ dquote
          else "agent.name:" ++ dquote ++ fmt agent_name ++ dquote in
        let search_body :=
          VDict [("query", VDict [("query_string", VDict [("query", VStr query_str)])]);
                 ("size", VInt 1)] in
        search_hits search search_body "wazuh-agent-*" w
  end.

(** [search_vulnerabilities(query="*", time_range="1h", min_level=5)]. *)
Definition search_vulnerabilities_fn (query time_range min_level : value) (w : W)
  : res value * W :=
  match opensearch_client with
  | None => (Ok not_initialized, w)
  | Some search =>
      let vuln_query := "rule.groups:vulnerability-detector" in
      let vuln_query :=
        if negb (py_eqb query (VStr "*")) then vuln_query ++ " AND (" ++ fmt query ++ ")"
        else vuln_query in
      let search_body :=
        bool_query [VDict [("query_string", VDict [("query", VStr vuln_query)])]]
                   [timestamp_filter time_range; level_filter min_level] 20 in
      search_hits search search_body "wazuh-alerts-*" w
  end.

(** The imported functions, called with keyword arguments. *)
Definition main_opensearch (f : tool) (kwargs : list (string * value)) (w : W)
  : res value * W :=
  match f with
  | build_query =>
      match bind_call "build_query"
              [("query_string", None); ("time_range", Some (VStr "2d"))] kwargs with
      | Ok [q; t] => build_query_fn q t w
      | Ok _ => (Ok VNone, w)
      | Raise e => (Raise e, w)
      end
  | search_raw_logs =>
      match bind_call "search_raw_logs"
              [("query", None); ("time_range", Some (VStr "1h"))] kwargs with
      | Ok [q; t] => search_raw_logs_fn q t w
      | Ok _ => (Ok VNone, w)
      | Raise e => (Raise e, w)
      end
  | search_alerts =>
      match bind_call "search_alerts"
              [("query", None); ("time_range", Some (VStr "1h"));
               ("min_level", Some (VInt 0))] kwargs with
      | Ok [q; t; l] => search_alerts_fn q t l w
      | Ok _ => (Ok VNone, w)
      | Raise e => (Raise e, w)
      end
  | get_agent_data =>
      match bind_call "get_agent_data"
              [("agent_id", Some VNone); ("agent_name", Some VNone)] kwargs with
      | Ok [i; n] => get_agent_data_fn i n w
      | Ok _ => (Ok VNone, w)
      | Raise e => (Raise e, w)
      end
  | search_vulnerabilities =>
      match bind_call "search_vulnerabilities"
              [("query", Some (VStr "*")); ("time_range", Some (VStr "1h"));
               ("min_level", Some (VInt 5))] kwargs with
      | Ok [q; t; l] => search_vulnerabilities_fn q t l w
      | Ok _ => (Ok VNone, w)
      | Raise e => (Raise e, w)
      end
  end.

End MainOpensearch.

(* ----------------------------------------------------------------- *)
(** *** The dynamic executor *)

Section ExecuteTool.

Context {W : Type}.
Variable opensearch_client : option (value -> string -> W -> res value * W).
Variable utcnow : W -> Z * W.
Variable isoformat : Z -> string.
Variable py_repr : value -> string.

(** [execute_tool(tool_name, **kwargs)]: the chain of comparisons of
    lines 181-192; the keyword arguments are handed on as they are. *)
Definition execute_tool (tool_name : value) (kwargs : list (string * value)) (w : W)
  : res value * W :=
  let call f := main_opensearch opensearch_client utcnow isoformat py_repr f kwargs w in
  if py_eqb tool_name (VStr "build_query") then call build_query
  else if py_eqb tool_name (VStr "search_raw_logs") then call search_raw_logs
  else if py_eqb tool_name (VStr "search_alerts") then call search_alerts
  else if py_eqb tool_name (VStr "get_agent_data") then call get_agent_data
  else if py_eqb tool_name (VStr "search_vulnerabilities") then call search_vulnerabilities
  else (Raise (Exn ValueError ("Unknown tool: " ++ fmt py_repr tool_name)), w).

End ExecuteTool.

(* ================================================================= *)
(** ** The audit log of [audit_logger.py] *)

(** The file [audit_log.json], by what reading it gives: it does not
    exist; opening or reading it raises (an exception other than
    [JSONDecodeError]); its text is no JSON document, so that [json.load]
    raises [JSONDecodeError]; or its text is the JSON document [v]. *)
Inductive audit_file : Type :=
| NoFile
| Unreadable (e : exn)
| Malformed
| Document (v : value).

Inductive log_level : Type := INFO | WARNING | ERROR.

Section AuditLogger.

(** The world outside the logger: the clock. *)
Context {W : Type}.

(** [datetime.now().isoformat()]. *)
Variable now_isoformat : W -> string * W.

Variable py_repr : value -> string.

(** The logger's world: the audit file, the lines sent to the console,
    oldest first, and the outside world. *)
Record logger_world : Type :=
  LoggerWorld { audit : audit_file; console : list (log_level * string); outside : W }.

Definition set_audit (f : audit_file) (s : logger_world) : logger_world :=
  LoggerWorld f (console s) (outside s).

(** [logger.info(msg)], [logger.warning(msg)], [logger.error(msg)]. *)
Definition log_line (l : log_level) (msg : string) (s : logger_world) : logger_world :=
  LoggerWorld (audit s) (console s ++ [(l, msg)])%list (outside s).

(** [_load_audit_file()]: only [JSONDecodeError] is caught. *)
Definition _load_audit_file (s : logger_world) : res value * logger_world :=
  match audit s with
  | NoFile => (Ok (VList []), s)
  | Unreadable e => (Raise e, s)
  | Malformed => (Ok (VList []), log_line WARNING "⚠️ Corrupted audit log, starting new." s)
  | Document v => (Ok v, s)
  end.

(** [_save_audit_file(data)].  Opening the file for writing empties it, and
    [json.dump] writes the pieces of the text as it produces them: when it
    meets a value it cannot encode it raises [TypeError], and what is left
    in the file is the beginning of a document, which is no document.
    Writing to the file itself is taken not to fail. *)
Definition _save_audit_file (data : value) (s : logger_world) : res unit * logger_world :=
  if json_serializable data then (Ok tt, set_audit (Document data) s)
  else (Raise (Exn TypeError "Object of type function is not JSON serializable"),
        set_audit Malformed s).

(** [append_audit_entry(entry)]. *)
Definition append_audit_entry (entry : value) (s : logger_world) : res unit * logger_world :=
  let body :=
    let '(data, s) := _load_audit_file s in
    match (data <-? data ;; py_append data entry)%res with
    | Ok data => _save_audit_file data s
    | Raise e => (Raise e, s)
    end in
  match body with
  | (Ok tt, s) => (Ok tt, s)
  | (Raise e, s) =>
      (Ok tt, log_line ERROR ("❌ Failed to write audit entry: " ++ exn_str e) s)
  end.

(** The entry [log_step] builds. *)
Definition audit_entry (timestamp : string) (step_name status data error : value) : value :=
  let entry := [("timestamp", VStr timestamp); ("step", step_name);
                ("status", status); ("data", data)] in
  VDict (if py_truthy error then dict_set "error" (VStr (fmt py_repr error)) entry
         else entry).

(** [log_step(step_name, status, data=None, error=None)]. *)
Definition log_step (step_name status data error : value) (s : logger_world)
  : res unit * logger_world :=
  let '(timestamp, x) := now_isoformat (outside s) in
  let s := LoggerWorld (audit s) (console s) x in
  let entry := audit_entry timestamp step_name status data error in
  match append_audit_entry entry s with
  | (Ok tt, s) =>
      (Ok tt,
       if py_eqb status (VStr "success") then
         log_line INFO ("✅ [" ++ fmt py_repr step_name ++ "] completed successfully.") s
       else if py_eqb status (VStr "in_progress") then
         log_line INFO ("⏳ [" ++ fmt py_repr step_name ++ "] started...") s
       else
         log_line ERROR ("❌ [" ++ fmt py_repr step_name ++ "] failed: "
                         ++ fmt py_repr error) s)
  | (Raise e, s) => (Raise e, s)
  end.

End AuditLogger.

(* ================================================================= *)
(** ** Reading the planner's answer ([planner_agent.py]) *)

(** [s[n:]]. *)
Fixpoint str_drop (n : nat) (s : string) : string :=
  match n, s with
  | O, _ => s
  | S n', String _ s' => str_drop n' s'
  | S _, EmptyString => EmptyString
  end.

(** The text after the first occurrence of [p] in [s], and the text
    before it; [None] when [p] does not occur. *)
Fixpoint after_first (p s : string) : option string :=
  if is_prefix p s then Some (str_drop (String.length p) s)
  else match s with
       | EmptyString => None
       | String _ s' => after_first p s'
       end.

Fixpoint before_first (p s : string) : option string :=
  if is_prefix p s then Some EmptyString
  else match s with
       | EmptyString => None
       | String c s' => option_map (String c) (before_first p s')
       end.

(** Group 1 of [re.search(r'```json(.*?)```', text, re.DOTALL)]: the
    search stops at the first opening fence, and the lazy group ends at the
    first closing fence after it; without a closing fence after the first
    opening one there is none after any later one, and no match. *)
Definition fenced_block (text : string) : option string :=
  match after_first "```json" text with
  | Some rest => before_first "```" rest
  | None => None
  end.

(** The suffix of [s] that starts at the first [c], and the prefix of [s]
    that ends at the last [c]. *)
Fixpoint from_first (c : ascii) (s : string) : option string :=
  match s with
  | EmptyString => None
  | String a s' => if Ascii.eqb a c then Some s else from_first c s'
  end.

Fixpoint upto_last (c : ascii) (s : string) : option string :=
  match s with
  | EmptyString => None
  | String a s' =>
      match upto_last c s' with
      | Some r => Some (String a r)
      | None => if Ascii.eqb a c then Some (String a EmptyString) else None
      end
  end.

(** Group 0 of [re.search(r'\{.*\}', text, re.DOTALL)]: from the first
    opening brace to the last closing brace after it, the group being
    greedy. *)
Definition braced (text : string) : option string :=
  match from_first "{" text with
  | Some (String b rest) => option_map (String b) (upto_last "}" rest)
  | _ => None
  end.

Section PlannerAgent.

(** [json.loads]. *)
Variable json_loads : string -> res value.

(** [extract_json_from_text(text)]. *)
Definition extract_json_from_text (text : string) : res value :=
  let text :=
    match fenced_block text with
    | Some body => body
    | None => text
    end in
  match braced text with
  | None => Raise (Exn ValueError "No JSON found in model output.")
  | Some found => json_loads found
  end.

End PlannerAgent.

(* ================================================================= *)
(** ** The orchestrator ([orchestrator.py]) and its MCP wrapper
       ([mcp_server.py]) *)

(** The Python objects the orchestrator handles besides JSON values: the
    dict [run_execution_plan] returns, its [aggregated_results], and the
    dicts built from such parts. *)
#[warnings="-register-all"]
Inductive pyobj : Type :=
| PValue (v : value)
| PCache (d : pydict)
| PRun (o : run_output)
| PDict (kvs : list (string * pyobj)).

Section Orchestrator.

(** The world outside: the search backend, the clocks, the planner's
    model, the audit file.  [R] is the type of the responses that
    [JSONResponse] makes. *)
Context {W R : Type}.

Variable tools : tool -> list (string * value) -> W -> res value * W.
Variable py_repr : value -> string.
Variable strftime_now : W -> string.

(** [planner_agent.generate_plan] and
    [planner_agent.generate_report_from_results(goal=..., exec_results=...)]:
    each returns a value or raises, and may change the world. *)
Variable generate_plan : value -> W -> res value * W.
Variable generate_report_from_results : value -> pyobj -> W -> res value * W.

(** [audit_logger.log_step(step_name, status, data)], which does not
    raise. *)
Variable log_step : string -> string -> pyobj -> W -> W.

(** [JSONResponse(content, status_code=...)] of the web framework, which
    renders the content at once and raises when it cannot. *)
Variable JSONResponse : pyobj -> Z -> res R.

(** In [mcp_server.py]: [json.loads(response.body.decode())],
    [str(response)] and [traceback.format_exc()]. *)
Variable decode_body : R -> res value.
Variable response_str : R -> string.
Variable format_exc : exn -> string.

Notation "x <- c ;; k" := (bind c (fun x => k))
  (at level 61, c at next level, right associativity).

Notation "' p <- c ;; k" := (bind c (fun x => let 'p := x in k))
  (at level 61, p pattern, c at next level, right associativity).

(** A call that acts on the outside world alone. *)
Definition outside_call {A} (f : W -> res A * W) : @M W A :=
  fun w => let '(r, x) := f (ext w) in (r, World (calls w) x).

Definition logged (step_name status : string) (data : pyobj) : @M W unit :=
  fun w => (Ok tt, World (calls w) (log_step step_name status data (ext w))).

Definition respond (content : pyobj) (status_code : Z) : @M W R :=
  lift (JSONResponse content status_code).

Definition failure_content (error : string) (more : list (string * value)) : pyobj :=
  PValue (VDict ([("status", VBool false); ("error", VStr error)] ++ more)%list).

(** Lines 59-63: [body.get("user_input") or body.get("input") or (body if
    isinstance(body, str) else None)]. *)
Definition read_user_input (body : value) : res value :=
  (a <-? py_get body "user_input" VNone ;;
   if py_truthy a then Ok a
   else
     b <-? py_get body "input" VNone ;;
     if py_truthy b then Ok b
     else Ok (if match body with VStr _ => true | _ => false end then body else VNone))%res.

(** [len(plan_data.get("plan", {}).get("plans", []))]. *)
Definition plan_size (plan_data : value) : res value :=
  (plan <-? py_get plan_data "plan" (VDict []) ;;
   plans <-? py_get plan "plans" (VList []) ;;
   n <-? py_len plans ;;
   Ok (VInt (Z.of_nat n)))%res.

(** Lines 128-170: from the result of the execution to the response. *)
Definition report_and_respond (user_input plan_data : value)
    (task_results : list value) (aggregated_results : pydict) : @M W R :=
  executed_at <- (fun w => (Ok (strftime_now (ext w)), w)) ;;
  goal <- lift (py_get plan_data "goal" VNone) ;;
  plan <- lift (py_get plan_data "plan" VNone) ;;
  let combined_result :=
    [("status", PValue (VBool true));
     ("executed_at", PValue (VStr executed_at));
     ("goal", PValue goal);
     ("plan", PValue plan);
     ("task_results", PValue (VList task_results));
     ("aggregated_results", PCache aggregated_results)] in
  _ <- logged "report_generation" "in_progress" (PValue (VDict [("goal", user_input)])) ;;
  goal <- lift (py_get plan_data "goal" VNone) ;;
  '(report_result, combined_result) <-
    try_except
      (report_result <-
         outside_call (generate_report_from_results goal (PDict combined_result)) ;;
       ret (report_result, combined_result))
      (fun e =>
         _ <- logged "report_generation" "failed"
                (PValue (VDict [("error", VStr (exn_str e))])) ;;
         ret (VDict [("status", VBool false); ("error", VStr (exn_str e))],
              dict_set "report_generation_error" (PValue (VStr (exn_str e)))
                combined_result)) ;;
  report_status <- lift (py_get report_result "status" VNone) ;;
  combined_result <-
    (if py_truthy report_status then
       report <- lift (py_getitem report_result "report") ;;
       _ <- logged "report_generation" "success"
              (PValue (VDict [("summary", VStr "Report generated")])) ;;
       ret (dict_set "formatted_report" (PValue report) combined_result)
     else
       error <- lift (py_get report_result "error" (VStr "Unknown error")) ;;
       _ <- logged "report_generation" "failed" (PValue report_result) ;;
       ret (dict_set "report_generation_error" (PValue error) combined_result)) ;;
  _ <- logged "orchestration_complete" "success" (PValue (VDict [("goal", user_input)])) ;;
  respond (PDict combined_result) 200.

(** Lines 99-126: the plan is executed. *)
Definition execute_and_report (user_input plan_data : value) : @M W R :=
  n <- lift (plan_size plan_data) ;;
  _ <- logged "plan_generation" "success" (PValue (VDict [("plan_tasks", n)])) ;;
  n <- lift (plan_size plan_data) ;;
  _ <- logged "plan_execution" "in_progress" (PValue (VDict [("tasks", n)])) ;;
  fun w =>
    match (plan <- lift (py_getitem plan_data "plan") ;;
           run_execution_plan tools py_repr strftime_now plan) w with
    | (Raise e, w) =>
        (_ <- logged "plan_execution" "failed"
                (PValue (VDict [("error", VStr (exn_str e))])) ;;
         respond (failure_content ("Executor error: " ++ exn_str e) []) 500) w
    | (Ok exec_data, w) =>
        match exec_data with
        | RunInvalid _ =>
            (_ <- logged "plan_execution" "failed" (PRun exec_data) ;;
             respond (PDict [("status", PValue (VBool false));
                             ("error", PValue (VStr "Executor failed"));
                             ("details", PRun exec_data)]) 500) w
        | RunDone _ task_results aggregated_results =>
            (_ <- logged "plan_execution" "success" (PRun exec_data) ;;
             report_and_respond user_input plan_data task_results aggregated_results) w
        end
    end.

(** [run_full_analysis(request)], for a request whose [json()] gives
    [request_json]: the parsed body, or an exception.  What is printed is
    left out. *)
Definition run_full_analysis (request_json : res value) : @M W R :=
  let body :=
    match request_json with
    | Ok body => body
    | Raise _ => VDict []
    end in
  user_input <- lift (read_user_input body) ;;
  if negb (py_truthy user_input) then
    _ <- logged "orchestration" "failed"
           (PValue (VDict [("error", VStr "Missing user_input or input")])) ;;
    respond (failure_content "Missing 'user_input' or 'input' in request payload"
               [("received", body)]) 400
  else
    _ <- logged "plan_generation" "in_progress" (PValue (VDict [("goal", user_input)])) ;;
    fun w =>
      match outside_call (generate_plan user_input) w with
      | (Raise e, w) =>
          (_ <- logged "plan_generation" "failed"
                  (PValue (VDict [("error", VStr (exn_str e))])) ;;
           respond (failure_content ("Planner error: " ++ exn_str e) []) 500) w
      | (Ok plan_data, w) =>
          (plan_status <- lift (py_get plan_data "status" VNone) ;;
           if negb (py_truthy plan_status) then
             _ <- logged "plan_generation" "failed" (PValue plan_data) ;;
             respond (failure_content "Planner failed" [("details", plan_data)]) 500
           else execute_and_report user_input plan_data) w
      end.

(** [run_cyber_investigation(user_input)] of [mcp_server.py]; the request
    it hands to [run_full_analysis] answers [json()] with
    [{"user_input": user_input}]. *)
Definition run_cyber_investigation (user_input : value) : @M W value :=
  _ <- logged "mcp_invocation" "started" (PValue (VDict [("goal", user_input)])) ;;
  try_except
    (response <- run_full_analysis (Ok (VDict [("user_input", user_input)])) ;;
     let data :=
       match decode_body response with
       | Ok data => data
       | Raise _ => VDict [("raw_response", VStr (response_str response))]
       end in
     _ <- logged "mcp_invocation" "success"
            (PValue (VDict [("summary", VStr "Investigation completed")])) ;;
     ret (VDict [("status", VBool true); ("result", data)]))
    (fun e =>
       _ <- logged "mcp_invocation" "failed"
              (PValue (VDict [("error", VStr (exn_str e)); ("trace", VStr (format_exc e))])) ;;
       ret (VDict [("status", VBool false); ("error", VStr (exn_str e))])).

End Orchestrator.

(* ================================================================= *)
(** ** Query Adapter, on a store of objects *)

(** Python dictionaries and lists are objects with identity, and
    [refine_query_for_tool] updates some of them in place.  This model keeps
    the objects in a store, so that sharing between the base query, the
    Result Cache and the refined query is visible. *)
Module Store.

Definition loc : Type := nat.

(** What a variable or a container slot holds: an immutable value, or a
    reference to a dictionary or list in the store. *)
Inductive sval : Type :=
| SNone
| SBool (b : bool)
| SInt (n : Z)
| SStr (s : string)
| SObj (oid : nat)
| SRef (l : loc).

Inductive obj : Type :=
| ODict (d : list (string * sval))
| OList (xs : list sval).

(** The store: object [l] is the [l]-th element; allocation appends. *)
Definition store : Type := list obj.

Fixpoint store_set (l : loc) (o : obj) (h : store) : store :=
  match h, l with
  | [], _ => []
  | _ :: h', O => o :: h'
  | o' :: h', S l' => o' :: store_set l' o h'
  end.

Definition alloc (o : obj) (h : store) : loc * store :=
  (List.length h, (h ++ [o])%list).

(** [y[k] = v] and [y.append(v)] on the object at [y]. *)
Definition dict_store (y : loc) (k : string) (v : sval) (h : store) : store :=
  match nth_error h y with
  | Some (ODict d) => store_set y (ODict (dict_set k v d)) h
  | _ => h
  end.

Definition list_append (y : loc) (vs : list sval) (h : store) : store :=
  match nth_error h y with
  | Some (OList xs) => store_set y (OList (xs ++ vs)) h
  | _ => h
  end.

(** [copy.deepcopy]'s memo table: original object, its copy. *)
Definition memo : Type := list (loc * loc).

Fixpoint memo_get (l : loc) (m : memo) : option loc :=
  match m with
  | [] => None
  | (l', y) :: m' => if Nat.eqb l l' then Some y else memo_get l m'
  end.

Definition copier : Type := sval -> memo -> store -> option (sval * memo * store).

(** [for a in x: y.append(deepcopy(a, memo))]. *)
Fixpoint copy_list_items (rec : copier) (y : loc) (xs : list sval) (m : memo) (h : store)
  : option (memo * store) :=
  match xs with
  | [] => Some (m, h)
  | a :: xs' =>
      match rec a m h with
      | Some (a', m', h') => copy_list_items rec y xs' m' (list_append y [a'] h')
      | None => None
      end
  end.

(** [for key, value in x.items(): y[deepcopy(key, memo)] = deepcopy(value, memo)]. *)
Fixpoint copy_dict_items (rec : copier) (y : loc) (kvs : list (string * sval))
    (m : memo) (h : store) : option (memo * store) :=
  match kvs with
  | [] => Some (m, h)
  | (k, a) :: kvs' =>
      match rec a m h with
      | Some (a', m', h') => copy_dict_items rec y kvs' m' (dict_store y k a' h')
      | None => None
      end
  end.

(** [copy.deepcopy(x, memo)]: immutable values are returned as they are;
    an object already in the memo table yields its copy; another object gets
    an empty copy, entered in the memo table before its items are copied
    into it.  [fuel] bounds the nesting of calls; [None] is returned when it
    runs out or a reference dangles. *)
Fixpoint deepcopy (fuel : nat) (x : sval) (m : memo) (h : store)
  : option (sval * memo * store) :=
  match x with
  | SRef l =>
      match memo_get l m with
      | Some y => Some (SRef y, m, h)
      | None =>
          match fuel, nth_error h l with
          | S fuel', Some (OList xs) =>
              let '(y, h) := alloc (OList []) h in
              match copy_list_items (deepcopy fuel') y xs ((l, y) :: m) h with
              | Some (m', h') => Some (SRef y, m', h')
              | None => None
              end
          | S fuel', Some (ODict kvs) =>
              let '(y, h) := alloc (ODict []) h in
              match copy_dict_items (deepcopy fuel') y kvs ((l, y) :: m) h with
              | Some (m', h') => Some (SRef y, m', h')
              | None => None
              end
          | _, _ => None
          end
      end
  | _ => Some (x, m, h)
  end.

(** Building the objects of a literal. *)
Fixpoint alloc_value (v : value) (h : store) {struct v} : sval * store :=
  match v with
  | VNone => (SNone, h)
  | VBool b => (SBool b, h)
  | VInt n => (SInt n, h)
  | VStr s => (SStr s, h)
  | VObj oid => (SObj oid, h)
  | VList xs =>
      let '(svs, h) :=
        (fix items (xs : list value) (h : store) {struct xs} : list sval * store :=
           match xs with
           | [] => ([], h)
           | x :: xs' =>
               let '(sv, h) := alloc_value x h in
               let '(svs, h) := items xs' h in
               (sv :: svs, h)
           end) xs h in
      let '(l, h) := alloc (OList svs) h in
      (SRef l, h)
  | VDict kvs =>
      let '(skvs, h) :=
        (fix items (kvs : list (string * value)) (h : store) {struct kvs}
           : list (string * sval) * store :=
           match kvs with
           | [] => ([], h)
           | (k, x) :: kvs' =>
               let '(sv, h) := alloc_value x h in
               let '(skvs, h) := items kvs' h in
               ((k, sv) :: skvs, h)
           end) kvs h in
      let '(l, h) := alloc (ODict skvs) h in
      (SRef l, h)
  end.

Fixpoint alloc_values (vs : list value) (h : store) : list sval * store :=
  match vs with
  | [] => ([], h)
  | v :: vs' =>
      let '(sv, h) := alloc_value v h in
      let '(svs, h) := alloc_values vs' h in
      (sv :: svs, h)
  end.

(** The tree of values reachable from [x], to depth [fuel]. *)
Fixpoint snapshot (fuel : nat) (h : store) (x : sval) : option value :=
  match x with
  | SNone => Some VNone
  | SBool b => Some (VBool b)
  | SInt n => Some (VInt n)
  | SStr s => Some (VStr s)
  | SObj oid => Some (VObj oid)
  | SRef l =>
      match fuel, nth_error h l with
      | S fuel', Some (OList xs) =>
          option_map VList
            ((fix items (xs : list sval) : option (list value) :=
                match xs with
                | [] => Some []
                | a :: xs' =>
                    match snapshot fuel' h a, items xs' with
                    | Some v, Some vs => Some (v :: vs)
                    | _, _ => None
                    end
                end) xs)
      | S fuel', Some (ODict kvs) =>
          option_map VDict
            ((fix items (kvs : list (string * sval)) : option (list (string * value)) :=
                match kvs with
                | [] => Some []
                | (k, a) :: kvs' =>
                    match snapshot fuel' h a, items kvs' with
                    | Some v, Some vs => Some ((k, v) :: vs)
                    | _, _ => None
                    end
                end) kvs)
      | _, _ => None
      end
  end.

Definition stype_name (h : store) (x : sval) : string :=
  match x with
  | SNone => "NoneType"
  | SBool _ => "bool"
  | SInt _ => "int"
  | SStr _ => "str"
  | SObj _ => "function"
  | SRef l => match nth_error h l with Some (OList _) => "list" | _ => "dict" end
  end.

Definition sno_attribute (h : store) (x : sval) (attr : string) : exn :=
  Exn AttributeError
      ("'" ++ stype_name h x ++ "' object has no attribute '" ++ attr ++ "'").

(** [x.setdefault(k, dflt)] for an already built default [dflt]. *)
Definition setdefault (x : sval) (k : string) (dflt : sval) (h : store)
  : res sval * store :=
  match x with
  | SRef l =>
      match nth_error h l with
      | Some (ODict d) =>
          match dict_get k d with
          | Some v => (Ok v, h)
          | None => (Ok dflt, dict_store l k dflt h)
          end
      | _ => (Raise (sno_attribute h x "setdefault"), h)
      end
  | _ => (Raise (sno_attribute h x "setdefault"), h)
  end.

(** [x[k]]. *)
Definition getitem (x : sval) (k : string) (h : store) : res sval :=
  match x with
  | SRef l =>
      match nth_error h l with
      | Some (ODict d) =>
          match dict_get k d with
          | Some v => Ok v
          | None => Raise (Exn KeyError ("'" ++ k ++ "'"))
          end
      | _ => Raise (Exn TypeError "list indices must be integers or slices, not str")
      end
  | SStr _ => Raise (Exn TypeError "string indices must be integers, not 'str'")
  | _ => Raise (Exn TypeError ("'" ++ stype_name h x ++ "' object is not subscriptable"))
  end.

(** [refined_query["bool"]["must"] += extra]: the list under ["must"] is
    extended in place and stored back under the same key. *)
Definition must_iadd (refined_query : sval) (extra : list value) (h : store)
  : res unit * store :=
  match getitem refined_query "bool" h with
  | Raise e => (Raise e, h)
  | Ok b =>
      match getitem b "must" h with
      | Raise e => (Raise e, h)
      | Ok m =>
          let '(svs, h) := alloc_values extra h in
          match m with
          | SRef lm =>
              match nth_error h lm with
              | Some (OList _) =>
                  let h := list_append lm svs h in
                  match b with
                  | SRef lb => (Ok tt, dict_store lb "must" m h)
                  | _ => (Ok tt, h)
                  end
              | _ =>
                  (Raise (Exn TypeError
                            "unsupported operand type(s) for +=: 'dict' and 'list'"), h)
              end
          | SStr _ =>
              (Raise (Exn TypeError
                        ("can only concatenate str (not " ++ dquote ++ "list" ++ dquote
                           ++ ") to str")), h)
          | _ =>
              (Raise (Exn TypeError
                        ("unsupported operand type(s) for +=: '" ++ stype_name h m
                           ++ "' and 'list'")), h)
          end
      end
  end.

(** [refined_query["bool"]["must"].append(x)]. *)
Definition must_append (refined_query : sval) (x : value) (h : store)
  : res unit * store :=
  match getitem refined_query "bool" h with
  | Raise e => (Raise e, h)
  | Ok b =>
      match getitem b "must" h with
      | Raise e => (Raise e, h)
      | Ok m =>
          match m with
          | SRef lm =>
              match nth_error h lm with
              | Some (OList _) =>
                  let '(sv, h) := alloc_value x h in
                  (Ok tt, list_append lm [sv] h)
              | _ => (Raise (sno_attribute h m "append"), h)
              end
          | _ => (Raise (sno_attribute h m "append"), h)
          end
      end
  end.

Definition isinstance_dict (h : store) (x : sval) : bool :=
  match x with
  | SRef l => match nth_error h l with Some (ODict _) => true | _ => false end
  | _ => false
  end.

(** [refine_query_for_tool(base_query, tool_name)] on the store [h]: what
    the call returns or raises, and the store it leaves. *)
Definition refine_query_for_tool (fuel : nat) (base_query : sval) (tool_name : value)
    (h : store) : option (res sval * store) :=
  if negb (isinstance_dict h base_query) then Some (Ok base_query, h)
  else
    match deepcopy fuel base_query [] h with
    | None => None
    | Some (refined_query, _, h) =>
        let '(empty_dict, h) := alloc (ODict []) h in
        match setdefault refined_query "bool" (SRef empty_dict) h with
        | (Raise e, h) => Some (Raise e, h)
        | (Ok b, h) =>
            let '(empty_list, h) := alloc (OList []) h in
            match setdefault b "must" (SRef empty_list) h with
            | (Raise e, h) => Some (Raise e, h)
            | (Ok _, h) =>
                let '(r, h) :=
                  if py_eqb tool_name (VStr "search_alerts") then
                    must_iadd refined_query [ssh_phrase; level_range] h
                  else if py_eqb tool_name (VStr "search_raw_logs") then
                    must_iadd refined_query [failure_phrase; sshd_phrase] h
                  else if py_eqb tool_name (VStr "search_vulnerabilities") then
                    must_append refined_query cve_wildcard h
                  else (Ok tt, h) in
                match r with
                | Ok _ => Some (Ok refined_query, h)
                | Raise e => Some (Raise e, h)
                end
            end
        end
    end.

(** Every reference held by [x] or by an object of the store points into
    the store. *)
Definition sval_ok (n : nat) (x : sval) : bool :=
  match x with
  | SRef l => (l <? n)%nat
  | _ => true
  end.

Definition obj_ok (n : nat) (o : obj) : bool :=
  match o with
  | ODict d => forallb (fun kv => sval_ok n (snd kv)) d
  | OList xs => forallb (sval_ok n) xs
  end.

Definition store_ok (h : store) : bool := forallb (obj_ok (List.length h)) h.

End Store.

(* ================================================================= *)
(** * Specification vocabulary *)

(** ** Queries *)

(** [r] is a predicate whose conjunctive list [r["bool"]["must"]] holds the
    filters [fs]. *)
Definition must_contains (r : value) (fs : list value) : Prop :=
  exists rd bd must,
    r = VDict rd /\ dict_get "bool" rd = Some (VDict bd) /\
    dict_get "must" bd = Some (VList must) /\
    forall f, In f fs -> In f must.

(** The shape [refine_query_for_tool] can extend: a ["bool"] entry, when
    there is one, is a dict, and its ["must"] entry, when there is one, is a
    list. *)
Definition conjunctive (d : list (string * value)) : bool :=
  match dict_get "bool" d with
  | None => true
  | Some (VDict bd) =>
      match dict_get "must" bd with
      | None | Some (VList _) => true
      | Some _ => false
      end
  | Some _ => false
  end.

(** ** Tasks and plans *)

Definition is_str (v : value) : bool :=
  match v with VStr _ => true | _ => false end.

(** [dependent_on_tasks] as the plan generator emits it: [null] or a list
    of task identifiers. *)
Definition wf_deps (v : value) : bool :=
  match v with
  | VNone => true
  | VList ids => forallb is_str ids
  | _ => false
  end.

(** A task of the plan input shape: an object with a string [task_id], a
    well-formed [dependent_on_tasks] when it has one, and a tool name that
    can be looked up when it has one. *)
Definition wf_task (task : value) : bool :=
  match task with
  | VDict d =>
      match dict_get "task_id" d with Some (VStr _) => true | _ => false end
      && match dict_get "dependent_on_tasks" d with None => true | Some v => wf_deps v end
      && match dict_get "tool_name" d with None => true | Some v => hashable v end
  | _ => false
  end.

(** A plan of well-formed tasks. *)
Definition wf_plan (plans : list value) : bool := forallb wf_task plans.

(** A field of a task, with the default that [task.get] is given. *)
Definition field (k : string) (dflt : value) (task : value) : value :=
  match task with
  | VDict d => match dict_get k d with Some v => v | None => dflt end
  | _ => dflt
  end.

Definition task_id_of : value -> value := field "task_id" VNone.
Definition tool_name_of : value -> value := field "tool_name" VNone.
Definition sub_task_of : value -> value := field "sub_task" (VStr "").

(** The identifiers a task declares as dependencies. *)
Definition deps_of (task : value) : list value :=
  match field "dependent_on_tasks" VNone task with
  | VList ids => ids
  | _ => []
  end.

(** The tool the registry holds for a task, if any. *)
Definition tool_of (task : value) : option tool :=
  match tool_name_of task with
  | VStr s => dict_get s TOOL_MAPPING
  | _ => None
  end.

(** Task identifiers are unique within a plan. *)
Definition unique_ids (plans : list value) : Prop := NoDup (map task_id_of plans).

(** The name of a search tool. *)
Definition search_tool_name (name : string) : bool :=
  existsb (String.eqb name) ["search_raw_logs"; "search_alerts"; "search_vulnerabilities"].

(** ** Dispatches *)

(** The two outcomes of [execute_task]. *)
Definition success (tid r : value) : value :=
  VDict [("task_id", tid); ("result", r)].
Definition failure (tid : value) (msg : string) : value :=
  VDict [("task_id", tid); ("error", VStr msg)].

(** [dispatch task cache out cache']: dispatching [task] on [cache] can
    leave the outcome [out] and the cache [cache']. *)
Inductive dispatch (task : value) (cache : pydict) : value -> pydict -> Prop :=
| dispatch_success r :
    tool_of task <> None ->
    dispatch task cache (success (task_id_of task) r) (pd_set (task_id_of task) r cache)
| dispatch_failure msg :
    dispatch task cache (failure (task_id_of task) msg) cache.

(** A dispatch, for the record: the task and its outcome. *)
Definition event : Type := (value * value)%type.

(** [dispatches cache evs cache']: the dispatches [evs], in this order,
    lead from [cache] to [cache']. *)
Inductive dispatches : pydict -> list event -> pydict -> Prop :=
| dispatches_nil cache : dispatches cache [] cache
| dispatches_cons cache task out cache1 evs cache2 :
    dispatch task cache out cache1 ->
    dispatches cache1 evs cache2 ->
    dispatches cache ((task, out) :: evs) cache2.

(** What the loop does for one task of the plan: it dispatches tasks of
    the plan named among the task's own dependencies, at most one per
    declared dependency, and then the task itself. *)
Definition segment (plans : list value) (task : value) (seg : list event) : Prop :=
  exists evs out,
    seg = (evs ++ [(task, out)])%list /\
    (List.length evs <= List.length (deps_of task))%nat /\
    Forall (fun ev : event =>
              In (fst ev) plans /\ In (task_id_of (fst ev)) (deps_of task)) evs.

Section Executions.

Context {W : Type}.
Variable tools : tool -> list (string * value) -> W -> res value * W.
Variable py_repr : value -> string.

(** [executions cache w evs cache' w']: applying [execute_task] to the
    tasks of [evs], one after the other, starting with the cache [cache]
    in the world [w] and handing each application the cache and the world
    the one before it left, returns the outcomes recorded in [evs] and
    leaves the cache [cache'] and the world [w']. *)
Inductive executions
  : pydict -> @world W -> list event -> pydict -> @world W -> Prop :=
| executions_nil cache w : executions cache w [] cache w
| executions_cons cache w task out cache1 w1 evs cache2 w2 :
    execute_task tools py_repr task cache w = (Ok (out, cache1), w1) ->
    executions cache1 w1 evs cache2 w2 ->
    executions cache w ((task, out) :: evs) cache2 w2.

End Executions.

(** [s] occurs in [t]. *)
Definition occurs_in (s t : string) : Prop :=
  exists pre post, t = pre ++ s ++ post.

(** An error marker, as the tools return it. *)
Definition is_error_marker (v : value) : Prop :=
  exists msg, v = VDict [("error", VStr msg)].

(** ** What the cache offers a task *)

(** The base query for a search task: the result of the first declared
    dependency (an empty identifier counts as none), with the dict under
    its ["query"] key taken when there is one; [None] when nothing is
    declared or cached. *)
Definition dependency_value (task : value) (cache : pydict) : value :=
  match deps_of task with
  | dep :: _ =>
      if py_truthy dep then
        match pd_get dep cache with
        | Some v => unwrap_query v
        | None => VNone
        end
      else VNone
  | [] => VNone
  end.

(** A record without a usable agent name: not an object, without an
    ["agent"] object, or with an agent whose ["name"] is missing or null. *)
Definition lacks_agent_name (record : value) : bool :=
  match record with
  | VDict d =>
      match dict_get "agent" d with
      | Some (VDict a) =>
          match dict_get "name" a with
          | None | Some VNone => true
          | Some _ => false
          end
      | _ => true
      end
  | _ => true
  end.

(** The dependencies of a task yield no agent name: none is declared, or
    the first one's cached result is not a non-empty list, or the first
    element of that list lacks an agent name. *)
Definition no_agent_name (task : value) (cache : pydict) : bool :=
  match deps_of task with
  | [] => true
  | dep :: _ =>
      match pd_get dep cache with
      | Some (VList (first0 :: _)) => lacks_agent_name first0
      | _ => true
      end
  end.

(** The clock reads an instant of the [datetime] range from which two days
    can be subtracted. *)
Definition clock_ok (t : Z) : bool :=
  ((2 * us_per_day <=? t) && (t <=? datetime_max))%Z.

(** ** Stores *)

(** A value that holds no reference to an object below [n0]. *)
Definition fresh_val (n0 : nat) (x : Store.sval) : bool :=
  match x with
  | Store.SRef l => (n0 <=? l)%nat
  | _ => true
  end.

Definition fresh_obj (n0 : nat) (o : Store.obj) : bool :=
  match o with
  | Store.ODict d => forallb (fun kv => fresh_val n0 (snd kv)) d
  | Store.OList xs => forallb (fresh_val n0) xs
  end.

(** [grown h0 h]: the store [h] is [h0] followed by objects that reference
    none of the objects of [h0]. *)
Definition grown (h0 h : Store.store) : Prop :=
  exists ext,
    h = (h0 ++ ext)%list /\
    Forall (fun o => fresh_obj (List.length h0) o = true) ext.

(** Every copy recorded in the memo table lies at or above [n0]. *)
Definition memo_fresh (n0 : nat) (m : Store.memo) : Prop :=
  Forall (fun p : Store.loc * Store.loc => (n0 <= snd p)%nat) m.

(** The objects below [n0] that have no copy yet. *)
Definition uncopied (n0 : nat) (m : Store.memo) : nat :=
  List.length
    (filter (fun l => match Store.memo_get l m with None => true | Some _ => false end)
            (seq 0 n0)).

(** The memo table [m'] keeps what [m] records. *)
Definition memo_extends (m m' : Store.memo) : Prop :=
  forall l y, Store.memo_get l m = Some y -> Store.memo_get l m' = Some y.

(** What a sound copier guarantees, relative to the original store [h0]:
    it only grows the store by objects that hold no reference into [h0],
    records fresh copies, returns a value without reference into [h0] and
    keeps the memo table's earlier records. *)
Definition copier_sound (h0 : Store.store) (rec : Store.copier) : Prop :=
  forall x m h y m' h',
    grown h0 h -> memo_fresh (List.length h0) m ->
    rec x m h = Some (y, m', h') ->
    grown h0 h' /\ memo_fresh (List.length h0) m' /\
    fresh_val (List.length h0) y = true /\ memo_extends m m'.

(** A copier that answers whenever at most [bound] objects of the original
    store still lack a copy. *)
Definition copier_total (h0 : Store.store) (bound : nat) (rec : Store.copier) : Prop :=
  forall x m h,
    grown h0 h -> memo_fresh (List.length h0) m ->
    Store.sval_ok (List.length h0) x = true ->
    (uncopied (List.length h0) m <= bound)%nat ->
    exists r, rec x m h = Some r.

(** ** What the adapter adds *)

(** The filters [refine_query_for_tool] appends for a tool name; none for
    a name other than the three search tools. *)
Definition tool_filters (tool_name : value) : list value :=
  if py_eqb tool_name (VStr "search_alerts") then [ssh_phrase; level_range]
  else if py_eqb tool_name (VStr "search_raw_logs") then [failure_phrase; sshd_phrase]
  else if py_eqb tool_name (VStr "search_vulnerabilities") then [cve_wildcard]
  else [].

(** The ["bool"] clause of a query and the conjunctive list in it, empty
    when they are not there. *)
Definition bool_clause (d : list (string * value)) : list (string * value) :=
  match dict_get "bool" d with
  | Some (VDict bd) => bd
  | _ => []
  end.

Definition must_list (d : list (string * value)) : list value :=
  match dict_get "must" (bool_clause d) with
  | Some (VList must) => must
  | _ => []
  end.

(** ** The calls of a dispatch *)

(** A call the dispatcher may make for a task whose tool is [func]: to
    [func] itself or to [build_query], with the keyword arguments the
    branches of [execute_task] pass. *)
Definition expected_call (func : tool) (c : call) : Prop :=
  (callee c = func \/ callee c = build_query) /\
  match callee c with
  | build_query =>
      exists q, call_args c = [("query_string", q); ("time_range", VStr "2d")]
  | get_agent_data => exists name, call_args c = [("agent_name", name)]
  | _ => exists q, call_args c = [("query", q); ("time_range", VStr "2d")]
  end.

(** ** Counting the dispatches of a run *)

(** The number of dependencies the tasks of a plan declare. *)
Definition declared_deps (plans : list value) : nat :=
  list_sum (map (fun t => List.length (deps_of t)) plans).

(** The identifier a trace record carries. *)
Definition record_id (r : value) : value := field "task_id" VNone r.

(** A success record. *)
Definition is_success (r : value) : bool :=
  match r with
  | VDict d => dict_mem "result" d
  | _ => false
  end.

(** A plan listed in dependency order: every dependency a task declares
    is the identifier of a task listed before it ([seen] holds the
    identifiers listed so far). *)
Fixpoint in_dependency_order (seen : list value) (plans : list value) : bool :=
  match plans with
  | [] => true
  | t :: rest =>
      forallb (fun dep => existsb (py_eqb dep) seen) (deps_of t)
      && in_dependency_order (task_id_of t :: seen) rest
  end.

(** The result a trace record holds for the identifier [k], and the last
    such result in a trace. *)
Definition result_for (k : value) (r : value) : option value :=
  match r with
  | VDict d =>
      match dict_get "result" d, dict_get "task_id" d with
      | Some v, Some id => if py_eqb k id then Some v else None
      | _, _ => None
      end
  | _ => None
  end.

Fixpoint last_result (k : value) (trace : list value) : option value :=
  match trace with
  | [] => None
  | r :: rest =>
      match last_result k rest with
      | Some v => Some v
      | None => result_for k r
      end
  end.

(** ** The tools' arguments and results *)

(** The decimal numeral with the digits [ds], most significant first, and
    the number it denotes. *)
Definition digit_char (d : nat) : ascii := ascii_of_nat (48 + d).

Fixpoint numeral (ds : list nat) : string :=
  match ds with
  | [] => EmptyString
  | d :: ds' => String (digit_char d) (numeral ds')
  end.

Definition numeral_value (ds : list nat) : Z :=
  fold_left (fun acc d => (10 * acc + Z.of_nat d)%Z) ds 0%Z.

(** The query [build_query] returns for the given filters. *)
Definition query_of_filters (filters : list value) : value :=
  VDict [("query", VDict [("bool", VDict [("filter", VList filters)])])].

Definition time_window (gte lte : string) : value :=
  VDict [("range", VDict [("@timestamp", VDict [("gte", VStr gte); ("lte", VStr lte)])])].

Definition query_string_clause (query_string : value) : value :=
  VDict [("query_string", VDict [("query", query_string)])].

(** The document a hit carries, if it has one. *)
Definition source_of (hit : value) : option value :=
  match hit with
  | VDict d => dict_get "_source" d
  | _ => None
  end.

(** A response of the backend holding the hits [hits]. *)
Definition response_with (resp : value) (hits : list value) : Prop :=
  exists rd outer,
    resp = VDict rd /\ dict_get "hits" rd = Some (VDict outer) /\
    dict_get "hits" outer = Some (VList hits).

(** What a search tool answers: an error marker or a list of documents. *)
Definition tool_answer (v : value) : Prop :=
  is_error_marker v \/ exists docs, v = VList docs.

(** The function the registry holds under a name, if any. *)
Definition registered (tool_name : value) : option tool :=
  match tool_name with
  | VStr s => dict_get s TOOL_MAPPING
  | _ => None
  end.

(** ** The audit log *)

(** The entries of an audit log that [append_audit_entry] can extend: a
    file holding a list, or no file yet. *)
Definition audit_entries (f : audit_file) : option (list value) :=
  match f with
  | NoFile => Some []
  | Document (VList entries) => Some entries
  | _ => None
  end.

(** A file that [append_audit_entry] reads without being able to append:
    it cannot be read, or the document in it is not a list. *)
Definition audit_blocked (f : audit_file) : bool :=
  match f with
  | Unreadable _ => true
  | Document (VList _) => false
  | Document _ => true
  | _ => false
  end.

(** ** Texts *)

(** The character [c] occurs in [s]. *)
Fixpoint has_char (c : ascii) (s : string) : bool :=
  match s with
  | EmptyString => false
  | String a s' => Ascii.eqb a c || has_char c s'
  end.

(** ** Requests and answers of the orchestrator *)

(** The body the orchestrator works with: the parsed one, or the empty
    dict when parsing raised. *)
Definition request_body (request_json : res value) : value :=
  match request_json with
  | Ok body => body
  | Raise _ => VDict []
  end.

(** A body that is an object without a usable ["user_input"] and without
    a usable ["input"]. *)
Definition lacks_input (body : value) : bool :=
  match body with
  | VDict d =>
      negb (py_truthy (match dict_get "user_input" d with Some v => v | None => VNone end))
      && negb (py_truthy (match dict_get "input" d with Some v => v | None => VNone end))
  | _ => false
  end.

(** What the report generator may answer: it raises, or it returns a dict
    that holds a ["report"] whenever its ["status"] is truthy. *)
Definition report_answer (r : res value) : Prop :=
  match r with
  | Raise _ => True
  | Ok (VDict rd) =>
      py_truthy (match dict_get "status" rd with Some v => v | None => VNone end) = true ->
      dict_get "report" rd <> None
  | Ok _ => False
  end.

(** What the MCP wrapper makes of a response. *)
Definition response_data {R} (decode_body : R -> res value) (response_str : R -> string)
    (response : R) : value :=
  match decode_body response with
  | Ok data => data
  | Raise _ => VDict [("raw_response", VStr (response_str response))]
  end.

(** ** Samples *)

(** A base query as [build_query] makes it, unwrapped. *)
Definition sample_base_query : list (string * value) :=
  [("bool", VDict [("filter", VList [VDict [("query_string",
                                             VDict [("query", VStr "ssh")])]])])].

Definition mk_task (id tool_name : string) (deps : list string) : value :=
  VDict [("task_id", VStr id);
         ("sub_task", VStr "failed ssh logins");
         ("dependent_on_tasks", VList (map VStr deps));
         ("tool_name", VStr tool_name)].

(** A dependency chain listed in reverse order: 3 needs 2, 2 needs 1. *)
Definition chain_task3 : value := mk_task "3" "search_alerts" ["2"].
Definition chain_task2 : value := mk_task "2" "search_raw_logs" ["1"].
Definition chain_task1 : value := mk_task "1" "build_query" [].
Definition reversed_chain : list value := [chain_task3; chain_task2; chain_task1].

(** The plan of the module's self-test, and tasks for single dispatches. *)
Definition dummy_plan : list value :=
  [mk_task "1" "build_query" []; mk_task "2" "search_raw_logs" ["1"]].
Definition unknown_tool_task : value := mk_task "1" "nonexistent_tool" [].
Definition agent_task : value := mk_task "4" "get_agent_data" [].
Definition search_task : value := mk_task "2" "search_raw_logs" ["1"].
Definition cached_query : value :=
  VDict [("query", VDict [("bool", VDict [("filter", VList [])])])].

(** Tools of a backend that is down: every call raises. *)
Definition failing_tools (f : tool) (kwargs : list (string * value)) (w : unit)
  : res value * unit :=
  (Raise (Exn ToolError "backend unreachable"), w).

(** Tools that answer with the number of calls made before. *)
Definition counting_tools (f : tool) (kwargs : list (string * value)) (w : nat)
  : res value * nat :=
  (Ok (VInt (Z.of_nat w)), S w).

Definition sample_repr (v : value) : string := "<value>".
Definition sample_now {W} (w : W) : string := "2025-01-01 00:00:00".

(** The tools of the repository over a backend that answers every search
    with the same hit, and a clock standing at the Unix epoch. *)
Definition sample_hit : value :=
  VDict [("_source", VDict [("agent", VDict [("name", VStr "web-01")])])].
Definition sample_client (body : value) (index : string) (w : unit) : res value * unit :=
  (Ok (VDict [("hits", VDict [("hits", VList [sample_hit])])]), w).
Definition sample_utcnow (w : unit) : Z * unit := (unix_epoch, w).
Definition sample_isoformat (t : Z) : string := "1970-01-01T00:00:00".
Definition sample_tools : tool -> list (string * value) -> unit -> res value * unit :=
  main_opensearch (Some sample_client) sample_utcnow sample_isoformat sample_repr.

(** A base query in a store, with the cache entry it is shared with:
    object 0 is the filter list, object 1 the bool clause, object 2 the
    query itself. *)
Definition sample_store : Store.store :=
  [Store.OList [Store.SStr "level:high"];
   Store.ODict [("filter", Store.SRef 0)];
   Store.ODict [("bool", Store.SRef 1)]].

(** A task that names a tool but carries no identifier. *)
Definition anonymous_task : list (string * value) :=
  [("sub_task", VStr "failed ssh logins"); ("tool_name", VStr "build_query")].

(** A clock for the audit log, counting the readings. *)
Definition sample_clock (w : nat) : string * nat := ("2025-01-01T00:00:00", S w).

(** A stand-in for [json.loads] that shows the text it is given. *)
Definition sample_loads (s : string) : res value := Ok (VStr s).

(** Stand-ins for what the orchestrator calls: a planner that answers
    with the plan of the self-test, one that cannot be reached, one whose
    plan holds no tasks, a report generator and one that cannot be
    reached, an audit log that keeps no record, and responses that are the
    content and the status code. *)
Definition sample_planner (user_input : value) (w : nat) : res value * nat :=
  (Ok (VDict [("status", VBool true); ("goal", user_input);
              ("plan", VDict [("plans", VList dummy_plan)])]), w).
Definition unreachable_planner (user_input : value) (w : nat) : res value * nat :=
  (Raise (Exn ToolError "planner unreachable"), w).
Definition planless_planner (user_input : value) (w : nat) : res value * nat :=
  (Ok (VDict [("status", VBool true); ("goal", user_input); ("plan", VDict [])]), w).
Definition sample_reporter (goal : value) (exec_results : pyobj) (w : nat) : res value * nat :=
  (Ok (VDict [("status", VBool true); ("report", VStr "Executive Summary")]), w).
Definition unreachable_reporter (goal : value) (exec_results : pyobj) (w : nat)
  : res value * nat :=
  (Raise (Exn ToolError "model unreachable"), w).
Definition silent_log_step (step_name status : string) (data : pyobj) (w : nat) : nat := w.
Definition sample_response (content : pyobj) (status_code : Z) : res (pyobj * Z) :=
  Ok (content, status_code).
Definition sample_decode (response : pyobj * Z) : res value :=
  match fst response with
  | PValue v => Ok v
  | _ => Raise (Exn ValueError "not decoded")
  end.
Definition sample_response_str (response : pyobj * Z) : string := "<response>".
Definition sample_format_exc (e : exn) : string := "Traceback (most recent call last): ...".

(* ================================================================= *)
(** * Properties *)

(** ** Dictionaries *)

Section StrDictFacts.
Context {A : Type}.
Implicit Types (k : string) (d : list (string * A)).

Lemma dict_get_set_same k (v : A) d : dict_get k (dict_set k v d) = Some v.
Proof.
  induction d as [|[k' v'] d IH]; simpl.
  - now rewrite String.eqb_refl.
  - destruct (String.eqb k k') eqn:E; simpl; rewrite E; auto.
Qed.

Lemma dict_get_set_other k k' (v : A) d :
  k <> k' -> dict_get k (dict_set k' v d) = dict_get k d.
Proof.
  intros Hne. induction d as [|[k2 v2] d IH]; simpl.
  - destruct (String.eqb_spec k k'); congruence.
  - destruct (String.eqb_spec k' k2) as [->|Hk]; simpl.
    + destruct (String.eqb_spec k k2); congruence.
    + destruct (String.eqb_spec k k2); auto.
Qed.

Lemma dict_set_length_le k (v : A) d :
  (List.length d <= List.length (dict_set k v d))%nat.
Proof.
  induction d as [|[k' v'] d IH]; simpl; [lia|].
  destruct (String.eqb k k'); simpl; lia.
Qed.

End StrDictFacts.

(** ** The Query Adapter on values *)

(** On a conjunctive dict the refinement for the alert search succeeds and
    appends the two filters to the conjunctive list. *)
Lemma refine_alerts_conjunctive d :
  conjunctive d = true ->
  exists rd bd must,
    refine_query_for_tool (VDict d) (VStr "search_alerts") = Ok (VDict rd) /\
    dict_get "bool" rd = Some (VDict bd) /\
    dict_get "must" bd = Some (VList (must ++ [ssh_phrase; level_range])).
Proof.
  unfold conjunctive, refine_query_for_tool, dict_setdefault.
  change (py_eqb (VStr "search_alerts") (VStr "search_alerts")) with true. cbv iota.
  destruct (dict_get "bool" d) as [b|] eqn:Eb.
  - destruct b as [| | | | |bd|]; try discriminate.
    destruct (dict_get "must" bd) as [m|] eqn:Em.
    + destruct m as [| | | |must| |]; try discriminate. intros _.
      cbn [py_iadd_list res_bind].
      eexists _, _, must. split; [reflexivity|].
      rewrite !dict_get_set_same. split; reflexivity.
    + intros _. cbn [py_iadd_list res_bind].
      eexists _, _, []. split; [reflexivity|].
      rewrite !dict_get_set_same. split; reflexivity.
  - intros _. cbn [py_iadd_list res_bind].
    eexists _, _, []. split; [reflexivity|].
    rewrite !dict_get_set_same. split; reflexivity.
Qed.

(** A refined query is conjunctive again. *)
Lemma refined_is_conjunctive rd bd must :
  dict_get "bool" rd = Some (VDict bd) ->
  dict_get "must" bd = Some (VList must) ->
  conjunctive rd = true.
Proof. intros Hb Hm. unfold conjunctive. now rewrite Hb, Hm. Qed.

Lemma refine_non_dict base tool_name :
  isinstance_dict base = false -> refine_query_for_tool base tool_name = Ok base.
Proof. destruct base; simpl; intros H; try reflexivity; discriminate. Qed.

(** C5 (as amended).  For a dict base query whose ["bool"] entry, when
    present, is a dict and whose ["bool"]["must"] entry, when present, is a
    list, [refine_query_for_tool(base, "search_alerts")] returns a predicate
    whose conjunctive list contains the phrase filter for "ssh" on
    [rule.description] and the range filter [rule.level >= 5]; refining the
    result once more with the same tool name succeeds and still contains
    both; and an input that is not a dict is returned unchanged, whatever
    the tool name. *)
Theorem refine_search_alerts_filters (d : list (string * value)) :
  conjunctive d = true ->
  (exists r1 r2,
      refine_query_for_tool (VDict d) (VStr "search_alerts") = Ok r1 /\
      must_contains r1 [ssh_phrase; level_range] /\
      refine_query_for_tool r1 (VStr "search_alerts") = Ok r2 /\
      must_contains r2 [ssh_phrase; level_range]) /\
  (forall base tool_name,
      isinstance_dict base = false -> refine_query_for_tool base tool_name = Ok base).
Proof.
  intros Hd. split; [|exact refine_non_dict].
  destruct (refine_alerts_conjunctive d Hd) as (rd & bd & must & Hr & Hb & Hm).
  destruct (refine_alerts_conjunctive rd (refined_is_conjunctive _ _ _ Hb Hm))
    as (rd2 & bd2 & must2 & Hr2 & Hb2 & Hm2).
  exists (VDict rd), (VDict rd2). repeat split; auto.
  - exists rd, bd, (must ++ [ssh_phrase; level_range])%list.
    repeat split; auto. intros f Hf. apply in_or_app. now right.
  - exists rd2, bd2, (must2 ++ [ssh_phrase; level_range])%list.
    repeat split; auto. intros f Hf. apply in_or_app. now right.
Qed.

Lemma refine_search_alerts_filters_witness :
  conjunctive sample_base_query = true /\
  exists r1 r2,
    refine_query_for_tool (VDict sample_base_query) (VStr "search_alerts") = Ok r1 /\
    must_contains r1 [ssh_phrase; level_range] /\
    refine_query_for_tool r1 (VStr "search_alerts") = Ok r2 /\
    must_contains r2 [ssh_phrase; level_range].
Proof.
  split; [reflexivity|].
  apply (refine_search_alerts_filters sample_base_query). reflexivity.
Defined.

(** C5 (as stated) fails: a bool query whose [must] is a single clause
    rather than a list of clauses is a dict, and refining it raises. *)
Lemma refine_search_alerts_single_clause_raises :
  let base := VDict [("bool", VDict [("must", VDict [("match_all", VDict [])])])] in
  isinstance_dict base = true /\
  refine_query_for_tool base (VStr "search_alerts")
  = Raise (Exn TypeError "unsupported operand type(s) for +=: 'dict' and 'list'").
Proof. split; reflexivity. Qed.

(** Refining twice appends the filters twice. *)
Example refine_twice_duplicates :
  (r1 <-? refine_query_for_tool (VDict []) (VStr "search_alerts") ;;
   refine_query_for_tool r1 (VStr "search_alerts"))%res
  = Ok (VDict [("bool", VDict [("must",
          VList [ssh_phrase; level_range; ssh_phrase; level_range])])]).
Proof. reflexivity. Qed.

(** ** The Result Cache and the plan *)

Lemma py_eqb_str_l s v : py_eqb (VStr s) v = true -> v = VStr s.
Proof.
  destruct v; simpl; try discriminate.
  intros H. apply String.eqb_eq in H. congruence.
Qed.

Lemma py_eqb_str_r s v : py_eqb v (VStr s) = true -> v = VStr s.
Proof.
  destruct v; simpl; try discriminate.
  intros H. apply String.eqb_eq in H. congruence.
Qed.

Lemma py_eqb_str_refl s : py_eqb (VStr s) (VStr s) = true.
Proof. simpl. apply String.eqb_refl. Qed.

Lemma pd_get_set_inv k id r v cache :
  pd_get k (pd_set (VStr id) r cache) = Some v ->
  (k = VStr id /\ v = r) \/ pd_get k cache = Some v.
Proof.
  induction cache as [|[k' v'] cache IH]; cbn [pd_get pd_set].
  - destruct (py_eqb k (VStr id)) eqn:E; [|discriminate].
    intros [= <-]. left. split; auto. now apply py_eqb_str_r.
  - destruct (py_eqb (VStr id) k') eqn:E; cbn [pd_get pd_set].
    + apply py_eqb_str_l in E. subst k'.
      destruct (py_eqb k (VStr id)) eqn:E2; auto.
      intros [= <-]. left. split; auto. now apply py_eqb_str_r.
    + destruct (py_eqb k k'); auto.
Qed.

Lemma pd_get_set_same id r cache :
  pd_get (VStr id) (pd_set (VStr id) r cache) = Some r.
Proof.
  induction cache as [|[k' v'] cache IH]; cbn [pd_get pd_set].
  - now rewrite py_eqb_str_refl.
  - destruct (py_eqb (VStr id) k') eqn:E; cbn [pd_get pd_set]; rewrite E; auto.
Qed.

Lemma pd_get_set_other k id r cache :
  k <> VStr id -> pd_get k (pd_set (VStr id) r cache) = pd_get k cache.
Proof.
  intros Hne. induction cache as [|[k' v'] cache IH]; cbn [pd_get pd_set].
  - destruct (py_eqb k (VStr id)) eqn:E; auto.
    apply py_eqb_str_r in E. contradiction.
  - destruct (py_eqb (VStr id) k') eqn:E; cbn [pd_get pd_set].
    + apply py_eqb_str_l in E. subst k'.
      destruct (py_eqb k (VStr id)) eqn:E2; auto.
      apply py_eqb_str_r in E2. contradiction.
    + destruct (py_eqb k k'); auto.
Qed.

Lemma wf_task_inv task :
  wf_task task = true ->
  exists d id,
    task = VDict d /\ dict_get "task_id" d = Some (VStr id) /\
    wf_deps (field "dependent_on_tasks" VNone task) = true /\
    hashable (tool_name_of task) = true.
Proof.
  destruct task as [| | | | |d|]; try discriminate. simpl.
  destruct (dict_get "task_id" d) as [[| | |id| | |]|] eqn:Eid; try discriminate.
  intros H. apply andb_prop in H as [H Ht]. simpl in H.
  exists d, id. repeat split; auto.
  - destruct (dict_get "dependent_on_tasks" d); auto.
  - unfold tool_name_of, field. destruct (dict_get "tool_name" d); auto.
Qed.

Lemma wf_task_id task :
  wf_task task = true -> exists id, task_id_of task = VStr id.
Proof.
  destruct task as [| | | | |d|]; try discriminate. simpl.
  unfold task_id_of, field.
  destruct (dict_get "task_id" d) as [[| | |id| | |]|]; try discriminate. eauto.
Qed.

Lemma wf_task_truthy task : wf_task task = true -> py_truthy task = true.
Proof.
  destruct task as [| | | | |d|]; try discriminate.
  destruct d; [discriminate|reflexivity].
Qed.

Lemma wf_plan_In plans task :
  wf_plan plans = true -> In task plans -> wf_task task = true.
Proof. unfold wf_plan. rewrite forallb_forall. auto. Qed.

(** The generator of line 207 finds nothing, or the first task of the plan
    carrying the identifier. *)
Lemma find_task_wf plans dep_id :
  wf_plan plans = true ->
  find_task plans dep_id = Ok VNone \/
  exists t, find_task plans dep_id = Ok t /\ In t plans /\
            py_eqb (task_id_of t) dep_id = true.
Proof.
  induction plans as [|t plans IH]; simpl; auto.
  intros H. apply andb_prop in H as [Ht Hp].
  destruct (wf_task_inv t Ht) as (d & id & -> & Hid & _).
  unfold py_getitem. rewrite Hid. cbn [res_bind].
  destruct (py_eqb (VStr id) dep_id) eqn:E.
  - right. exists (VDict d). repeat split; auto.
    unfold task_id_of, field. now rewrite Hid.
  - destruct (IH Hp) as [->|(t' & -> & Hin & He)]; auto.
    right. exists t'. auto.
Qed.

(** The dependency identifiers the loop of line 205 visits. *)
Lemma dep_ids_wf task :
  wf_task task = true ->
  (deps <-? py_get task "dependent_on_tasks" (VList []) ;; py_iter (or_empty_list deps))%res
  = Ok (deps_of task) /\
  Forall (fun dep => is_str dep = true) (deps_of task).
Proof.
  intros Hwf. destruct (wf_task_inv task Hwf) as (d & id & -> & _ & Hd & _).
  unfold deps_of. unfold field in *. cbn [py_get res_bind].
  destruct (dict_get "dependent_on_tasks" d) as [v|]; [|split; [reflexivity|constructor]].
  destruct v as [| | | |ids| |]; try discriminate; try (split; [reflexivity|constructor]).
  split.
  - destruct ids; reflexivity.
  - simpl in Hd. rewrite forallb_forall in Hd. apply Forall_forall. auto.
Qed.

Lemma dispatches_app cache evs1 cache1 evs2 cache2 :
  dispatches cache evs1 cache1 -> dispatches cache1 evs2 cache2 ->
  dispatches cache (evs1 ++ evs2) cache2.
Proof.
  induction 1; simpl; auto. intros H2. econstructor; eauto.
Qed.

(** The comprehension of lines 216-220 rebuilds the cache from the trace. *)
Lemma aggregate_dispatches cache evs cache' :
  dispatches cache evs cache' ->
  Forall (fun ev : event => wf_task (fst ev) = true) evs ->
  aggregate (map snd evs) cache = Ok cache'.
Proof.
  induction 1 as [|cache task out cache1 evs cache2 Hd Hds IH]; simpl; auto.
  intros Hwf. inversion Hwf as [|? ? Ht Hrest]; subst. simpl in Ht.
  destruct (wf_task_id task Ht) as [id Hid].
  destruct Hd as [r Hreg|msg]; rewrite Hid in *; cbn; auto.
Qed.

(** ** The Task Dispatcher *)

Ltac unfold_monad := unfold bind, lift, try_except, ret.
Ltac unfold_execute_task := unfold execute_task; unfold_monad.

Section ExecutorFacts.

Context {W : Type}.
Variable tools : tool -> list (string * value) -> W -> res value * W.
Variable py_repr : value -> string.
Variable strftime_now : W -> string.

Local Abbreviation execute_task := (execute_task tools py_repr).
Local Abbreviation call_tool := (call_tool tools).
Local Abbreviation resolve_dep := (resolve_dep tools py_repr).
Local Abbreviation run_task := (run_task tools py_repr).
Local Abbreviation run_loop := (run_loop tools py_repr).
Local Abbreviation run_execution_plan := (run_execution_plan tools py_repr strftime_now).
Local Abbreviation world := (@world W).

Lemma TOOL_MAPPING_get_tool_of task :
  hashable (tool_name_of task) = true ->
  TOOL_MAPPING_get (tool_name_of task) = Ok (tool_of task).
Proof.
  intros H. unfold TOOL_MAPPING_get, tool_of. rewrite H. reflexivity.
Qed.

(** A task whose tool is registered: the outcome is decided by the call. *)
Lemma execute_task_registered task cache (w : world) func :
  wf_task task = true ->
  tool_of task = Some func ->
  execute_task task cache w =
    match call_tool func task (tool_name_of task) (sub_task_of task) cache w with
    | (Ok r, w') =>
        (Ok (success (task_id_of task) (safe_json py_repr r),
             pd_set (task_id_of task) (safe_json py_repr r) cache), w')
    | (Raise e, w') => (Ok (failure (task_id_of task) (exn_str e), cache), w')
    end.
Proof.
  intros Hwf Hf.
  destruct (wf_task_inv task Hwf) as (d & id & -> & Hid & _ & Hh).
  pose proof (TOOL_MAPPING_get_tool_of _ Hh) as Hget. rewrite Hf in Hget.
  unfold_execute_task.
  cbn [py_get]. fold (field "tool_name" VNone (VDict d)).
  fold (field "sub_task" (VStr "") (VDict d)).
  change (field "tool_name" VNone) with tool_name_of.
  change (field "sub_task" (VStr "")) with sub_task_of.
  rewrite Hget.
  destruct (call_tool _ _ _ _ _ _) as [[r|e] w'].
  - unfold py_getitem, task_id_of, field. rewrite Hid. reflexivity.
  - unfold failure_outcome, py_get, task_id_of, field. rewrite Hid. reflexivity.
Qed.

(** A task whose tool is not registered: nothing is called. *)
Lemma execute_task_unregistered task cache (w : world) :
  wf_task task = true ->
  tool_of task = None ->
  execute_task task cache w =
    (Ok (failure (task_id_of task)
           ("❌ Tool '" ++ py_str py_repr (tool_name_of task) ++ "' not found or undefined."),
         cache), w).
Proof.
  intros Hwf Hf.
  destruct (wf_task_inv task Hwf) as (d & id & -> & Hid & _ & Hh).
  pose proof (TOOL_MAPPING_get_tool_of _ Hh) as Hget. rewrite Hf in Hget.
  unfold_execute_task.
  cbn [py_get]. fold (field "tool_name" VNone (VDict d)).
  change (field "tool_name" VNone) with tool_name_of.
  rewrite Hget.
  unfold failure_outcome, py_get, task_id_of, field. rewrite Hid. reflexivity.
Qed.

(** The dispatcher never raises on a well-formed task. *)
Lemma execute_task_dispatch task cache (w : world) :
  wf_task task = true ->
  exists out cache' w',
    execute_task task cache w = (Ok (out, cache'), w') /\
    dispatch task cache out cache'.
Proof.
  intros Hwf. destruct (tool_of task) as [func|] eqn:Hf.
  - rewrite (execute_task_registered _ _ _ func Hwf Hf).
    destruct (call_tool _ _ _ _ _ _) as [[r|e] w'].
    + do 3 eexists. split; [reflexivity|]. constructor. congruence.
    + do 3 eexists. split; [reflexivity|]. constructor.
  - rewrite (execute_task_unregistered _ _ _ Hwf Hf).
    do 3 eexists. split; [reflexivity|]. constructor.
Qed.

(** ** The Plan Runner *)

(** Line 206-210 on a well-formed plan: at most one dispatch, of a task of
    the plan carrying the identifier, and only when the identifier is not
    in the cache. *)
Lemma resolve_dep_wf plans dep cache trace (w : world) :
  wf_plan plans = true -> is_str dep = true ->
  exists evs cache' w',
    resolve_dep plans dep (cache, trace) w
    = (Ok (cache', (trace ++ map snd evs)%list), w') /\
    dispatches cache evs cache' /\
    (List.length evs <= 1)%nat /\
    Forall (fun ev : event =>
              In (fst ev) plans /\ task_id_of (fst ev) = dep /\
              pd_get dep cache = None) evs.
Proof.
  intros Hp Hs. destruct dep as [| | |s| | |]; try discriminate.
  unfold resolve_dep. unfold_monad. cbn [cache_mem hashable].
  destruct (pd_get (VStr s) cache) eqn:Eg; cbn [negb].
  - exists [], cache, w. rewrite app_nil_r. repeat split; auto. constructor.
  - destruct (find_task_wf plans (VStr s) Hp) as [->|(t & -> & Hin & He)].
    + exists [], cache, w. rewrite app_nil_r. repeat split; auto. constructor.
    + pose proof (wf_plan_In _ _ Hp Hin) as Ht.
      rewrite (wf_task_truthy _ Ht).
      destruct (execute_task_dispatch t cache w Ht) as (out & c' & w' & -> & Hd).
      exists [(t, out)], c', w'. repeat split; auto.
      * econstructor; eauto. constructor.
      * constructor; [|constructor]. simpl. repeat split; auto.
        now apply py_eqb_str_r.
Qed.

Lemma resolve_deps_wf plans deps :
  wf_plan plans = true ->
  Forall (fun dep => is_str dep = true) deps ->
  forall cache trace (w : world),
  exists evs cache' w',
    for_each deps (resolve_dep plans) (cache, trace) w
    = (Ok (cache', (trace ++ map snd evs)%list), w') /\
    dispatches cache evs cache' /\
    (List.length evs <= List.length deps)%nat /\
    Forall (fun ev : event =>
              In (fst ev) plans /\ In (task_id_of (fst ev)) deps) evs.
Proof.
  intros Hp. induction 1 as [|dep deps Hs Hrest IH]; intros cache trace w.
  - exists [], cache, w. simpl. rewrite app_nil_r. repeat split; auto. constructor.
  - cbn [for_each]. unfold bind at 1.
    destruct (resolve_dep_wf plans dep cache trace w Hp Hs)
      as (evs1 & c1 & w1 & -> & Hd1 & Hl1 & Hf1).
    destruct (IH c1 (trace ++ map snd evs1)%list w1)
      as (evs2 & c2 & w2 & -> & Hd2 & Hl2 & Hf2).
    exists (evs1 ++ evs2)%list, c2, w2.
    rewrite map_app, app_assoc, length_app. repeat split.
    + eapply dispatches_app; eauto.
    + simpl. lia.
    + apply Forall_app. split.
      * eapply Forall_impl; [|exact Hf1]. intros ev (Hin & Hid & _).
        split; auto. left. auto.
      * eapply Forall_impl; [|exact Hf2]. intros ev (Hin & Hid).
        split; auto. right. auto.
Qed.

(** One turn of the loop of line 200. *)
Lemma run_task_wf plans task cache trace (w : world) :
  wf_plan plans = true -> wf_task task = true ->
  exists seg cache' w',
    run_task plans task (cache, trace) w
    = (Ok (cache', (trace ++ map snd seg)%list), w') /\
    dispatches cache seg cache' /\
    segment plans task seg.
Proof.
  intros Hp Ht.
  destruct (dep_ids_wf task Ht) as [Hdeps Hstr].
  destruct (wf_task_inv task Ht) as (d & id & Heq & _).
  unfold run_task. unfold bind at 1 2 3. unfold lift.
  rewrite Heq in Hdeps |- *. cbn [py_get res_bind] in Hdeps |- *.
  rewrite Hdeps. rewrite <- Heq in *.
  unfold bind at 1.
  destruct (resolve_deps_wf plans (deps_of task) Hp Hstr cache trace w)
    as (evs & c1 & w1 & -> & Hd1 & Hl1 & Hf1).
  unfold bind at 1.
  destruct (execute_task_dispatch task c1 w1 Ht) as (out & c2 & w2 & -> & Hd2).
  unfold ret.
  exists (evs ++ [(task, out)])%list, c2, w2.
  rewrite map_app, app_assoc. repeat split.
  - eapply dispatches_app; eauto. econstructor; eauto. constructor.
  - exists evs, out. repeat split; auto.
Qed.

Lemma run_tasks_wf plans tasks :
  wf_plan plans = true ->
  Forall (fun t => wf_task t = true) tasks ->
  forall cache trace (w : world),
  exists segs cache' w',
    for_each tasks (run_task plans) (cache, trace) w
    = (Ok (cache', (trace ++ map snd (List.concat segs))%list), w') /\
    Forall2 (segment plans) tasks segs /\
    dispatches cache (List.concat segs) cache'.
Proof.
  intros Hp. induction 1 as [|t tasks Ht Hrest IH]; intros cache trace w.
  - exists [], cache, w. simpl. rewrite app_nil_r. repeat split; constructor.
  - cbn [for_each]. unfold bind at 1.
    destruct (run_task_wf plans t cache trace w Hp Ht)
      as (seg & c1 & w1 & -> & Hd1 & Hseg).
    destruct (IH c1 (trace ++ map snd seg)%list w1)
      as (segs & c2 & w2 & -> & Hsegs & Hd2).
    exists (seg :: segs), c2, w2. cbn [List.concat].
    rewrite map_app, app_assoc. repeat split.
    + constructor; auto.
    + eapply dispatches_app; eauto.
Qed.

Lemma segments_in_plan plans tasks segs :
  Forall2 (segment plans) tasks segs ->
  (forall t, In t tasks -> In t plans) ->
  Forall (fun ev : event => In (fst ev) plans) (List.concat segs).
Proof.
  induction 1 as [|t seg tasks segs (evs & out & -> & _ & Hf) Hrest IH]; intros Hin.
  - constructor.
  - cbn [List.concat]. apply Forall_app. split.
    + apply Forall_app. split.
      * eapply Forall_impl; [|exact Hf]. now intros ev [H _].
      * constructor; [|constructor]. simpl. apply Hin. now left.
    + apply IH. intros t' Ht'. apply Hin. now right.
Qed.

(** Every task of the plan has an event in its own segment. *)
Lemma segments_cover plans tasks segs :
  Forall2 (segment plans) tasks segs ->
  forall t, In t tasks -> exists out, In (t, out) (List.concat segs).
Proof.
  induction 1 as [|t seg tasks segs (evs & out & -> & _) Hrest IH]; intros t' [].
  - subst t'. exists out. cbn [List.concat]. apply in_or_app. left.
    apply in_or_app. right. now left.
  - destruct (IH t' H) as [out' Hin]. exists out'. cbn [List.concat].
    apply in_or_app. now right.
Qed.

(** An entry of the cache was written by a successful dispatch. *)
Lemma dispatches_written cache evs cache' k v :
  dispatches cache evs cache' ->
  Forall (fun ev : event => wf_task (fst ev) = true) evs ->
  pd_get k cache' = Some v ->
  pd_get k cache = Some v \/
  exists task, In (task, success k v) evs /\ task_id_of task = k /\ tool_of task <> None.
Proof.
  induction 1 as [|cache task out cache1 evs cache2 Hd Hds IH]; auto.
  intros Hwf Hget. inversion Hwf as [|? ? Ht Hrest]; subst. simpl in Ht.
  destruct (IH Hrest Hget) as [Hc1|(t & Hin & Hid & Hreg)].
  - destruct Hd as [r Hreg|msg]; auto.
    destruct (wf_task_id task Ht) as [id Hid]. rewrite Hid in *.
    apply pd_get_set_inv in Hc1 as [[-> ->]|]; auto.
    right. exists task. rewrite Hid. repeat split; auto. now left.
  - right. exists t. repeat split; auto. now right.
Qed.

Lemma dispatch_outcome task cache out cache' :
  dispatch task cache out cache' ->
  (exists r, out = success (task_id_of task) r) \/
  (exists msg, out = failure (task_id_of task) msg).
Proof. destruct 1; eauto. Qed.

(** The loop over a well-formed plan runs to its end: the trace is made
    of one segment per task, in plan order, and the cache is what the
    dispatches of the trace wrote. *)
Lemma run_loop_wf plans (w : world) :
  wf_plan plans = true ->
  exists segs cache w',
    run_loop plans w = (Ok (cache, map snd (List.concat segs)), w') /\
    Forall2 (segment plans) plans segs /\
    dispatches [] (List.concat segs) cache.
Proof.
  intros Hp. unfold run_loop.
  assert (Hall : Forall (fun t => wf_task t = true) plans).
  { apply Forall_forall. intros t. now apply wf_plan_In. }
  destruct (run_tasks_wf plans plans Hp Hall [] [] w) as (segs & c & w' & H & Hs & Hd).
  exists segs, c, w'. auto.
Qed.

(** The plan runner on a plan object holding a sequence of well-formed
    tasks: everything up to the returned dict. *)
Lemma run_execution_plan_wf d plans (w : world) :
  dict_get "plans" d = Some (VList plans) ->
  wf_plan plans = true ->
  exists segs cache w',
    run_execution_plan (VDict d) w
    = (Ok (RunDone (strftime_now (ext w')) (map snd (List.concat segs)) cache), w') /\
    Forall2 (segment plans) plans segs /\
    dispatches [] (List.concat segs) cache.
Proof.
  intros Hd Hp.
  destruct (run_loop_wf plans w Hp) as (segs & cache & w' & Hrun & Hsegs & Hdisp).
  exists segs, cache, w'. split; auto.
  unfold run_execution_plan. unfold bind at 1.
  assert (Htruthy : py_truthy (VDict d) = true) by (destruct d; [discriminate|reflexivity]).
  rewrite Htruthy. unfold lift at 1. cbn [py_contains_str]. unfold dict_mem.
  rewrite Hd. cbn [negb]. unfold bind at 1. unfold lift at 1.
  cbn [py_getitem]. rewrite Hd. unfold bind at 1. unfold lift at 1. cbn [py_iter].
  unfold bind at 1. rewrite Hrun. unfold bind at 1. unfold lift at 1.
  rewrite (aggregate_dispatches [] _ cache Hdisp); [reflexivity|].
  eapply Forall_impl; [|apply (segments_in_plan plans plans segs Hsegs); auto].
  intros ev Hin. now apply wf_plan_In with plans.
Qed.

(** ** The dispatches of a run are applications of [execute_task] *)

Local Abbreviation executions := (executions tools py_repr).

Lemma executions_app cache (w : world) evs1 cache1 w1 evs2 cache2 w2 :
  executions cache w evs1 cache1 w1 ->
  executions cache1 w1 evs2 cache2 w2 ->
  executions cache w (evs1 ++ evs2)%list cache2 w2.
Proof.
  induction 1 as [|c w t o c1 w1 evs c2 w2' Hex Hrest IH]; intros H2; simpl; auto.
  econstructor; eauto.
Qed.

Lemma executions_app_inv evs1 :
  forall cache (w : world) evs2 cache2 w2,
    executions cache w (evs1 ++ evs2)%list cache2 w2 ->
    exists cache1 w1,
      executions cache w evs1 cache1 w1 /\ executions cache1 w1 evs2 cache2 w2.
Proof.
  induction evs1 as [|[t o] evs1 IH]; intros cache w evs2 cache2 w2 H; simpl in H.
  - exists cache, w. split; [constructor|exact H].
  - inversion H as [|c w0 t0 o0 c1 w1 evs c2 w2' Hex Hrest]; subst.
    destruct (IH _ _ _ _ _ Hrest) as (c1' & w1' & H1 & H2).
    exists c1', w1'. split; [econstructor; eauto|exact H2].
Qed.

(** The records decide the run: the same applications from the same cache
    and world end in the same cache and world. *)
Lemma executions_det cache (w : world) evs c1 w1 c2 w2 :
  executions cache w evs c1 w1 ->
  executions cache w evs c2 w2 ->
  c1 = c2 /\ w1 = w2.
Proof.
  induction 1 as [|c w t o ca wa evs cb wb Hex Hrest IH]; intros H2.
  - inversion H2; subst. auto.
  - inversion H2 as [|c' w' t' o' ca' wa' evs' cb' wb' Hex' Hrest']; subst.
    rewrite Hex in Hex'. injection Hex' as <- <-. auto.
Qed.

(** In a run every record is the outcome of an application of
    [execute_task] to its task. *)
Lemma executions_In cache (w : world) evs cache' w' t out :
  executions cache w evs cache' w' -> In (t, out) evs ->
  exists c0 w0 c1 w1, execute_task t c0 w0 = (Ok (out, c1), w1).
Proof.
  induction 1 as [|c w t0 o ca wa evs cb wb Hex Hrest IH]; intros []; auto.
  injection H as -> ->. eauto.
Qed.

(** The record at a point of a run, and the run after it. *)
Lemma executions_at pre : forall cache (w : world) t out post cache' w' c0 w0,
  executions cache w (pre ++ (t, out) :: post)%list cache' w' ->
  executions cache w pre c0 w0 ->
  exists c1 w1,
    execute_task t c0 w0 = (Ok (out, c1), w1) /\
    executions c1 w1 post cache' w'.
Proof.
  intros cache w t out post cache' w' c0 w0 Hall Hpre.
  destruct (executions_app_inv _ _ _ _ _ _ Hall) as (c0' & w0' & Hpre' & Hrest).
  destruct (executions_det _ _ _ _ _ _ _ Hpre Hpre') as [<- <-].
  inversion Hrest as [|c w2 t0 o0 c1 w1 evs c2 w2' Hex Hpost]; subst. eauto.
Qed.

Lemma resolve_dep_exec plans dep cache trace (w : world) :
  wf_plan plans = true -> is_str dep = true ->
  exists evs cache' w',
    resolve_dep plans dep (cache, trace) w
    = (Ok (cache', (trace ++ map snd evs)%list), w') /\
    executions cache w evs cache' w' /\
    dispatches cache evs cache' /\
    (List.length evs <= 1)%nat /\
    Forall (fun ev : event =>
              In (fst ev) plans /\ task_id_of (fst ev) = dep) evs.
Proof.
  intros Hp Hs. destruct dep as [| | |s| | |]; try discriminate.
  unfold resolve_dep. unfold_monad. cbn [cache_mem hashable].
  destruct (pd_get (VStr s) cache) eqn:Eg; cbn [negb].
  - exists [], cache, w. rewrite app_nil_r. repeat split; auto; constructor.
  - destruct (find_task_wf plans (VStr s) Hp) as [->|(t & -> & Hin & He)].
    + exists [], cache, w. rewrite app_nil_r. repeat split; auto; constructor.
    + pose proof (wf_plan_In _ _ Hp Hin) as Ht.
      rewrite (wf_task_truthy _ Ht).
      destruct (execute_task_dispatch t cache w Ht) as (out & c' & w' & Hex & Hd).
      rewrite Hex.
      exists [(t, out)], c', w'. repeat split; auto.
      * econstructor; eauto. constructor.
      * econstructor; eauto. constructor.
      * constructor; [|constructor]. simpl. split; auto.
        now apply py_eqb_str_r.
Qed.

Lemma resolve_deps_exec plans deps :
  wf_plan plans = true ->
  Forall (fun dep => is_str dep = true) deps ->
  forall cache trace (w : world),
  exists evs cache' w',
    for_each deps (resolve_dep plans) (cache, trace) w
    = (Ok (cache', (trace ++ map snd evs)%list), w') /\
    executions cache w evs cache' w' /\
    dispatches cache evs cache' /\
    (List.length evs <= List.length deps)%nat /\
    Forall (fun ev : event =>
              In (fst ev) plans /\ In (task_id_of (fst ev)) deps) evs.
Proof.
  intros Hp. induction 1 as [|dep deps Hs Hrest IH]; intros cache trace w.
  - exists [], cache, w. simpl. rewrite app_nil_r. repeat split; auto; constructor.
  - cbn [for_each]. unfold bind at 1.
    destruct (resolve_dep_exec plans dep cache trace w Hp Hs)
      as (evs1 & c1 & w1 & -> & He1 & Hd1 & Hl1 & Hf1).
    destruct (IH c1 (trace ++ map snd evs1)%list w1)
      as (evs2 & c2 & w2 & -> & He2 & Hd2 & Hl2 & Hf2).
    exists (evs1 ++ evs2)%list, c2, w2.
    rewrite map_app, app_assoc, length_app. repeat split.
    + eapply executions_app; eauto.
    + eapply dispatches_app; eauto.
    + simpl. lia.
    + apply Forall_app. split.
      * eapply Forall_impl; [|exact Hf1]. intros ev (Hin & Hid).
        split; auto. left. auto.
      * eapply Forall_impl; [|exact Hf2]. intros ev (Hin & Hid).
        split; auto. right. auto.
Qed.

(** One turn of the loop of line 200: the dispatches for the missing
    dependencies, then the dispatch of the task, each one an application
    of [execute_task] on the cache and the world the one before left. *)
Lemma run_task_exec plans task cache trace (w : world) :
  wf_plan plans = true -> wf_task task = true ->
  exists seg cache' w',
    run_task plans task (cache, trace) w
    = (Ok (cache', (trace ++ map snd seg)%list), w') /\
    executions cache w seg cache' w' /\
    dispatches cache seg cache' /\
    segment plans task seg.
Proof.
  intros Hp Ht.
  destruct (dep_ids_wf task Ht) as [Hdeps Hstr].
  destruct (wf_task_inv task Ht) as (d & id & Heq & _).
  unfold run_task. unfold bind at 1 2 3. unfold lift.
  rewrite Heq in Hdeps |- *. cbn [py_get res_bind] in Hdeps |- *.
  rewrite Hdeps. rewrite <- Heq in *.
  unfold bind at 1.
  destruct (resolve_deps_exec plans (deps_of task) Hp Hstr cache trace w)
    as (evs & c1 & w1 & -> & He1 & Hd1 & Hl1 & Hf1).
  unfold bind at 1.
  destruct (execute_task_dispatch task c1 w1 Ht) as (out & c2 & w2 & Hex & Hd2).
  rewrite Hex. unfold ret.
  exists (evs ++ [(task, out)])%list, c2, w2.
  rewrite map_app, app_assoc. repeat split.
  - eapply executions_app; eauto. econstructor; eauto. constructor.
  - eapply dispatches_app; eauto. econstructor; eauto. constructor.
  - exists evs, out. repeat split; auto.
Qed.

Lemma run_tasks_exec plans tasks :
  wf_plan plans = true ->
  Forall (fun t => wf_task t = true) tasks ->
  forall cache trace (w : world),
  exists segs cache' w',
    for_each tasks (run_task plans) (cache, trace) w
    = (Ok (cache', (trace ++ map snd (List.concat segs))%list), w') /\
    Forall2 (segment plans) tasks segs /\
    executions cache w (List.concat segs) cache' w' /\
    dispatches cache (List.concat segs) cache'.
Proof.
  intros Hp. induction 1 as [|t tasks Ht Hrest IH]; intros cache trace w.
  - exists [], cache, w. simpl. rewrite app_nil_r. repeat split; constructor.
  - cbn [for_each]. unfold bind at 1.
    destruct (run_task_exec plans t cache trace w Hp Ht)
      as (seg & c1 & w1 & -> & He1 & Hd1 & Hseg).
    destruct (IH c1 (trace ++ map snd seg)%list w1)
      as (segs & c2 & w2 & -> & Hsegs & He2 & Hd2).
    exists (seg :: segs), c2, w2. cbn [List.concat].
    rewrite map_app, app_assoc. repeat split.
    + constructor; auto.
    + eapply executions_app; eauto.
    + eapply dispatches_app; eauto.
Qed.

Lemma run_loop_exec plans (w : world) :
  wf_plan plans = true ->
  exists segs cache w',
    run_loop plans w = (Ok (cache, map snd (List.concat segs)), w') /\
    Forall2 (segment plans) plans segs /\
    executions [] w (List.concat segs) cache w' /\
    dispatches [] (List.concat segs) cache.
Proof.
  intros Hp. unfold run_loop.
  assert (Hall : Forall (fun t => wf_task t = true) plans).
  { apply Forall_forall. intros t. now apply wf_plan_In. }
  destruct (run_tasks_exec plans plans Hp Hall [] [] w)
    as (segs & c & w' & H & Hs & He & Hd).
  exists segs, c, w'. auto.
Qed.

(** The plan runner on a plan object holding a sequence of well-formed
    tasks: the run returns; its trace is made of one segment per task, in
    plan order; the records of the trace are the outcomes of successive
    applications of [execute_task], which start with the empty cache in
    the world of the call and end with the returned cache in the world
    the run leaves. *)
Lemma run_execution_plan_exec d plans (w : world) :
  dict_get "plans" d = Some (VList plans) ->
  wf_plan plans = true ->
  exists segs cache w',
    run_execution_plan (VDict d) w
    = (Ok (RunDone (strftime_now (ext w')) (map snd (List.concat segs)) cache), w') /\
    Forall2 (segment plans) plans segs /\
    executions [] w (List.concat segs) cache w' /\
    dispatches [] (List.concat segs) cache.
Proof.
  intros Hd Hp.
  destruct (run_loop_exec plans w Hp) as (segs & cache & w' & Hrun & Hsegs & Hex & Hdisp).
  exists segs, cache, w'. repeat split; auto.
  unfold run_execution_plan. unfold bind at 1.
  assert (Htruthy : py_truthy (VDict d) = true) by (destruct d; [discriminate|reflexivity]).
  rewrite Htruthy. unfold lift at 1. cbn [py_contains_str]. unfold dict_mem.
  rewrite Hd. cbn [negb]. unfold bind at 1. unfold lift at 1.
  cbn [py_getitem]. rewrite Hd. unfold bind at 1. unfold lift at 1. cbn [py_iter].
  unfold bind at 1. rewrite Hrun. unfold bind at 1. unfold lift at 1.
  rewrite (aggregate_dispatches [] _ cache Hdisp); [reflexivity|].
  eapply Forall_impl; [|apply (segments_in_plan plans plans segs Hsegs); auto].
  intros ev Hin. now apply wf_plan_In with plans.
Qed.

(** The tasks of a run's records are tasks of the plan. *)
Lemma segments_tasks plans segs t out :
  Forall2 (segment plans) plans segs ->
  In (t, out) (List.concat segs) -> In t plans.
Proof.
  intros Hsegs Hin.
  pose proof (segments_in_plan plans plans segs Hsegs (fun _ H => H)) as Hall.
  rewrite Forall_forall in Hall. exact (Hall _ Hin).
Qed.

(** A failure outcome comes with the cache left as it was. *)
Lemma execute_task_failure_cache task cache (w : world) msg cache' w' :
  wf_task task = true ->
  execute_task task cache w = (Ok (failure (task_id_of task) msg, cache'), w') ->
  cache' = cache.
Proof.
  intros Hwf Hex.
  destruct (execute_task_dispatch task cache w Hwf) as (out & c & w1 & Hex' & Hd).
  rewrite Hex in Hex'. injection Hex' as <- <- <-.
  inversion Hd; auto; discriminate.
Qed.

(** C1.  For a plan object holding under ["plans"] a sequence of tasks of
    the plan input shape, whatever the tools do, [run_execution_plan]
    returns (it does not raise) a result with [status = True].  Its trace
    holds one segment per task of the plan, in plan order, each ending with
    the dispatch of that task, and the records of the trace are the
    outcomes of successive applications of [execute_task], which start
    with the empty cache in the world of the call and end with the returned
    [aggregated_results] in the world the run leaves.  A record that is a
    failure stops nothing: it is what [execute_task] returned for its task
    on the cache the records before it built, that cache is left as it
    was, and the records after it are the outcomes of the applications
    that follow.  Every entry of [aggregated_results] comes from a trace
    record carrying a ["result"] field. *)
Theorem run_execution_plan_best_effort d plans (w : world) :
  dict_get "plans" d = Some (VList plans) ->
  wf_plan plans = true ->
  exists executed_at task_results aggregated_results w',
    run_execution_plan (VDict d) w
    = (Ok (RunDone executed_at task_results aggregated_results), w') /\
    status (RunDone executed_at task_results aggregated_results) = true /\
    (exists segs,
        task_results = map snd (List.concat segs) /\
        Forall2 (segment plans) plans segs /\
        executions [] w (List.concat segs) aggregated_results w' /\
        (forall pre t msg post,
            List.concat segs = (pre ++ (t, failure (task_id_of t) msg) :: post)%list ->
            exists cache w0 w1,
              executions [] w pre cache w0 /\
              execute_task t cache w0 = (Ok (failure (task_id_of t) msg, cache), w1) /\
              executions cache w1 post aggregated_results w')) /\
    (forall k v, pd_get k aggregated_results = Some v ->
                 In (success k v) task_results).
Proof.
  intros Hd Hp.
  destruct (run_execution_plan_exec d plans w Hd Hp)
    as (segs & cache & w' & Hrun & Hsegs & Hex & Hdisp).
  exists (strftime_now (ext w')), (map snd (List.concat segs)), cache, w'.
  split; [exact Hrun|]. split; [reflexivity|]. split.
  - exists segs. split; [reflexivity|]. split; [exact Hsegs|]. split; [exact Hex|].
    intros pre t msg post Heq.
    assert (Ht : wf_task t = true).
    { apply wf_plan_In with plans; auto.
      apply (segments_tasks plans segs t (failure (task_id_of t) msg) Hsegs).
      unfold event in *. rewrite Heq. apply in_or_app. right. now left. }
    rewrite Heq in Hex.
    destruct (executions_app_inv _ _ _ _ _ _ Hex) as (c0 & w0 & Hpre & Hrest).
    inversion Hrest as [|c wa t0 o0 c1 w1 evs c2 w2 Hex1 Hpost]; subst.
    pose proof (execute_task_failure_cache _ _ _ _ _ _ Ht Hex1) as ->.
    exists c0, w0, w1. auto.
  - intros k v Hget.
    assert (Hwf : Forall (fun ev : event => wf_task (fst ev) = true) (List.concat segs)).
    { eapply Forall_impl; [|apply (segments_in_plan plans plans segs Hsegs); auto].
      intros ev Hin. now apply wf_plan_In with plans. }
    destruct (dispatches_written _ _ _ k v Hdisp Hwf Hget) as [Hc|(t & Hin & _)];
      [discriminate|].
    apply (in_map snd) in Hin. exact Hin.
Qed.

Lemma dispatches_In cache evs cache' t out :
  dispatches cache evs cache' -> In (t, out) evs ->
  (exists r, out = success (task_id_of t) r /\ tool_of t <> None) \/
  (exists msg, out = failure (task_id_of t) msg).
Proof.
  induction 1 as [|cache task o cache1 evs cache2 Hd Hds IH]; intros []; auto.
  injection H as -> ->. destruct Hd; eauto.
Qed.

(** In a completed run every task of the plan has its outcome in the trace. *)
Lemma every_task_in_trace plans segs cache0 cache :
  Forall2 (segment plans) plans segs ->
  dispatches cache0 (List.concat segs) cache ->
  forall t, In t plans ->
  exists out, In out (map snd (List.concat segs)) /\
    ((exists r, out = success (task_id_of t) r) \/
     (exists msg, out = failure (task_id_of t) msg)).
Proof.
  intros Hsegs Hdisp t Hin.
  destruct (segments_cover plans plans segs Hsegs t Hin) as [out Hout].
  exists out. split; [exact (in_map snd _ _ Hout)|].
  destruct (dispatches_In _ _ _ _ _ Hdisp Hout) as [(r & -> & _)|(msg & ->)]; eauto.
Qed.

(** C9 (as amended).  For an input that is empty (falsy) or a dict without
    a ["plans"] key, [run_execution_plan] returns, without raising and
    without touching the world (so no task is attempted and no tool
    invoked), the failure result
    [{"status": False, "error": "Invalid plan format"}]. *)
Theorem run_execution_plan_invalid plan (w : world) :
  py_truthy plan = false \/ (exists d, plan = VDict d /\ dict_get "plans" d = None) ->
  run_execution_plan plan w = (Ok (RunInvalid "Invalid plan format"), w) /\
  status (RunInvalid "Invalid plan format") = false.
Proof.
  intros H. split; [|reflexivity].
  unfold run_execution_plan. unfold bind at 1.
  destruct H as [Hf|(d & -> & Hd)].
  - rewrite Hf. reflexivity.
  - destruct (py_truthy (VDict d)); [|reflexivity].
    unfold lift. cbn [py_contains_str]. unfold dict_mem. rewrite Hd. reflexivity.
Qed.

(** C2.  When the call made for a task raises (the tool invocation, or the
    preparation of its arguments), [execute_task] does not raise: it
    returns the failure outcome [{task_id, error: str(e)}] and leaves the
    cache as it was.  Hence, whatever the tools do, a run over a plan of
    well-formed tasks returns; its trace holds one segment per task of the
    plan, in plan order, whose records are the outcomes of successive
    applications of [execute_task]; wherever in the run the task is
    dispatched on the cache and in the world of the raising call, its
    record is that failure outcome and the run goes on from the same cache
    with the applications for all the records that follow, up to the
    returned [aggregated_results]; and every task of the plan has its
    record in the trace. *)
Theorem tool_exception_contained task cache (w w1 : world) func e :
  wf_task task = true ->
  tool_of task = Some func ->
  call_tool func task (tool_name_of task) (sub_task_of task) cache w = (Raise e, w1) ->
  execute_task task cache w
  = (Ok (failure (task_id_of task) (exn_str e), cache), w1) /\
  (forall d plans (w0 : world),
      dict_get "plans" d = Some (VList plans) ->
      wf_plan plans = true ->
      exists executed_at task_results aggregated_results w' segs,
        run_execution_plan (VDict d) w0
        = (Ok (RunDone executed_at task_results aggregated_results), w') /\
        task_results = map snd (List.concat segs) /\
        Forall2 (segment plans) plans segs /\
        executions [] w0 (List.concat segs) aggregated_results w' /\
        (forall pre out post,
            List.concat segs = (pre ++ (task, out) :: post)%list ->
            executions [] w0 pre cache w ->
            out = failure (task_id_of task) (exn_str e) /\
            executions cache w1 post aggregated_results w') /\
        (forall t, In t plans ->
           exists out,
             In (t, out) (List.concat segs) /\ In out task_results /\
             ((exists r, out = success (task_id_of t) r) \/
              (exists msg, out = failure (task_id_of t) msg)))).
Proof.
  intros Hwf Hf Hcall.
  assert (Hfail : execute_task task cache w
                  = (Ok (failure (task_id_of task) (exn_str e), cache), w1)).
  { rewrite (execute_task_registered _ _ _ func Hwf Hf), Hcall. reflexivity. }
  split; [exact Hfail|].
  intros d plans w0 Hd Hp.
  destruct (run_execution_plan_exec d plans w0 Hd Hp)
    as (segs & c & w' & Hrun & Hsegs & Hex & Hdisp).
  exists (strftime_now (ext w')), (map snd (List.concat segs)), c, w', segs.
  split; [exact Hrun|]. split; [reflexivity|]. split; [exact Hsegs|].
  split; [exact Hex|]. split.
  - intros pre out post Heq Hpre. rewrite Heq in Hex.
    destruct (executions_at _ _ _ _ _ _ _ _ _ _ Hex Hpre) as (c1 & w2 & Hex1 & Hpost).
    rewrite Hfail in Hex1. injection Hex1 as <- <- <-. auto.
  - intros t Hin.
    destruct (segments_cover plans plans segs Hsegs t Hin) as [out Hout].
    exists out. split; [exact Hout|]. split; [exact (in_map snd _ _ Hout)|].
    destruct (dispatches_In _ _ _ _ _ Hdisp Hout) as [(r & -> & _)|(msg & ->)]; eauto.
Qed.

Lemma NoDup_map_inj {A B} (f : A -> B) (l : list A) a b :
  NoDup (map f l) -> In a l -> In b l -> f a = f b -> a = b.
Proof.
  induction l as [|x l IH]; simpl; [tauto|].
  intros Hnd Ha Hb Hab. inversion Hnd as [|? ? Hnot Hnd']; subst.
  destruct Ha as [->|Ha], Hb as [->|Hb]; auto.
  - exfalso. apply Hnot. rewrite Hab. now apply in_map.
  - exfalso. apply Hnot. rewrite <- Hab. now apply in_map.
Qed.

Lemma str_app_assoc (a b c : string) : (a ++ b) ++ c = a ++ (b ++ c).
Proof. induction a as [|x a IH]; simpl; congruence. Qed.

Lemma not_found_occurs s :
  occurs_in "not found" ("❌ Tool '" ++ s ++ "' not found or undefined.").
Proof.
  exists ("❌ Tool '" ++ s ++ "' "), " or undefined.".
  rewrite !str_app_assoc. reflexivity.
Qed.

(** C6.  For a task whose tool name is not in the registry, [execute_task]
    leaves the world as it is (no tool is invoked) and returns a failure
    outcome whose message contains "not found", without writing the cache.
    In a run over a plan of well-formed tasks with unique identifiers that
    contains the task, the overall status is [True] and
    [aggregated_results] has no entry under the task's identifier; the
    trace holds one segment per task of the plan, in plan order, whose
    records are the outcomes of successive applications of
    [execute_task]; wherever the task is dispatched, its record is such a
    failure, and the run goes on from the same cache and the same world
    with the applications for all the records that follow, up to the
    returned [aggregated_results]; and every task of the plan has its
    record in the trace. *)
Theorem unknown_tool_is_local_failure task cache (w : world) :
  wf_task task = true ->
  tool_of task = None ->
  (exists msg,
      execute_task task cache w = (Ok (failure (task_id_of task) msg, cache), w) /\
      occurs_in "not found" msg) /\
  (forall d plans (w0 : world),
      dict_get "plans" d = Some (VList plans) ->
      wf_plan plans = true -> unique_ids plans -> In task plans ->
      exists executed_at task_results aggregated_results w' segs,
        run_execution_plan (VDict d) w0
        = (Ok (RunDone executed_at task_results aggregated_results), w') /\
        status (RunDone executed_at task_results aggregated_results) = true /\
        pd_get (task_id_of task) aggregated_results = None /\
        task_results = map snd (List.concat segs) /\
        Forall2 (segment plans) plans segs /\
        executions [] w0 (List.concat segs) aggregated_results w' /\
        (forall pre out post cache0 w1,
            List.concat segs = (pre ++ (task, out) :: post)%list ->
            executions [] w0 pre cache0 w1 ->
            (exists msg, out = failure (task_id_of task) msg /\
                         occurs_in "not found" msg) /\
            executions cache0 w1 post aggregated_results w') /\
        (forall t, In t plans ->
           exists out,
             In (t, out) (List.concat segs) /\ In out task_results /\
             ((exists r, out = success (task_id_of t) r) \/
              (exists msg, out = failure (task_id_of t) msg)))).
Proof.
  intros Hwf Hf. split.
  - eexists. split; [apply (execute_task_unregistered _ _ _ Hwf Hf)|].
    apply not_found_occurs.
  - intros d plans w0 Hd Hp Hu Hin.
    destruct (run_execution_plan_exec d plans w0 Hd Hp)
      as (segs & c & w' & Hrun & Hsegs & Hex & Hdisp).
    exists (strftime_now (ext w')), (map snd (List.concat segs)), c, w', segs.
    split; [exact Hrun|]. split; [reflexivity|]. split; [|split; [reflexivity|]].
    + destruct (pd_get (task_id_of task) c) as [v|] eqn:Hget; auto. exfalso.
      pose proof (segments_in_plan plans plans segs Hsegs (fun t H => H)) as Hall.
      assert (Hwfs : Forall (fun ev : event => wf_task (fst ev) = true) (List.concat segs)).
      { eapply Forall_impl; [|exact Hall]. intros ev H. now apply wf_plan_In with plans. }
      destruct (dispatches_written _ _ _ _ _ Hdisp Hwfs Hget)
        as [Hc|(t & Htin & Hid & Hreg)]; [discriminate|].
      rewrite Forall_forall in Hall. specialize (Hall _ Htin). simpl in Hall.
      assert (t = task) by (eapply NoDup_map_inj; eauto). subst t. contradiction.
    + split; [exact Hsegs|]. split; [exact Hex|]. split.
      * intros pre out post c0 w1 Heq Hpre. rewrite Heq in Hex.
        destruct (executions_at _ _ _ _ _ _ _ _ _ _ Hex Hpre)
          as (c1 & w2 & Hex1 & Hpost).
        rewrite (execute_task_unregistered _ _ _ Hwf Hf) in Hex1.
        injection Hex1 as <- <- <-. split; [|exact Hpost].
        eexists. split; [reflexivity|]. apply not_found_occurs.
      * intros t Ht.
        destruct (segments_cover plans plans segs Hsegs t Ht) as [out Hout].
        exists out. split; [exact Hout|]. split; [exact (in_map snd _ _ Hout)|].
        destruct (dispatches_In _ _ _ _ _ Hdisp Hout) as [(r & -> & _)|(msg & ->)]; eauto.
Qed.

(** C7 (as amended).  A dispatch of a well-formed task returns; when its
    outcome is a success the cache gets the result under the task's
    identifier and is otherwise unchanged; when its outcome is a failure
    the cache is unchanged.  Over a run, the cache starts empty and is
    exactly what the dispatches recorded in the trace wrote, in trace
    order; so an entry is absent until a dispatch under its identifier
    succeeds. *)
Theorem cache_written_by_successes task cache (w : world) :
  wf_task task = true ->
  (exists out cache' w',
      execute_task task cache w = (Ok (out, cache'), w') /\
      ((exists r, out = success (task_id_of task) r /\
                  pd_get (task_id_of task) cache' = Some r /\
                  forall k, k <> task_id_of task -> pd_get k cache' = pd_get k cache) \/
       (exists msg, out = failure (task_id_of task) msg /\ cache' = cache))) /\
  (forall plans (w0 : world),
      wf_plan plans = true ->
      exists evs cache' w',
        run_loop plans w0 = (Ok (cache', map snd evs), w') /\
        dispatches [] evs cache' /\
        forall k v, pd_get k cache' = Some v -> In (success k v) (map snd evs)).
Proof.
  intros Hwf. split.
  - destruct (execute_task_dispatch task cache w Hwf) as (out & c' & w' & Hex & Hd).
    exists out, c', w'. split; auto.
    destruct (wf_task_id task Hwf) as [id Hid].
    destruct Hd as [r Hreg|msg]; [left|right; eauto].
    exists r. rewrite Hid. repeat split.
    + apply pd_get_set_same.
    + intros k Hk. now apply pd_get_set_other.
  - intros plans w0 Hp.
    destruct (run_loop_wf plans w0 Hp) as (segs & c & w' & Hrun & Hsegs & Hdisp).
    exists (List.concat segs), c, w'. repeat split; auto.
    intros k v Hget.
    pose proof (segments_in_plan plans plans segs Hsegs (fun t H => H)) as Hall.
    assert (Hwfs : Forall (fun ev : event => wf_task (fst ev) = true) (List.concat segs)).
    { eapply Forall_impl; [|exact Hall]. intros ev H. now apply wf_plan_In with plans. }
    destruct (dispatches_written _ _ _ _ _ Hdisp Hwfs Hget) as [Hc|(t & Htin & _)];
      [discriminate|].
    exact (in_map snd _ _ Htin).
Qed.


Lemma run_task_eq plans task cache trace (w : world) :
  wf_task task = true ->
  run_task plans task (cache, trace) w =
    match for_each (deps_of task) (resolve_dep plans) (cache, trace) w with
    | (Ok (c, tr), w1) =>
        match execute_task task c w1 with
        | (Ok (out, c'), w2) => (Ok (c', (tr ++ [out])%list), w2)
        | (Raise e, w2) => (Raise e, w2)
        end
    | (Raise e, w1) => (Raise e, w1)
    end.
Proof.
  intros Ht.
  destruct (dep_ids_wf task Ht) as [Hdeps _].
  destruct (wf_task_inv task Ht) as (d & id & Heq & _).
  unfold run_task. unfold bind at 1 2 3. unfold lift.
  rewrite Heq in Hdeps |- *. cbn [py_get res_bind] in Hdeps |- *.
  rewrite Hdeps. unfold bind at 1.
  destruct (for_each _ _ _ _) as [[[c tr]|e] w1]; auto.
  unfold bind at 1. destruct (execute_task _ _ _) as [[[out c']|e] w2]; auto.
Qed.




(** A dependency that is cached, or that no task of the plan carries, is
    passed over. *)
Lemma resolve_dep_skipped plans dep cache trace (w : world) :
  is_str dep = true ->
  pd_get dep cache <> None \/ find_task plans dep = Ok VNone ->
  resolve_dep plans dep (cache, trace) w = (Ok (cache, trace), w).
Proof.
  intros Hs H. destruct dep as [| | |s| | |]; try discriminate.
  unfold resolve_dep. unfold_monad. cbn [cache_mem hashable].
  destruct (pd_get (VStr s) cache) eqn:Hget; cbn [negb]; [reflexivity|].
  destruct H as [H| ->]; [congruence|reflexivity].
Qed.


End ExecutorFacts.

(** ** Runs on sample plans *)

Lemma run_execution_plan_best_effort_witness :
  dict_get "plans" [("plans", VList dummy_plan)] = Some (VList dummy_plan) /\
  wf_plan dummy_plan = true /\
  exists executed_at task_results aggregated_results w',
    run_execution_plan failing_tools sample_repr sample_now
      (VDict [("plans", VList dummy_plan)]) (World [] tt)
    = (Ok (RunDone executed_at task_results aggregated_results), w') /\
    status (RunDone executed_at task_results aggregated_results) = true /\
    exists later,
      task_results = failure (VStr "1") "backend unreachable" :: later /\
      later <> [].
Proof.
  split; [reflexivity|]. split; [reflexivity|].
  destruct (run_execution_plan_best_effort failing_tools sample_repr sample_now
              [("plans", VList dummy_plan)] dummy_plan (World [] tt)
              eq_refl eq_refl)
    as (e & tr & agg & w' & Hrun & Hst & (segs & -> & Hsegs & Hex & _) & _).
  exists e, (map snd (List.concat segs)), agg, w'.
  split; [exact Hrun|]. split; [exact Hst|].
  inversion Hsegs as [|t1 seg1 ts1 segs1 (evs1 & out1 & -> & Hlen1 & _) Hrest1]; subst.
  inversion Hrest1 as [|t2 seg2 ts2 segs2 (evs2 & out2 & -> & _ & _) Hrest2]; subst.
  destruct evs1 as [|ev evs1]; [|simpl in Hlen1; lia].
  cbn [List.concat app] in Hex |- *.
  inversion Hex as [|c w t o c1 w1 evs c2 w2 Hone Hmore]; subst.
  vm_compute in Hone. injection Hone as <- _ _.
  eexists. split; [reflexivity|].
  destruct evs2; discriminate.
Defined.

(** With the backend down every dispatch of the self-test plan fails (task
    1 is tried again as the missing dependency of task 2), and the run
    still reports [status = True], with an empty aggregate. *)
Example dummy_plan_backend_down :
  fst (run_execution_plan failing_tools sample_repr sample_now
         (VDict [("plans", VList dummy_plan)]) (World [] tt))
  = Ok (RunDone "2025-01-01 00:00:00"
          [failure (VStr "1") "backend unreachable";
           failure (VStr "1") "backend unreachable";
           failure (VStr "2") "backend unreachable"]
          []).
Proof. reflexivity. Qed.

Lemma tool_exception_contained_witness :
  wf_task chain_task1 = true /\
  tool_of chain_task1 = Some build_query /\
  execute_task failing_tools sample_repr chain_task1 [] (World [] tt)
  = (Ok (failure (VStr "1") "backend unreachable", []),
     World [Call build_query [("query_string", VStr "failed ssh logins");
                              ("time_range", VStr "2d")]] tt) /\
  exists executed_at,
    run_execution_plan failing_tools sample_repr sample_now
      (VDict [("plans", VList [chain_task1])]) (World [] tt)
    = (Ok (RunDone executed_at [failure (VStr "1") "backend unreachable"] []),
       World [Call build_query [("query_string", VStr "failed ssh logins");
                                ("time_range", VStr "2d")]] tt).
Proof.
  split; [reflexivity|]. split; [reflexivity|].
  destruct (tool_exception_contained failing_tools sample_repr sample_now
              chain_task1 [] (World [] tt) _ build_query
              (Exn ToolError "backend unreachable") eq_refl eq_refl eq_refl)
    as [Hone Hrun].
  split; [exact Hone|].
  destruct (Hrun [("plans", VList [chain_task1])] [chain_task1] (World [] tt)
              eq_refl eq_refl)
    as (e & tr & agg & w' & segs & Heq & -> & Hsegs & _ & Hraise & _).
  inversion Hsegs as [|t seg ts segs' (evs & out & -> & Hlen & _) Hrest]; subst.
  inversion Hrest; subst.
  destruct evs as [|ev evs]; [|simpl in Hlen; lia].
  destruct (Hraise [] out [] eq_refl (executions_nil _ _ _ _)) as [-> Hpost].
  inversion Hpost; subst.
  exists e. exact Heq.
Defined.

Lemma unknown_tool_is_local_failure_witness :
  wf_task unknown_tool_task = true /\
  tool_of unknown_tool_task = None /\
  (exists msg,
    execute_task counting_tools sample_repr unknown_tool_task [] (World [] 0)
    = (Ok (failure (VStr "1") msg, []), World [] 0) /\
    occurs_in "not found" msg) /\
  exists executed_at msg,
    run_execution_plan counting_tools sample_repr sample_now
      (VDict [("plans", VList [unknown_tool_task])]) (World [] 0)
    = (Ok (RunDone executed_at [failure (VStr "1") msg] []), World [] 0) /\
    occurs_in "not found" msg.
Proof.
  split; [reflexivity|]. split; [reflexivity|].
  destruct (unknown_tool_is_local_failure counting_tools sample_repr sample_now
              unknown_tool_task [] (World [] 0) eq_refl eq_refl)
    as [Hone Hrun].
  split; [exact Hone|].
  assert (Hu : unique_ids [unknown_tool_task]).
  { constructor; [intros []|constructor]. }
  destruct (Hrun [("plans", VList [unknown_tool_task])] [unknown_tool_task]
              (World [] 0) eq_refl eq_refl Hu (or_introl eq_refl))
    as (e & tr & agg & w' & segs & Heq & _ & _ & -> & Hsegs & _ & Hat & _).
  inversion Hsegs as [|t seg ts segs' (evs & out & -> & Hlen & _) Hrest]; subst.
  inversion Hrest; subst.
  destruct evs as [|ev evs]; [|simpl in Hlen; lia].
  destruct (Hat [] out [] [] (World [] 0) eq_refl (executions_nil _ _ _ _))
    as [(msg & -> & Hmsg) Hpost].
  inversion Hpost; subst.
  exists e, msg. split; [exact Heq|exact Hmsg].
Defined.

Lemma cache_written_by_successes_witness :
  wf_task chain_task1 = true /\
  exists out cache' w',
    execute_task counting_tools sample_repr chain_task1 [] (World [] 0)
    = (Ok (out, cache'), w') /\
    ((exists r, out = success (task_id_of chain_task1) r /\
                pd_get (task_id_of chain_task1) cache' = Some r /\
                forall k, k <> task_id_of chain_task1 -> pd_get k cache' = pd_get k []) \/
     (exists msg, out = failure (task_id_of chain_task1) msg /\ cache' = [])).
Proof.
  split; [reflexivity|].
  apply (cache_written_by_successes counting_tools sample_repr chain_task1 []
           (World [] 0)); reflexivity.
Defined.

(** C7 (as stated) fails: the dispatcher completes the task with a failure
    outcome, recorded in the trace, and the cache has no entry for it. *)
Lemma failed_task_leaves_no_cache_entry :
  exists cache out w',
    run_loop counting_tools sample_repr [unknown_tool_task] (World [] 0)
    = (Ok (cache, [out]), w') /\
    field "task_id" VNone out = task_id_of unknown_tool_task /\
    pd_get (task_id_of unknown_tool_task) cache = None.
Proof. do 3 eexists. repeat split. Qed.

(** A task run first as a missing dependency and then again in plan order
    has its cache entry written twice, here with different values. *)
Example dependency_listed_late_runs_twice :
  let plans := [mk_task "A" "build_query" ["B"]; mk_task "B" "build_query" []] in
  fst (run_loop counting_tools sample_repr plans (World [] 0))
  = Ok ([(VStr "B", VInt 2); (VStr "A", VInt 1)],
        [success (VStr "B") (VInt 0); success (VStr "A") (VInt 1);
         success (VStr "B") (VInt 2)]).
Proof. reflexivity. Qed.

Lemma run_execution_plan_invalid_witness :
  (py_truthy (VDict [("goal", VStr "find failed logins")]) = false \/
   exists d, VDict [("goal", VStr "find failed logins")] = VDict d /\
             dict_get "plans" d = None) /\
  run_execution_plan counting_tools sample_repr sample_now
    (VDict [("goal", VStr "find failed logins")]) (World [] 0)
  = (Ok (RunInvalid "Invalid plan format"), World [] 0).
Proof.
  assert (H : py_truthy (VDict [("goal", VStr "find failed logins")]) = false \/
              exists d, VDict [("goal", VStr "find failed logins")] = VDict d /\
                        dict_get "plans" d = None).
  { right. eexists. split; reflexivity. }
  split; [exact H|].
  apply (run_execution_plan_invalid counting_tools sample_repr sample_now _ (World [] 0) H).
Defined.

(** C9 (as stated) fails: a plan whose ["plans"] entry is [null] holds no
    task sequence, passes the guard of line 193, and the loop of line 200
    raises. *)
Lemma null_plans_raises :
  py_truthy (VDict [("plans", VNone)]) = true /\
  dict_get "plans" [("plans", VNone)] = Some VNone /\
  run_execution_plan counting_tools sample_repr sample_now
    (VDict [("plans", VNone)]) (World [] 0)
  = (Raise (Exn TypeError "'NoneType' object is not iterable"), World [] 0).
Proof. repeat split. Qed.

(** Outside the plan input shape: with a task that has no ["task_id"], the
    lookup of line 207 raises as soon as a dependency is looked for. *)
Example task_without_id_raises :
  fst (run_execution_plan counting_tools sample_repr sample_now
         (VDict [("plans", VList [VDict [("tool_name", VStr "build_query");
                                         ("dependent_on_tasks", VList [VStr "1"])]])])
         (World [] 0))
  = Raise (Exn KeyError "'task_id'").
Proof. reflexivity. Qed.


(** ** The tools *)

Section ToolFacts.

Context {W : Type}.
Variable opensearch_client : option (value -> string -> W -> res value * W).
Variable utcnow : W -> Z * W.
Variable isoformat : Z -> string.
Variable py_repr : value -> string.

Local Abbreviation tools := (main_opensearch opensearch_client utcnow isoformat py_repr).

(** The search tools catch what the client raises. *)
Lemma search_hits_returns search body index (w : W) :
  exists v w', search_hits search body index w = (Ok v, w').
Proof.
  unfold search_hits. destruct (search body index w) as [resp w'].
  match goal with
  | |- context [match ?x with Ok _ => _ | Raise _ => _ end] => destruct x
  end; eauto.
Qed.

Lemma search_tool_returns name f query (w : W) :
  search_tool_name name = true ->
  dict_get name TOOL_MAPPING = Some f ->
  exists v w', tools f [("query", query); ("time_range", VStr "2d")] w = (Ok v, w').
Proof.
  unfold search_tool_name. cbn [existsb]. rewrite !orb_true_iff.
  intros [H|[H|[H|H]]]; try discriminate; apply String.eqb_eq in H; subst name;
    intros [= <-]; unfold main_opensearch; cbn [bind_call find dict_mem dict_get fst negb
      String.eqb Ascii.eqb Bool.eqb bind_params res_bind];
    [unfold search_raw_logs_fn | unfold search_alerts_fn | unfold search_vulnerabilities_fn];
    destruct opensearch_client; eauto using search_hits_returns.
Qed.

(** The agent lookup without identifier or name answers with an error
    marker, and leaves the world alone. *)
Lemma get_agent_data_without_name (w : W) :
  exists msg,
    tools get_agent_data [("agent_name", VNone)] w = (Ok (VDict [("error", VStr msg)]), w).
Proof.
  unfold main_opensearch. cbn [bind_call find dict_mem dict_get fst negb
      String.eqb Ascii.eqb Bool.eqb bind_params res_bind].
  unfold get_agent_data_fn, not_initialized. destruct opensearch_client; cbn; eauto.
Qed.

(** The query builder with the default window. *)
Lemma build_query_default sub_task (w : W) :
  clock_ok (fst (utcnow w)) = true ->
  tools build_query [("query_string", sub_task); ("time_range", VStr "2d")] w
  = (Ok (VDict [("query", VDict [("bool", VDict [("filter", VList
          [VDict [("range", VDict [("@timestamp", VDict
             [("gte", VStr (isoformat (fst (utcnow w) - 2 * us_per_day)));
              ("lte", VStr (isoformat (fst (utcnow w))))])])];
           VDict [("query_string", VDict [("query", sub_task)])]])])])]),
     snd (utcnow w)).
Proof.
  intros Hclock. unfold main_opensearch. cbn [bind_call find dict_mem dict_get fst negb
      String.eqb Ascii.eqb Bool.eqb bind_params res_bind].
  unfold build_query_fn. destruct (utcnow w) as [t w'].
  cbn [fst snd] in *.
  change (str_lower "2d") with "2d".
  change (String.eqb "2d" "anytime") with false. cbn [negb].
  change (is_substring "d" "2d") with true. cbv iota.
  change (py_int (str_remove "d" "2d")) with (@Ok Z 2%Z). cbn [res_bind].
  unfold minus_days. change (Z.abs 2 >? 999999999)%Z with false. cbv iota.
  unfold clock_ok in Hclock. apply andb_prop in Hclock as [Hlo Hhi].
  apply Z.leb_le in Hlo, Hhi.
  assert (Hr : ((0 <=? t - 2 * us_per_day) && (t - 2 * us_per_day <=? datetime_max))%Z = true).
  { apply andb_true_intro. split; apply Z.leb_le; unfold us_per_day in *; lia. }
  rewrite Hr. reflexivity.
Qed.

End ToolFacts.

(** ** Arguments drawn from the cache *)

Lemma dependency_base_query_wf task cache :
  wf_task task = true ->
  dependency_base_query task cache = Ok (dependency_value task cache).
Proof.
  intros Hwf. destruct (wf_task_inv task Hwf) as (d & id & -> & _ & Hd & _).
  unfold dependency_base_query, dependency_value, deps_of, field in *.
  cbn [py_get res_bind].
  destruct (dict_get "dependent_on_tasks" d) as [v|]; [|reflexivity].
  destruct v as [| | | |ids| |]; try discriminate; try reflexivity.
  destruct ids as [|dep ids]; [reflexivity|].
  cbn [wf_deps forallb] in Hd. apply andb_prop in Hd as [Hdep _].
  destruct dep as [| | |s| | |]; try discriminate.
  cbn [or_empty_list py_truthy py_len List.length Nat.ltb Nat.leb py_index0 res_bind].
  destruct (negb (String.eqb s "")); [|reflexivity].
  cbn [cache_get hashable res_bind]. destruct (pd_get (VStr s) cache); reflexivity.
Qed.

(** The cached results of the declared dependencies, [None] for the
    missing ones. *)
Lemma prev_results_wf task cache :
  wf_task task = true ->
  (deps <-? py_get task "dependent_on_tasks" VNone ;;
   tids <-? py_iter (or_empty_list deps) ;;
   map_res (fun tid => cache_get tid cache) tids)%res
  = Ok (map (fun dep => match pd_get dep cache with Some v => v | None => VNone end)
            (deps_of task)).
Proof.
  intros Hwf. destruct (wf_task_inv task Hwf) as (d & id & -> & _ & Hd & _).
  unfold deps_of, field in *. cbn [py_get res_bind].
  destruct (dict_get "dependent_on_tasks" d) as [v|]; [|reflexivity].
  destruct v as [| | | |ids| |]; try discriminate; try reflexivity.
  assert (Hiter : py_iter (or_empty_list (VList ids)) = Ok ids) by (destruct ids; reflexivity).
  rewrite Hiter. cbn [res_bind]. cbn [wf_deps] in Hd. clear Hiter.
  induction ids as [|dep ids IH]; [reflexivity|].
  cbn [forallb] in Hd. apply andb_prop in Hd as [Hdep Hids].
  destruct dep as [| | |s| | |]; try discriminate.
  cbn [map_res map cache_get hashable res_bind]. rewrite (IH Hids). reflexivity.
Qed.

Lemma no_agent_name_extract task cache :
  no_agent_name task cache = true ->
  extract_agent_name
    (map (fun dep => match pd_get dep cache with Some v => v | None => VNone end)
         (deps_of task)) = VNone.
Proof.
  unfold no_agent_name. destruct (deps_of task) as [|dep deps]; [reflexivity|].
  cbn [map extract_agent_name].
  destruct (pd_get dep cache) as [[| | | |[|first0 rest]| |]|]; try reflexivity.
  unfold lacks_agent_name.
  destruct first0 as [| | | | |rd|]; try reflexivity.
  cbn [py_get res_bind].
  destruct (dict_get "agent" rd) as [[| | | | |a|]|]; try reflexivity.
  cbn [py_get]. destruct (dict_get "name" a) as [[| | | | | |]|]; try reflexivity;
    discriminate.
Qed.

Lemma search_tool_name_cases name :
  search_tool_name name = true ->
  name = "search_raw_logs" \/ name = "search_alerts" \/ name = "search_vulnerabilities".
Proof.
  unfold search_tool_name. cbn [existsb]. rewrite !orb_true_iff.
  intros [H|[H|[H|H]]]; try discriminate; apply String.eqb_eq in H; auto.
Qed.

(** Refining what [build_query] returns, unwrapped: the filters are kept
    and the conjunctive list is added. *)
Lemma refine_built name filter :
  search_tool_name name = true ->
  exists must,
    refine_query_for_tool (VDict [("bool", VDict [("filter", filter)])]) (VStr name)
    = Ok (VDict [("bool", VDict [("filter", filter); ("must", VList must)])]).
Proof.
  intros H. destruct (search_tool_name_cases name H) as [->|[->| ->]];
    eexists; reflexivity.
Qed.

Lemma aggregate_app trace1 trace2 acc :
  aggregate (trace1 ++ trace2) acc
  = (acc' <-? aggregate trace1 acc ;; aggregate trace2 acc')%res.
Proof.
  revert acc. induction trace1 as [|r trace1 IH]; intros acc; [reflexivity|].
  cbn [app aggregate].
  destruct (py_contains_str "result" r) as [[|]|e]; cbn [res_bind]; auto.
  destruct (py_getitem r "task_id") as [k|e]; cbn [res_bind]; auto.
  destruct (py_get r "result" VNone) as [v|e]; cbn [res_bind]; auto.
  destruct (cache_set k v acc) as [acc'|e]; cbn [res_bind]; auto.
Qed.

(** ** The dispatcher with the tools of the repository *)

Section DispatchWithTools.

Context {W : Type}.
Variable opensearch_client : option (value -> string -> W -> res value * W).
Variable utcnow : W -> Z * W.
Variable isoformat : Z -> string.
Variable py_repr : value -> string.

Local Abbreviation tools := (main_opensearch opensearch_client utcnow isoformat py_repr).
Local Abbreviation execute_task := (execute_task tools py_repr).
Local Abbreviation world := (@world W).

(** C10.  For a [get_agent_data] task whose dependencies yield no agent
    name (none declared, the first one's result not cached or not a
    non-empty list, or the first element of that list lacking an agent
    name), the dispatcher invokes the tool with [agent_name = None]; the
    tool returns an error marker [{"error": ...}] without raising; and
    [execute_task] reports the success outcome [{task_id, result}] carrying
    the marker, which is written to the cache under the task's identifier
    and which the aggregation of a trace ending with this outcome maps the
    identifier to. *)
Theorem agent_lookup_without_name task cache (w : world) :
  wf_task task = true ->
  tool_name_of task = VStr "get_agent_data" ->
  no_agent_name task cache = true ->
  exists marker,
    is_error_marker marker /\
    tools get_agent_data [("agent_name", VNone)] (ext w) = (Ok marker, ext w) /\
    execute_task task cache w
    = (Ok (success (task_id_of task) marker,
           pd_set (task_id_of task) marker cache),
       World (calls w ++ [Call get_agent_data [("agent_name", VNone)]]) (ext w)) /\
    pd_get (task_id_of task) (pd_set (task_id_of task) marker cache) = Some marker /\
    (forall trace acc agg,
        aggregate trace acc = Ok agg ->
        exists agg',
          aggregate (trace ++ [success (task_id_of task) marker]) acc = Ok agg' /\
          pd_get (task_id_of task) agg' = Some marker).
Proof.
  intros Hwf Htool Hno.
  destruct (get_agent_data_without_name opensearch_client utcnow isoformat py_repr (ext w))
    as [msg Hcall].
  destruct (wf_task_id task Hwf) as [id Hid].
  exists (VDict [("error", VStr msg)]). split; [exists msg; reflexivity|].
  split; [exact Hcall|]. split; [|split].
  - assert (Hf : tool_of task = Some get_agent_data).
    { unfold tool_of. rewrite Htool. reflexivity. }
    rewrite (execute_task_registered tools py_repr _ _ _ _ Hwf Hf).
    unfold call_tool. rewrite Htool.
    change (py_eqb (VStr "get_agent_data") (VStr "build_query")) with false.
    change (is_search_tool_name (VStr "get_agent_data")) with false.
    change (py_eqb (VStr "get_agent_data") (VStr "get_agent_data")) with true.
    cbv iota. unfold agent_branch. unfold bind at 1 2 3. unfold lift.
    pose proof (prev_results_wf task cache Hwf) as Hprev.
    destruct (wf_task_inv task Hwf) as (d & id' & Heq & _).
    rewrite Heq in Hprev |- *. cbn [py_get res_bind] in Hprev |- *.
    destruct (py_iter _) as [tids|e]; [|discriminate]. cbn [res_bind] in Hprev.
    rewrite Hprev. rewrite <- Heq.
    rewrite (no_agent_name_extract task cache Hno).
    unfold invoke. rewrite Hcall.
    assert (Hjson : safe_json py_repr (VDict [("error", VStr msg)]) = VDict [("error", VStr msg)])
      by reflexivity.
    rewrite Hjson. reflexivity.
  - rewrite Hid. apply pd_get_set_same.
  - intros trace acc agg Hagg. rewrite aggregate_app, Hagg. cbn [res_bind].
    rewrite Hid. cbn. eexists. split; [reflexivity|]. apply pd_get_set_same.
Qed.

Lemma search_tool_name_tests name :
  search_tool_name name = true ->
  py_eqb (VStr name) (VStr "build_query") = false /\
  is_search_tool_name (VStr name) = true.
Proof.
  intros H. destruct (search_tool_name_cases name H) as [->|[->| ->]]; split; reflexivity.
Qed.

Lemma unwrap_query_wrapped q rest :
  unwrap_query (VDict (("query", VDict q) :: rest)) = VDict q.
Proof. reflexivity. Qed.

(** C4.  A search task ([search_raw_logs], [search_alerts] or
    [search_vulnerabilities]) of the plan input shape, dispatched with the
    tools of the repository.  When it declares no dependency, or its first
    declared dependency has no entry in the cache (as when it is not in the
    plan) or an empty one, the task does not fail: [build_query] is called
    with the task's sub-goal text and the window "2d", the dict under the
    ["query"] key of what it returns is refined, and the search tool is
    called with the refined query; the outcome is a success.  When the
    cache holds a non-empty dict for the first dependency, that dict (or
    the dict under its ["query"] key) is refined and handed to the search
    tool, and [build_query] is not called. *)
Theorem search_base_query_resolution task name func cache (w : world) :
  wf_task task = true ->
  tool_name_of task = VStr name ->
  search_tool_name name = true ->
  dict_get name TOOL_MAPPING = Some func ->
  clock_ok (fst (utcnow (ext w))) = true ->
  ((deps_of task = [] \/
    exists dep rest, deps_of task = dep :: rest /\
      (pd_get dep cache = None \/
       exists v, pd_get dep cache = Some v /\ py_truthy (unwrap_query v) = false)) ->
   exists built refined r x,
     tools build_query [("query_string", sub_task_of task); ("time_range", VStr "2d")]
           (ext w) = (Ok built, snd (utcnow (ext w))) /\
     refine_query_for_tool (unwrap_query built) (VStr name) = Ok refined /\
     execute_task task cache w
     = (Ok (success (task_id_of task) r, pd_set (task_id_of task) r cache),
        World (calls w ++
                 [Call build_query [("query_string", sub_task_of task);
                                    ("time_range", VStr "2d")];
                  Call func [("query", refined); ("time_range", VStr "2d")]]) x)) /\
  (forall dep rest d,
      deps_of task = dep :: rest -> py_truthy dep = true ->
      pd_get dep cache = Some (VDict d) ->
      py_truthy (unwrap_query (VDict d)) = true ->
      match refine_query_for_tool (unwrap_query (VDict d)) (VStr name) with
      | Ok refined =>
          exists r x,
            execute_task task cache w
            = (Ok (success (task_id_of task) r, pd_set (task_id_of task) r cache),
               World (calls w ++
                        [Call func [("query", unwrap_single_query refined);
                                    ("time_range", VStr "2d")]]) x)
      | Raise e =>
          execute_task task cache w = (Ok (failure (task_id_of task) (exn_str e), cache), w)
      end).
Proof.
  intros Hwf Htool Hname Hfunc Hclock.
  assert (Hf : tool_of task = Some func) by (unfold tool_of; now rewrite Htool).
  destruct (search_tool_name_tests name Hname) as [Hnb Hs].
  assert (Hexec : forall base, dependency_value task cache = base ->
            execute_task task cache w =
            match search_with tools func (VStr name) (sub_task_of task) base w with
            | (Ok r, w') =>
                (Ok (success (task_id_of task) (safe_json py_repr r),
                     pd_set (task_id_of task) (safe_json py_repr r) cache), w')
            | (Raise e, w') => (Ok (failure (task_id_of task) (exn_str e), cache), w')
            end).
  { intros base <-.
    rewrite (execute_task_registered tools py_repr _ _ _ _ Hwf Hf).
    unfold call_tool. rewrite Htool, Hnb, Hs. unfold search_branch.
    unfold bind at 1. unfold lift at 1.
    rewrite (dependency_base_query_wf task cache Hwf). reflexivity. }
  split.
  - intros Hdep.
    assert (Hbase : py_truthy (dependency_value task cache) = false).
    { unfold dependency_value.
      destruct Hdep as [->|(dep & rest & -> & [Hnone|(v & Hv & Hfalsy)])]; auto.
      - rewrite Hnone. destruct (py_truthy dep); reflexivity.
      - rewrite Hv. destruct (py_truthy dep); [exact Hfalsy|reflexivity]. }
    pose proof (build_query_default opensearch_client utcnow isoformat py_repr
                  (sub_task_of task) (ext w) Hclock) as Hbuilt.
    rewrite (Hexec _ eq_refl). unfold search_with. rewrite Hbase. cbn [negb].
    unfold bind at 1 2. unfold invoke at 1. rewrite Hbuilt. unfold ret.
    rewrite unwrap_query_wrapped.
    match goal with
    | |- context [refine_query_for_tool (VDict [("bool", VDict [("filter", ?f)])]) _] =>
        destruct (refine_built name f Hname) as [must Hrefine]
    end.
    unfold bind at 1. unfold lift at 1. rewrite Hrefine.
    match goal with
    | |- context [unwrap_single_query ?q] =>
        change (unwrap_single_query q) with q
    end.
    unfold invoke. cbn [ext calls].
    match goal with
    | |- context [tools func ?kw ?x] =>
        destruct (search_tool_returns opensearch_client utcnow isoformat py_repr
                    name func (VDict [("bool", VDict [("filter", VList
                      [VDict [("range", VDict [("@timestamp", VDict
                         [("gte", VStr (isoformat (fst (utcnow (ext w)) - 2 * us_per_day)));
                          ("lte", VStr (isoformat (fst (utcnow (ext w)))))])])];
                       VDict [("query_string", VDict [("query", sub_task_of task)])]]);
                      ("must", VList must)])]) x Hname Hfunc) as (v & x' & Hcall)
    end.
    rewrite Hcall. rewrite <- app_assoc. cbn [app].
    do 4 eexists. split; [reflexivity|]. split; [rewrite unwrap_query_wrapped; exact Hrefine|].
    reflexivity.
  - intros dep rest d Hdeps Hdep Hget Htruthy.
    assert (Hbase : dependency_value task cache = unwrap_query (VDict d)).
    { unfold dependency_value. now rewrite Hdeps, Hdep, Hget. }
    rewrite (Hexec _ Hbase). unfold search_with. rewrite Htruthy. cbn [negb].
    unfold bind, ret, lift. cbv beta iota.
    destruct (refine_query_for_tool (unwrap_query (VDict d)) (VStr name)) as [refined|e].
    + unfold invoke.
      destruct (search_tool_returns opensearch_client utcnow isoformat py_repr
                  name func (unwrap_single_query refined) (ext w) Hname Hfunc)
        as (v & x' & Hcall).
      rewrite Hcall. eauto.
    + reflexivity.
Qed.

End DispatchWithTools.

(** ** Dispatches on sample tasks *)

Lemma agent_lookup_without_name_witness :
  wf_task agent_task = true /\
  tool_name_of agent_task = VStr "get_agent_data" /\
  no_agent_name agent_task [] = true /\
  exists marker,
    is_error_marker marker /\
    execute_task sample_tools sample_repr agent_task [] (World [] tt)
    = (Ok (success (VStr "4") marker, [(VStr "4", marker)]),
       World [Call get_agent_data [("agent_name", VNone)]] tt).
Proof.
  split; [reflexivity|]. split; [reflexivity|]. split; [reflexivity|].
  destruct (agent_lookup_without_name (Some sample_client) sample_utcnow sample_isoformat
              sample_repr agent_task [] (World [] tt) eq_refl eq_refl eq_refl)
    as (marker & Hm & _ & Hexec & _).
  exists marker. split; [exact Hm|exact Hexec].
Defined.

(** The marker is the tool's own complaint, stored as a result. *)
Example agent_lookup_result :
  fst (execute_task sample_tools sample_repr agent_task [] (World [] tt))
  = Ok (success (VStr "4") (VDict [("error", VStr "agent_id or agent_name required")]),
        [(VStr "4", VDict [("error", VStr "agent_id or agent_name required")])]).
Proof. reflexivity. Qed.

Lemma search_base_query_resolution_witness :
  wf_task search_task = true /\
  tool_name_of search_task = VStr "search_raw_logs" /\
  search_tool_name "search_raw_logs" = true /\
  dict_get "search_raw_logs" TOOL_MAPPING = Some search_raw_logs /\
  clock_ok (fst (sample_utcnow tt)) = true /\
  (exists dep rest, deps_of search_task = dep :: rest /\ pd_get dep [] = None) /\
  (exists built refined r x,
     sample_tools build_query [("query_string", sub_task_of search_task);
                               ("time_range", VStr "2d")] tt
     = (Ok built, snd (sample_utcnow tt)) /\
     refine_query_for_tool (unwrap_query built) (VStr "search_raw_logs") = Ok refined /\
     execute_task sample_tools sample_repr search_task [] (World [] tt)
     = (Ok (success (task_id_of search_task) r, pd_set (task_id_of search_task) r []),
        World ([] ++
                 [Call build_query [("query_string", sub_task_of search_task);
                                    ("time_range", VStr "2d")];
                  Call search_raw_logs [("query", refined); ("time_range", VStr "2d")]]) x)) /\
  (exists r x,
     execute_task sample_tools sample_repr search_task [(VStr "1", cached_query)] (World [] tt)
     = (Ok (success (task_id_of search_task) r,
            pd_set (task_id_of search_task) r [(VStr "1", cached_query)]),
        World ([] ++
                 [Call search_raw_logs
                    [("query", VDict [("bool", VDict [("filter", VList []);
                                                       ("must", VList [failure_phrase; sshd_phrase])])]);
                     ("time_range", VStr "2d")]]) x)).
Proof.
  split; [reflexivity|]. split; [reflexivity|]. split; [reflexivity|].
  split; [reflexivity|]. split; [reflexivity|].
  split; [exists (VStr "1"), []; split; reflexivity|].
  split.
  - apply (proj1 (search_base_query_resolution (Some sample_client) sample_utcnow
                    sample_isoformat sample_repr search_task "search_raw_logs"
                    search_raw_logs [] (World [] tt)
                    eq_refl eq_refl eq_refl eq_refl eq_refl)).
    right. exists (VStr "1"), []. split; [reflexivity|]. left. reflexivity.
  - exact (proj2 (search_base_query_resolution (Some sample_client) sample_utcnow
                    sample_isoformat sample_repr search_task "search_raw_logs"
                    search_raw_logs [(VStr "1", cached_query)] (World [] tt)
                    eq_refl eq_refl eq_refl eq_refl eq_refl)
                 (VStr "1") [] _ eq_refl eq_refl eq_refl eq_refl).
Defined.

(** The self-test plan against the sample backend: task 1 builds the query,
    task 2 refines it and gets the hit. *)
Example dummy_plan_run :
  match fst (run_execution_plan sample_tools sample_repr sample_now
               (VDict [("plans", VList dummy_plan)]) (World [] tt)) with
  | Ok (RunDone _ task_results aggregated_results) =>
      map (field "task_id" VNone) task_results = [VStr "1"; VStr "2"] /\
      pd_get (VStr "2") aggregated_results
      = Some (VList [VDict [("agent", VDict [("name", VStr "web-01")])]])
  | _ => False
  end.
Proof. split; reflexivity. Qed.

(** ** The Query Adapter on a store *)

Section StoreFacts.

Local Open Scope list_scope.

Lemma store_set_app_r (h0 ext : Store.store) l o :
  (List.length h0 <= l)%nat ->
  Store.store_set l o (h0 ++ ext) = (h0 ++ Store.store_set (l - List.length h0) o ext)%list.
Proof.
  revert l. induction h0 as [|o0 h0 IH]; intros l Hl; simpl.
  - now rewrite Nat.sub_0_r.
  - destruct l as [|l]; [simpl in Hl; lia|]. simpl. f_equal. apply IH. simpl in Hl. lia.
Qed.

Lemma store_set_Forall (P : Store.obj -> Prop) l o (h : Store.store) :
  Forall P h -> P o -> Forall P (Store.store_set l o h).
Proof.
  revert l. induction h as [|o0 h IH]; intros l Hh Ho.
  - destruct l; constructor.
  - inversion Hh as [|? ? H0 Hrest]; subst. destruct l as [|l]; simpl.
    + constructor; assumption.
    + constructor; [assumption|]. apply IH; assumption.
Qed.

Lemma store_set_length l o (h : Store.store) :
  List.length (Store.store_set l o h) = List.length h.
Proof.
  revert l. induction h as [|o0 h IH]; intros l.
  - destruct l; reflexivity.
  - destruct l as [|l]; simpl; [reflexivity|]. now rewrite IH.
Qed.

Lemma grown_refl h : grown h h.
Proof. exists []. rewrite app_nil_r. split; auto. Qed.

Lemma grown_length h0 h : grown h0 h -> (List.length h0 <= List.length h)%nat.
Proof. intros (ext & -> & _). rewrite length_app. lia. Qed.

Lemma grown_old h0 h l :
  grown h0 h -> (l < List.length h0)%nat -> nth_error h l = nth_error h0 l.
Proof. intros (ext & -> & _) Hl. now apply nth_error_app1. Qed.

(** An object above the original store holds fresh values only. *)
Lemma grown_new h0 h l o :
  grown h0 h -> (List.length h0 <= l)%nat -> nth_error h l = Some o ->
  fresh_obj (List.length h0) o = true.
Proof.
  intros (ext & -> & Hf) Hl Hn. rewrite nth_error_app2 in Hn by assumption.
  rewrite Forall_forall in Hf. apply Hf. eapply nth_error_In; eauto.
Qed.

Lemma grown_alloc h0 h o :
  grown h0 h -> fresh_obj (List.length h0) o = true -> grown h0 (h ++ [o]).
Proof.
  intros (ext & -> & Hf) Ho. exists (ext ++ [o])%list. rewrite app_assoc. split; auto.
  apply Forall_app. split; auto.
Qed.

Lemma grown_set h0 h l o :
  grown h0 h -> (List.length h0 <= l)%nat -> fresh_obj (List.length h0) o = true ->
  grown h0 (Store.store_set l o h).
Proof.
  intros (ext & -> & Hf) Hl Ho. rewrite store_set_app_r by assumption.
  eexists. split; [reflexivity|]. now apply store_set_Forall.
Qed.

Lemma dict_set_fresh n0 k v (d : list (string * Store.sval)) :
  forallb (fun kv => fresh_val n0 (snd kv)) d = true -> fresh_val n0 v = true ->
  forallb (fun kv => fresh_val n0 (snd kv)) (dict_set k v d) = true.
Proof.
  intros Hd Hv. induction d as [|[k' v'] d IH]; simpl.
  - now rewrite Hv.
  - simpl in Hd. apply andb_prop in Hd as [H1 H2].
    destruct (String.eqb k k'); simpl.
    + now rewrite Hv, H2.
    + now rewrite H1, IH.
Qed.

Lemma dict_get_fresh n0 k v (d : list (string * Store.sval)) :
  forallb (fun kv => fresh_val n0 (snd kv)) d = true -> dict_get k d = Some v ->
  fresh_val n0 v = true.
Proof.
  induction d as [|[k' v'] d IH]; simpl; [discriminate|].
  intros H. apply andb_prop in H as [H1 H2].
  destruct (String.eqb k k'); auto. now intros [= <-].
Qed.

Lemma grown_dict_store h0 h y k v :
  grown h0 h -> (List.length h0 <= y)%nat -> fresh_val (List.length h0) v = true ->
  grown h0 (Store.dict_store y k v h).
Proof.
  intros Hg Hy Hv. unfold Store.dict_store.
  destruct (nth_error h y) as [[d|xs]|] eqn:Hn; auto.
  apply grown_set; auto. simpl. apply dict_set_fresh; auto.
  exact (grown_new _ _ _ _ Hg Hy Hn).
Qed.

Lemma grown_list_append h0 h y vs :
  grown h0 h -> (List.length h0 <= y)%nat ->
  forallb (fresh_val (List.length h0)) vs = true ->
  grown h0 (Store.list_append y vs h).
Proof.
  intros Hg Hy Hv. unfold Store.list_append.
  destruct (nth_error h y) as [[d|xs]|] eqn:Hn; auto.
  apply grown_set; auto. simpl. rewrite forallb_app, Hv, andb_true_r.
  exact (grown_new _ _ _ _ Hg Hy Hn).
Qed.

Lemma dict_store_length y k v h : List.length (Store.dict_store y k v h) = List.length h.
Proof.
  unfold Store.dict_store. destruct (nth_error h y) as [[d|xs]|]; auto.
  apply store_set_length.
Qed.

Lemma list_append_length y vs h : List.length (Store.list_append y vs h) = List.length h.
Proof.
  unfold Store.list_append. destruct (nth_error h y) as [[d|xs]|]; auto.
  apply store_set_length.
Qed.

Lemma memo_get_fresh n0 m l y :
  memo_fresh n0 m -> Store.memo_get l m = Some y -> (n0 <= y)%nat.
Proof.
  induction 1 as [|[l' y'] m Hp Hm IH]; simpl; [discriminate|].
  destruct (Nat.eqb l l'); auto. now intros [= <-].
Qed.

Lemma memo_extends_refl m : memo_extends m m.
Proof. intros l y H. exact H. Qed.

Lemma memo_extends_trans m1 m2 m3 :
  memo_extends m1 m2 -> memo_extends m2 m3 -> memo_extends m1 m3.
Proof. intros H12 H23 l y H. auto. Qed.

Lemma memo_extends_cons l y m :
  Store.memo_get l m = None -> memo_extends m ((l, y) :: m).
Proof.
  intros Hnone l0 y0 H0. simpl. destruct (Nat.eqb_spec l0 l) as [->|]; auto. congruence.
Qed.

Lemma copy_list_items_sound h0 rec y xs :
  copier_sound h0 rec -> (List.length h0 <= y)%nat ->
  forall m h m' h',
    grown h0 h -> memo_fresh (List.length h0) m ->
    Store.copy_list_items rec y xs m h = Some (m', h') ->
    grown h0 h' /\ memo_fresh (List.length h0) m' /\ memo_extends m m'.
Proof.
  intros Hrec Hy. induction xs as [|a xs IH]; intros m h m' h' Hg Hm Hc; simpl in Hc.
  - injection Hc as <- <-. auto using memo_extends_refl.
  - destruct (rec a m h) as [[[a' m1] h1]|] eqn:Ha; [|discriminate].
    destruct (Hrec _ _ _ _ _ _ Hg Hm Ha) as (Hg1 & Hm1 & Hf1 & He1).
    assert (Hg2 : grown h0 (Store.list_append y [a'] h1)).
    { apply grown_list_append; auto. simpl. now rewrite Hf1. }
    destruct (IH _ _ _ _ Hg2 Hm1 Hc) as (Hg3 & Hm3 & He3).
    eauto using memo_extends_trans.
Qed.

Lemma copy_dict_items_sound h0 rec y kvs :
  copier_sound h0 rec -> (List.length h0 <= y)%nat ->
  forall m h m' h',
    grown h0 h -> memo_fresh (List.length h0) m ->
    Store.copy_dict_items rec y kvs m h = Some (m', h') ->
    grown h0 h' /\ memo_fresh (List.length h0) m' /\ memo_extends m m'.
Proof.
  intros Hrec Hy. induction kvs as [|[k a] kvs IH]; intros m h m' h' Hg Hm Hc; simpl in Hc.
  - injection Hc as <- <-. auto using memo_extends_refl.
  - destruct (rec a m h) as [[[a' m1] h1]|] eqn:Ha; [|discriminate].
    destruct (Hrec _ _ _ _ _ _ Hg Hm Ha) as (Hg1 & Hm1 & Hf1 & He1).
    assert (Hg2 : grown h0 (Store.dict_store y k a' h1)) by (apply grown_dict_store; auto).
    destruct (IH _ _ _ _ Hg2 Hm1 Hc) as (Hg3 & Hm3 & He3).
    eauto using memo_extends_trans.
Qed.

(** [deepcopy] touches no object of the store it started from. *)
Lemma deepcopy_sound h0 fuel : copier_sound h0 (Store.deepcopy fuel).
Proof.
  induction fuel as [|fuel IH]; intros x m h y m' h' Hg Hm Hc;
    destruct x as [| | | | |l]; simpl in Hc;
    try (injection Hc as <- <- <-; auto using memo_extends_refl);
    destruct (Store.memo_get l m) as [y0|] eqn:Hmemo;
    try (injection Hc as <- <- <-; repeat split; auto using memo_extends_refl;
         simpl; apply Nat.leb_le; eapply memo_get_fresh; eauto);
    try discriminate.
  pose proof (grown_length _ _ Hg) as Hlen.
  assert (Hm1 : memo_fresh (List.length h0) ((l, List.length h) :: m))
    by (constructor; auto).
  destruct (nth_error h l) as [[kvs|xs]|]; [| |discriminate]; unfold Store.alloc in Hc.
  - destruct (Store.copy_dict_items _ _ _ _ _) as [[m1 h1]|] eqn:Hitems; [|discriminate].
    injection Hc as <- <- <-.
    destruct (copy_dict_items_sound h0 _ _ _ IH Hlen _ _ _ _
                (grown_alloc _ _ (Store.ODict []) Hg eq_refl) Hm1 Hitems)
      as (Hg1 & Hm2 & He).
    repeat split; auto.
    + simpl. now apply Nat.leb_le.
    + eapply memo_extends_trans; [apply memo_extends_cons|]; eauto.
  - destruct (Store.copy_list_items _ _ _ _ _) as [[m1 h1]|] eqn:Hitems; [|discriminate].
    injection Hc as <- <- <-.
    destruct (copy_list_items_sound h0 _ _ _ IH Hlen _ _ _ _
                (grown_alloc _ _ (Store.OList []) Hg eq_refl) Hm1 Hitems)
      as (Hg1 & Hm2 & He).
    repeat split; auto.
    + simpl. now apply Nat.leb_le.
    + eapply memo_extends_trans; [apply memo_extends_cons|]; eauto.
Qed.

(** Induction on values, through lists and dictionaries. *)
Lemma value_nested_ind (P : value -> Prop) :
  P VNone -> (forall b, P (VBool b)) -> (forall n, P (VInt n)) ->
  (forall s, P (VStr s)) ->
  (forall xs, Forall P xs -> P (VList xs)) ->
  (forall kvs, Forall (fun kv => P (snd kv)) kvs -> P (VDict kvs)) ->
  (forall oid, P (VObj oid)) ->
  forall v, P v.
Proof.
  intros HNone HBool HInt HStr HList HDict HObj.
  refine (fix IH (v : value) : P v :=
            match v with
            | VNone => HNone
            | VBool b => HBool b
            | VInt n => HInt n
            | VStr s => HStr s
            | VList xs =>
                HList xs
                  ((fix all (xs : list value) : Forall P xs :=
                      match xs with
                      | [] => Forall_nil P
                      | x :: xs' => Forall_cons x (IH x) (all xs')
                      end) xs)
            | VDict kvs =>
                HDict kvs
                  ((fix all (kvs : list (string * value))
                      : Forall (fun kv => P (snd kv)) kvs :=
                      match kvs with
                      | [] => Forall_nil _
                      | kv :: kvs' => Forall_cons kv (IH (snd kv)) (all kvs')
                      end) kvs)
            | VObj oid => HObj oid
            end).
Qed.

(** Building a literal grows the store by fresh objects. *)
Lemma alloc_value_grown h0 v :
  forall h sv h',
    grown h0 h -> Store.alloc_value v h = (sv, h') ->
    grown h0 h' /\ fresh_val (List.length h0) sv = true.
Proof.
  induction v as [| b | n | s | xs IHxs | kvs IHkvs | oid] using value_nested_ind;
    intros h sv h' Hg Ha; simpl in Ha;
    try (injection Ha as <- <-; auto).
  - match type of Ha with
    | (let '(_, _) := ?items xs h in _) = _ =>
        assert (Hitems : forall h svs h1,
                   grown h0 h -> items xs h = (svs, h1) ->
                   grown h0 h1 /\ forallb (fresh_val (List.length h0)) svs = true)
    end.
    { clear Ha Hg h sv h'.
      induction IHxs as [|x xs Hx Hxs IH]; intros h svs h1 Hg Hi.
      - injection Hi as <- <-. auto.
      - destruct (Store.alloc_value x h) as [sv0 h2] eqn:E0.
        destruct (Hx _ _ _ Hg E0) as [Hg2 Hf0].
        match type of Hi with
        | (let '(_, _) := ?t in _) = _ => destruct t as [svs' h3] eqn:E1
        end.
        injection Hi as <- <-. destruct (IH _ _ _ Hg2 E1) as [Hg3 Hf1].
        split; auto. simpl. now rewrite Hf0, Hf1. }
    match type of Ha with
    | (let '(_, _) := ?t in _) = _ => destruct t as [svs h1] eqn:E
    end.
    destruct (Hitems _ _ _ Hg E) as [Hg1 Hf]. unfold Store.alloc in Ha.
    injection Ha as <- <-. split.
    + apply grown_alloc; auto.
    + simpl. apply Nat.leb_le. now apply grown_length.
  - match type of Ha with
    | (let '(_, _) := ?items kvs h in _) = _ =>
        assert (Hitems : forall h skvs h1,
                   grown h0 h -> items kvs h = (skvs, h1) ->
                   grown h0 h1 /\
                   forallb (fun kv => fresh_val (List.length h0) (snd kv)) skvs = true)
    end.
    { clear Ha Hg h sv h'.
      induction IHkvs as [|[k x] kvs Hx Hxs IH]; intros h skvs h1 Hg Hi.
      - injection Hi as <- <-. auto.
      - simpl in Hx. destruct (Store.alloc_value x h) as [sv0 h2] eqn:E0.
        destruct (Hx _ _ _ Hg E0) as [Hg2 Hf0].
        match type of Hi with
        | (let '(_, _) := ?t in _) = _ => destruct t as [skvs' h3] eqn:E1
        end.
        injection Hi as <- <-. destruct (IH _ _ _ Hg2 E1) as [Hg3 Hf1].
        split; auto. simpl. now rewrite Hf0, Hf1. }
    match type of Ha with
    | (let '(_, _) := ?t in _) = _ => destruct t as [skvs h1] eqn:E
    end.
    destruct (Hitems _ _ _ Hg E) as [Hg1 Hf]. unfold Store.alloc in Ha.
    injection Ha as <- <-. split.
    + apply grown_alloc; auto.
    + simpl. apply Nat.leb_le. now apply grown_length.
Qed.

Lemma alloc_values_grown h0 vs :
  forall h svs h',
    grown h0 h -> Store.alloc_values vs h = (svs, h') ->
    grown h0 h' /\ forallb (fresh_val (List.length h0)) svs = true.
Proof.
  induction vs as [|v vs IH]; intros h svs h' Hg Ha; simpl in Ha.
  - injection Ha as <- <-. auto.
  - destruct (Store.alloc_value v h) as [sv h1] eqn:E0.
    destruct (alloc_value_grown h0 v _ _ _ Hg E0) as [Hg1 Hf0].
    destruct (Store.alloc_values vs h1) as [svs' h2] eqn:E1.
    injection Ha as <- <-. destruct (IH _ _ _ Hg1 E1) as [Hg2 Hf1].
    split; auto. simpl. now rewrite Hf0, Hf1.
Qed.

Lemma setdefault_grown h0 x k dflt h r h' :
  grown h0 h -> fresh_val (List.length h0) x = true ->
  fresh_val (List.length h0) dflt = true ->
  Store.setdefault x k dflt h = (r, h') ->
  grown h0 h' /\
  match r with
  | Ok v => fresh_val (List.length h0) v = true
  | Raise _ => h' = h
  end.
Proof.
  intros Hg Hx Hd Hs. unfold Store.setdefault in Hs.
  destruct x as [| | | | |l]; try (injection Hs as <- <-; auto).
  simpl in Hx. apply Nat.leb_le in Hx.
  destruct (nth_error h l) as [[d|xs]|] eqn:Hn; try (injection Hs as <- <-; auto).
  pose proof (grown_new _ _ _ _ Hg Hx Hn) as Hfresh. simpl in Hfresh.
  destruct (dict_get k d) as [v|] eqn:Hk; injection Hs as <- <-.
  - split; auto. eapply dict_get_fresh; eauto.
  - split; auto. now apply grown_dict_store.
Qed.

Lemma getitem_fresh h0 x k h v :
  grown h0 h -> fresh_val (List.length h0) x = true ->
  Store.getitem x k h = Ok v -> fresh_val (List.length h0) v = true.
Proof.
  intros Hg Hx Hget. unfold Store.getitem in Hget.
  destruct x as [| | | | |l]; try discriminate.
  simpl in Hx. apply Nat.leb_le in Hx.
  destruct (nth_error h l) as [[d|xs]|] eqn:Hn; try discriminate.
  pose proof (grown_new _ _ _ _ Hg Hx Hn) as Hfresh. simpl in Hfresh.
  destruct (dict_get k d) as [v'|] eqn:Hk; [|discriminate].
  injection Hget as <-. eapply dict_get_fresh; eauto.
Qed.

Lemma must_iadd_grown h0 refined extra h r h' :
  grown h0 h -> fresh_val (List.length h0) refined = true ->
  Store.must_iadd refined extra h = (r, h') -> grown h0 h'.
Proof.
  intros Hg Hx Hm. unfold Store.must_iadd in Hm.
  destruct (Store.getitem refined "bool" h) as [b|e] eqn:Hb;
    [|injection Hm as <- <-; auto].
  pose proof (getitem_fresh _ _ _ _ _ Hg Hx Hb) as Hfb.
  destruct (Store.getitem b "must" h) as [m|e] eqn:Hmust;
    [|injection Hm as <- <-; auto].
  pose proof (getitem_fresh _ _ _ _ _ Hg Hfb Hmust) as Hfm.
  destruct (Store.alloc_values extra h) as [svs h1] eqn:Ha.
  destruct (alloc_values_grown h0 _ _ _ _ Hg Ha) as [Hg1 Hfs].
  destruct m as [| | | | |lm]; try (injection Hm as <- <-; auto).
  simpl in Hfm. apply Nat.leb_le in Hfm.
  destruct (nth_error h1 lm) as [[d|xs]|]; try (injection Hm as <- <-; auto).
  assert (Hg2 : grown h0 (Store.list_append lm svs h1)) by (apply grown_list_append; auto).
  destruct b as [| | | | |lb]; injection Hm as <- <-; auto.
  simpl in Hfb. apply Nat.leb_le in Hfb.
  apply grown_dict_store; auto. simpl. now apply Nat.leb_le.
Qed.

Lemma must_append_grown h0 refined x h r h' :
  grown h0 h -> fresh_val (List.length h0) refined = true ->
  Store.must_append refined x h = (r, h') -> grown h0 h'.
Proof.
  intros Hg Hx Hm. unfold Store.must_append in Hm.
  destruct (Store.getitem refined "bool" h) as [b|e] eqn:Hb;
    [|injection Hm as <- <-; auto].
  pose proof (getitem_fresh _ _ _ _ _ Hg Hx Hb) as Hfb.
  destruct (Store.getitem b "must" h) as [m|e] eqn:Hmust;
    [|injection Hm as <- <-; auto].
  pose proof (getitem_fresh _ _ _ _ _ Hg Hfb Hmust) as Hfm.
  destruct m as [| | | | |lm]; try (injection Hm as <- <-; auto).
  simpl in Hfm. apply Nat.leb_le in Hfm.
  destruct (nth_error h lm) as [[d|xs]|]; try (injection Hm as <- <-; auto).
  destruct (Store.alloc_value x h) as [sv h1] eqn:Ha.
  destruct (alloc_value_grown h0 _ _ _ _ Hg Ha) as [Hg1 Hfs].
  injection Hm as <- <-. apply grown_list_append; auto. simpl. now rewrite Hfs.
Qed.

(** Whatever it returns or raises, the refinement leaves the store it was
    called on as a prefix of the store it leaves; and what it returns for
    a dict is an object that was not there before. *)
Lemma refine_grown fuel base tool_name h r h' :
  Store.refine_query_for_tool fuel base tool_name h = Some (r, h') ->
  grown h h' /\
  (Store.isinstance_dict h base = true ->
   forall v, r = Ok v -> exists l, v = Store.SRef l /\ (List.length h <= l)%nat).
Proof.
  unfold Store.refine_query_for_tool.
  destruct (Store.isinstance_dict h base) eqn:Hdict; cbn [negb].
  2:{ intros [= <- <-]. split; [apply grown_refl|discriminate]. }
  destruct (Store.deepcopy fuel base [] h) as [[[refined m] h1]|] eqn:Hcopy; [|discriminate].
  destruct (deepcopy_sound h fuel _ _ _ _ _ _ (grown_refl h) (Forall_nil _) Hcopy)
    as (Hg1 & _ & Hfr & _).
  assert (Href : exists l, refined = Store.SRef l /\ (List.length h <= l)%nat).
  { destruct base as [| | | | |l0]; try discriminate.
    destruct fuel; simpl in Hcopy; try discriminate.
    simpl in Hdict. destruct (nth_error h l0) as [[d|xs]|]; try discriminate.
    unfold Store.alloc in Hcopy.
    destruct (Store.copy_dict_items _ _ _ _ _) as [[m1 h2]|]; [|discriminate].
    injection Hcopy as <- _ _. eauto. }
  unfold Store.alloc.
  assert (Hg2 : grown h (h1 ++ [Store.ODict []])) by (apply grown_alloc; auto).
  assert (Hfe : fresh_val (List.length h) (Store.SRef (List.length h1)) = true).
  { simpl. apply Nat.leb_le. now apply grown_length. }
  destruct (Store.setdefault refined "bool" _ _) as [[b|e] h2] eqn:Hs1.
  2:{ intros [= <- <-]. destruct (setdefault_grown _ _ _ _ _ _ _ Hg2 Hfr Hfe Hs1) as [Hg3 _].
      split; auto. discriminate. }
  destruct (setdefault_grown _ _ _ _ _ _ _ Hg2 Hfr Hfe Hs1) as [Hg3 Hfb].
  assert (Hg4 : grown h (h2 ++ [Store.OList []])) by (apply grown_alloc; auto).
  assert (Hfl : fresh_val (List.length h) (Store.SRef (List.length h2)) = true).
  { simpl. apply Nat.leb_le. now apply grown_length. }
  destruct (Store.setdefault b "must" _ _) as [[mv|e] h3] eqn:Hs2.
  2:{ intros [= <- <-]. destruct (setdefault_grown _ _ _ _ _ _ _ Hg4 Hfb Hfl Hs2) as [Hg5 _].
      split; auto. discriminate. }
  destruct (setdefault_grown _ _ _ _ _ _ _ Hg4 Hfb Hfl Hs2) as [Hg5 _].
  assert (Hfinal : forall r0 h4,
             (if py_eqb tool_name (VStr "search_alerts")
              then Store.must_iadd refined [ssh_phrase; level_range] h3
              else if py_eqb tool_name (VStr "search_raw_logs")
                   then Store.must_iadd refined [failure_phrase; sshd_phrase] h3
                   else if py_eqb tool_name (VStr "search_vulnerabilities")
                        then Store.must_append refined cve_wildcard h3
                        else (Ok tt, h3)) = (r0, h4) -> grown h h4).
  { intros r0 h4.
    destruct (py_eqb tool_name (VStr "search_alerts"));
      [apply must_iadd_grown; auto|].
    destruct (py_eqb tool_name (VStr "search_raw_logs"));
      [apply must_iadd_grown; auto|].
    destruct (py_eqb tool_name (VStr "search_vulnerabilities"));
      [apply must_append_grown; auto|].
    now intros [= <- <-]. }
  match goal with
  | |- (let '(_, _) := ?t in _) = _ -> _ => destruct t as [r0 h4] eqn:Ht
  end.
  specialize (Hfinal _ _ eq_refl).
  destruct r0 as [[]|e]; intros [= <- <-]; split; auto.
  - intros _ v [= <-]. exact Href.
  - discriminate.
Qed.

(** *** Enough fuel *)

Lemma filter_length_le {A} (f g : A -> bool) (l : list A) :
  (forall x, In x l -> g x = true -> f x = true) ->
  (List.length (filter g l) <= List.length (filter f l))%nat.
Proof.
  induction l as [|a l IH]; intros H; simpl; auto.
  assert (IH' : (List.length (filter g l) <= List.length (filter f l))%nat).
  { apply IH. intros x Hx. apply H. now right. }
  destruct (g a) eqn:Hg.
  - rewrite (H a (or_introl eq_refl) Hg). simpl. lia.
  - destruct (f a); simpl; lia.
Qed.

Lemma filter_length_lt {A} (f g : A -> bool) (l : list A) x0 :
  (forall x, In x l -> g x = true -> f x = true) ->
  In x0 l -> f x0 = true -> g x0 = false ->
  (List.length (filter g l) < List.length (filter f l))%nat.
Proof.
  induction l as [|a l IH]; intros H Hin Hf Hg; simpl; [destruct Hin|].
  assert (Hle : (List.length (filter g l) <= List.length (filter f l))%nat).
  { apply filter_length_le. intros x Hx. apply H. now right. }
  destruct Hin as [->|Hin].
  - rewrite Hf, Hg. simpl. lia.
  - assert (IH' : (List.length (filter g l) < List.length (filter f l))%nat).
    { apply IH; auto. intros x Hx. apply H. now right. }
    destruct (g a) eqn:Hga.
    + rewrite (H a (or_introl eq_refl) Hga). simpl. lia.
    + destruct (f a); simpl; lia.
Qed.

Lemma uncopied_mono n0 m m' :
  memo_extends m m' -> (uncopied n0 m' <= uncopied n0 m)%nat.
Proof.
  intros He. unfold uncopied. apply filter_length_le. intros l _.
  destruct (Store.memo_get l m) as [y|] eqn:Hm; auto.
  now rewrite (He _ _ Hm).
Qed.

Lemma uncopied_cons n0 m l y :
  (l < n0)%nat -> Store.memo_get l m = None ->
  (uncopied n0 ((l, y) :: m) < uncopied n0 m)%nat.
Proof.
  intros Hl Hnone. unfold uncopied. apply filter_length_lt with (x0 := l).
  - intros x _. simpl. destruct (Nat.eqb x l); [discriminate|auto].
  - apply in_seq. lia.
  - now rewrite Hnone.
  - simpl. now rewrite Nat.eqb_refl.
Qed.

Lemma store_ok_nth h l o :
  Store.store_ok h = true -> nth_error h l = Some o ->
  Store.obj_ok (List.length h) o = true.
Proof.
  unfold Store.store_ok. rewrite forallb_forall. intros H Hn. apply H.
  eapply nth_error_In; eauto.
Qed.

Lemma copy_list_items_total h0 bound rec y xs :
  copier_sound h0 rec -> copier_total h0 bound rec -> (List.length h0 <= y)%nat ->
  forallb (Store.sval_ok (List.length h0)) xs = true ->
  forall m h,
    grown h0 h -> memo_fresh (List.length h0) m ->
    (uncopied (List.length h0) m <= bound)%nat ->
    exists r, Store.copy_list_items rec y xs m h = Some r.
Proof.
  intros Hs Ht Hy. induction xs as [|a xs IH]; intros Hok m h Hg Hm Hb; simpl; eauto.
  simpl in Hok. apply andb_prop in Hok as [Ha Hxs].
  destruct (Ht a m h Hg Hm Ha Hb) as [[[a' m1] h1] Hr]. rewrite Hr.
  destruct (Hs _ _ _ _ _ _ Hg Hm Hr) as (Hg1 & Hm1 & Hf1 & He1).
  apply IH; auto.
  - apply grown_list_append; auto. simpl. now rewrite Hf1.
  - pose proof (uncopied_mono (List.length h0) _ _ He1). lia.
Qed.

Lemma copy_dict_items_total h0 bound rec y kvs :
  copier_sound h0 rec -> copier_total h0 bound rec -> (List.length h0 <= y)%nat ->
  forallb (fun kv => Store.sval_ok (List.length h0) (snd kv)) kvs = true ->
  forall m h,
    grown h0 h -> memo_fresh (List.length h0) m ->
    (uncopied (List.length h0) m <= bound)%nat ->
    exists r, Store.copy_dict_items rec y kvs m h = Some r.
Proof.
  intros Hs Ht Hy. induction kvs as [|[k a] kvs IH]; intros Hok m h Hg Hm Hb; simpl; eauto.
  simpl in Hok. apply andb_prop in Hok as [Ha Hxs].
  destruct (Ht a m h Hg Hm Ha Hb) as [[[a' m1] h1] Hr]. rewrite Hr.
  destruct (Hs _ _ _ _ _ _ Hg Hm Hr) as (Hg1 & Hm1 & Hf1 & He1).
  apply IH; auto.
  - apply grown_dict_store; auto.
  - pose proof (uncopied_mono (List.length h0) _ _ He1). lia.
Qed.

(** [deepcopy] answers when its fuel covers the objects not yet copied. *)
Lemma deepcopy_total h0 :
  Store.store_ok h0 = true ->
  forall fuel, copier_total h0 fuel (Store.deepcopy fuel).
Proof.
  intros Hok. induction fuel as [|fuel IH]; intros x m h Hg Hm Hx Hb;
    destruct x as [| | | | |l]; simpl; eauto;
    destruct (Store.memo_get l m) as [y0|] eqn:Hmemo; eauto;
    simpl in Hx; apply Nat.ltb_lt in Hx;
    pose proof (uncopied_cons (List.length h0) m l (List.length h) Hx Hmemo) as Hlt;
    [exfalso; lia|].
  rewrite (grown_old _ _ _ Hg Hx).
  destruct (nth_error h0 l) as [o|] eqn:Hn;
    [|apply nth_error_None in Hn; lia].
  pose proof (store_ok_nth _ _ _ Hok Hn) as Hobj.
  pose proof (grown_length _ _ Hg) as Hlen.
  assert (Hm1 : memo_fresh (List.length h0) ((l, List.length h) :: m))
    by (constructor; auto).
  assert (Hb1 : (uncopied (List.length h0) ((l, List.length h) :: m) <= fuel)%nat).
  { apply Nat.lt_succ_r. eapply Nat.lt_le_trans; [exact Hlt|exact Hb]. }
  unfold Store.alloc. destruct o as [kvs|xs]; simpl in Hobj.
  - destruct (copy_dict_items_total h0 fuel _ (List.length h) kvs
                (deepcopy_sound h0 fuel) IH Hlen Hobj ((l, List.length h) :: m)
                (h ++ [Store.ODict []])
                (grown_alloc _ _ (Store.ODict []) Hg eq_refl) Hm1 Hb1)
      as [[m1 h1] Hr].
    unfold Store.loc in *. rewrite Hr. eauto.
  - destruct (copy_list_items_total h0 fuel _ (List.length h) xs
                (deepcopy_sound h0 fuel) IH Hlen Hobj ((l, List.length h) :: m)
                (h ++ [Store.OList []])
                (grown_alloc _ _ (Store.OList []) Hg eq_refl) Hm1 Hb1)
      as [[m1 h1] Hr].
    unfold Store.loc in *. rewrite Hr. eauto.
Qed.

Lemma uncopied_nil n0 : uncopied n0 [] = n0.
Proof.
  unfold uncopied. simpl.
  assert (Hall : forall l : list nat, filter (fun _ => true) l = l)
    by (induction l as [|a l IHl]; simpl; congruence).
  rewrite Hall. apply length_seq.
Qed.

(** *** The argument, before and after *)

(** Objects added to a store do not change what is reachable from a value
    of the original store. *)
Lemma snapshot_grown h0 h :
  grown h0 h -> Store.store_ok h0 = true ->
  forall fuel x,
    Store.sval_ok (List.length h0) x = true ->
    Store.snapshot fuel h x = Store.snapshot fuel h0 x.
Proof.
  intros Hg Hok. induction fuel as [|fuel IH]; intros x Hx;
    destruct x as [| | | | |l]; try reflexivity;
    simpl in Hx; apply Nat.ltb_lt in Hx; simpl; rewrite (grown_old _ _ _ Hg Hx).
  destruct (nth_error h0 l) as [o|] eqn:Hn; [|reflexivity].
  pose proof (store_ok_nth _ _ _ Hok Hn) as Hobj.
  destruct o as [kvs|xs]; simpl in Hobj; clear Hn; f_equal.
  - induction kvs as [|[k a] kvs IHk]; [reflexivity|].
    simpl in Hobj. apply andb_prop in Hobj as [Ha Hrest].
    simpl. rewrite (IH a Ha), (IHk Hrest). reflexivity.
  - induction xs as [|a xs IHx]; [reflexivity|].
    simpl in Hobj. apply andb_prop in Hobj as [Ha Hrest].
    simpl. rewrite (IH a Ha), (IHx Hrest). reflexivity.
Qed.

(** C8.  In a store without dangling references, for a base query that is
    a dict and any tool name, [refine_query_for_tool] runs to its end (with
    fuel for as many nested copies as the store has objects), returning or
    raising, and the store it leaves is the store it was called on followed
    by new objects: every object that existed keeps its content, so the
    base query, and the cache entry it belongs to, read the same to any
    depth before and after; what is returned is one of the new objects. *)
Theorem refine_leaves_argument_unchanged (h : Store.store) base tool_name :
  Store.store_ok h = true ->
  Store.sval_ok (List.length h) base = true ->
  Store.isinstance_dict h base = true ->
  exists r h',
    Store.refine_query_for_tool (List.length h) base tool_name h = Some (r, h') /\
    (exists new, h' = h ++ new) /\
    (forall l, (l < List.length h)%nat -> nth_error h' l = nth_error h l) /\
    (forall fuel, Store.snapshot fuel h' base = Store.snapshot fuel h base) /\
    (forall v, r = Ok v -> exists l, v = Store.SRef l /\ (List.length h <= l)%nat).
Proof.
  intros Hok Hbase Hdict.
  assert (Hruns : exists out, Store.refine_query_for_tool (List.length h) base tool_name h
                              = Some out).
  { unfold Store.refine_query_for_tool. rewrite Hdict. cbn [negb].
    destruct (deepcopy_total h Hok (List.length h) base [] h (grown_refl h)
                (Forall_nil _) Hbase) as [[[refined m] h1] Hcopy].
    { rewrite uncopied_nil. lia. }
    rewrite Hcopy. unfold Store.alloc.
    destruct (Store.setdefault refined _ _ _) as [[b|e] h2]; eauto.
    destruct (Store.setdefault b _ _ _) as [[mv|e] h3]; eauto.
    match goal with
    | |- exists out, (let '(_, _) := ?t in _) = _ => destruct t as [[[]|e] h4]
    end; eauto. }
  destruct Hruns as [[r h'] Hrun].
  destruct (refine_grown _ _ _ _ _ _ Hrun) as [Hg Hres].
  exists r, h'. split; [exact Hrun|]. split; [|split; [|split]].
  - destruct Hg as (new & -> & _). eauto.
  - intros l Hl. now apply grown_old.
  - intros fuel. now apply snapshot_grown.
  - auto.
Qed.

End StoreFacts.

(** ** The store-level adapter on samples *)

Lemma refine_leaves_argument_unchanged_witness :
  Store.store_ok sample_store = true /\
  Store.sval_ok (List.length sample_store) (Store.SRef 2) = true /\
  Store.isinstance_dict sample_store (Store.SRef 2) = true /\
  exists r h',
    Store.refine_query_for_tool (List.length sample_store) (Store.SRef 2)
      (VStr "search_alerts") sample_store = Some (r, h') /\
    (forall l, (l < List.length sample_store)%nat ->
               nth_error h' l = nth_error sample_store l).
Proof.
  split; [reflexivity|]. split; [reflexivity|]. split; [reflexivity|].
  destruct (refine_leaves_argument_unchanged sample_store (Store.SRef 2)
              (VStr "search_alerts") eq_refl eq_refl eq_refl)
    as (r & h' & Hrun & _ & Hold & _).
  exists r, h'. split; assumption.
Defined.

(** On the sample store the refined query is a new object, and it reads
    as the value-level adapter says. *)
Example refine_on_sample_store :
  match Store.refine_query_for_tool 3 (Store.SRef 2) (VStr "search_alerts") sample_store with
  | Some (Ok refined, h') =>
      refined = Store.SRef 3 /\
      firstn 3 h' = sample_store /\
      (base <-? Ok (Store.snapshot 9 sample_store (Store.SRef 2)) ;;
       match base with
       | Some base => refine_query_for_tool base (VStr "search_alerts")
       | None => Raise (Exn ValueError "unreadable")
       end)%res
      = match Store.snapshot 9 h' refined with
        | Some v => Ok v
        | None => Raise (Exn ValueError "unreadable")
        end
  | _ => False
  end.
Proof. vm_compute. repeat split. Qed.

(** The two models part where the base query shares a sub-object between
    two of its entries: [deepcopy] keeps the sharing, so the update of the
    copy's ["bool"] entry shows under the other entry too.  Values cannot
    express this; the value-level adapter is for queries without shared
    parts, as parsed JSON and the tools' results are. *)
Example refine_keeps_sharing :
  let h := [Store.ODict [("filter", Store.SNone)];
            Store.ODict [("bool", Store.SRef 0); ("same", Store.SRef 0)]] in
  match Store.refine_query_for_tool 2 (Store.SRef 1) (VStr "search_vulnerabilities") h with
  | Some (Ok refined, h') =>
      Store.snapshot 9 h' refined
      = Some (VDict [("bool", VDict [("filter", VNone); ("must", VList [cve_wildcard])]);
                     ("same", VDict [("filter", VNone); ("must", VList [cve_wildcard])])]) /\
      Store.snapshot 9 h' (Store.SRef 1) = Store.snapshot 9 h (Store.SRef 1)
  | _ => False
  end.
Proof. vm_compute. split; reflexivity. Qed.

(* ================================================================= *)
(** * Further properties *)

(** ** The Query Adapter: what is added, what is kept, when it raises *)

Ltac refine_cases tool_name :=
  destruct (py_eqb tool_name (VStr "search_alerts"));
    [|destruct (py_eqb tool_name (VStr "search_raw_logs"));
      [|destruct (py_eqb tool_name (VStr "search_vulnerabilities"))]];
  cbn [py_iadd_list py_append res_bind].

Lemma refine_conjunctive d tool_name :
  conjunctive d = true ->
  exists rd bd,
    refine_query_for_tool (VDict d) tool_name = Ok (VDict rd) /\
    dict_get "bool" rd = Some (VDict bd) /\
    dict_get "must" bd = Some (VList (must_list d ++ tool_filters tool_name)) /\
    (forall k, k <> "bool" -> dict_get k rd = dict_get k d) /\
    (forall k, k <> "must" -> dict_get k bd = dict_get k (bool_clause d)).
Proof.
  unfold conjunctive, refine_query_for_tool, dict_setdefault, must_list, bool_clause,
    tool_filters.
  destruct (dict_get "bool" d) as [b|] eqn:Eb.
  - destruct b as [| | | | |bd0|]; try discriminate.
    destruct (dict_get "must" bd0) as [m|] eqn:Em.
    + destruct m as [| | | |must| |]; try discriminate. intros _.
      refine_cases tool_name; eexists _, _;
        (split; [reflexivity|]);
        (split; [rewrite ?dict_get_set_same; reflexivity|]);
        (split; [rewrite ?dict_get_set_same, ?app_nil_r; now auto|]);
        (split; intros k Hk; rewrite ?dict_get_set_other by exact Hk; reflexivity).
    + intros _.
      refine_cases tool_name; eexists _, _;
        (split; [reflexivity|]);
        (split; [rewrite ?dict_get_set_same; reflexivity|]);
        (split; [rewrite ?dict_get_set_same, ?app_nil_r; reflexivity|]);
        (split; intros k Hk; rewrite ?dict_get_set_other by exact Hk; reflexivity).
  - intros _.
    refine_cases tool_name; eexists _, _;
      (split; [reflexivity|]);
      (split; [rewrite ?dict_get_set_same; reflexivity|]);
      (split; [rewrite ?dict_get_set_same, ?app_nil_r; reflexivity|]);
      (split; intros k Hk; rewrite ?dict_get_set_other by exact Hk;
       try reflexivity);
      cbn [dict_set dict_get]; destruct (String.eqb_spec k "must");
      try contradiction; reflexivity.
Qed.

(** X1.  On a dict query of the shape the adapter can extend, whatever the
    tool name, [refine_query_for_tool] returns a dict whose conjunctive
    list is the old one followed by the filters of the tool (none for a
    name that is not a search tool): no filter that was there is dropped
    or reordered, every other key of the query keeps its value, and so does
    every other key of the ["bool"] clause. *)
Theorem refine_appends_tool_filters d tool_name :
  conjunctive d = true ->
  exists rd bd,
    refine_query_for_tool (VDict d) tool_name = Ok (VDict rd) /\
    dict_get "bool" rd = Some (VDict bd) /\
    dict_get "must" bd = Some (VList (must_list d ++ tool_filters tool_name)) /\
    (forall k, k <> "bool" -> dict_get k rd = dict_get k d) /\
    (forall k, k <> "must" -> dict_get k bd = dict_get k (bool_clause d)).
Proof. apply refine_conjunctive. Qed.

Lemma refine_appends_tool_filters_witness :
  conjunctive sample_base_query = true /\
  exists rd bd,
    refine_query_for_tool (VDict sample_base_query) (VStr "search_raw_logs") = Ok (VDict rd) /\
    dict_get "bool" rd = Some (VDict bd) /\
    dict_get "must" bd
    = Some (VList (must_list sample_base_query ++ tool_filters (VStr "search_raw_logs"))) /\
    (forall k, k <> "bool" -> dict_get k rd = dict_get k sample_base_query) /\
    (forall k, k <> "must" -> dict_get k bd = dict_get k (bool_clause sample_base_query)).
Proof.
  split; [reflexivity|].
  apply (refine_appends_tool_filters sample_base_query (VStr "search_raw_logs")).
  reflexivity.
Defined.

(** X2.  For the three search tools the shape is exactly what the adapter
    needs: refining a dict query returns a value if and only if its
    ["bool"] entry, when present, is a dict and the ["must"] entry of that,
    when present, is a list; on any other dict it raises. *)
Theorem refine_returns_iff_conjunctive d name :
  search_tool_name name = true ->
  (exists r, refine_query_for_tool (VDict d) (VStr name) = Ok r) <-> conjunctive d = true.
Proof.
  intros Hname. split.
  - intros [r Hr]. revert Hr.
    unfold conjunctive, refine_query_for_tool, dict_setdefault.
    destruct (dict_get "bool" d) as [b|]; [|reflexivity].
    destruct b as [| | | | |bd|]; try discriminate.
    destruct (dict_get "must" bd) as [m|]; [|reflexivity].
    destruct (search_tool_name_cases name Hname) as [->|[->| ->]];
      destruct m; try reflexivity; discriminate.
  - intros Hc. destruct (refine_conjunctive d (VStr name) Hc) as (rd & _ & Hr & _).
    eauto.
Qed.

Lemma refine_returns_iff_conjunctive_witness :
  search_tool_name "search_vulnerabilities" = true /\
  ((exists r, refine_query_for_tool (VDict sample_base_query)
                (VStr "search_vulnerabilities") = Ok r)
   <-> conjunctive sample_base_query = true).
Proof.
  split; [reflexivity|].
  apply (refine_returns_iff_conjunctive sample_base_query "search_vulnerabilities").
  reflexivity.
Defined.

Lemma dict_set_present {A} k (v : A) d : dict_get k d = Some v -> dict_set k v d = d.
Proof.
  induction d as [|[k' v'] d IH]; simpl; [discriminate|].
  destruct (String.eqb k k').
  - now intros [= ->].
  - intros H. now rewrite IH.
Qed.

Lemma tool_filters_nil tool_name :
  tool_filters tool_name = [] ->
  py_eqb tool_name (VStr "search_alerts") = false /\
  py_eqb tool_name (VStr "search_raw_logs") = false /\
  py_eqb tool_name (VStr "search_vulnerabilities") = false.
Proof.
  unfold tool_filters.
  destruct (py_eqb tool_name (VStr "search_alerts")); [discriminate|].
  destruct (py_eqb tool_name (VStr "search_raw_logs")); [discriminate|].
  destruct (py_eqb tool_name (VStr "search_vulnerabilities")); [discriminate|].
  auto.
Qed.

(** X3.  For a tool name that is not a search tool the adapter only makes
    sure that the conjunctive list exists, so refining is idempotent: what
    it returns, of whatever type, is returned unchanged when refined again
    for that name. *)
Theorem refine_other_tool_idempotent base tool_name r :
  tool_filters tool_name = [] ->
  refine_query_for_tool base tool_name = Ok r ->
  refine_query_for_tool r tool_name = Ok r.
Proof.
  intros Hf. destruct (tool_filters_nil _ Hf) as (Ha & Hl & Hv).
  destruct base as [| | | | |d|]; try (now intros [= <-]).
  unfold refine_query_for_tool at 1. unfold dict_setdefault.
  rewrite Ha, Hl, Hv.
  destruct (dict_get "bool" d) as [b|] eqn:Eb.
  - destruct b as [| | | | |bd|]; try discriminate.
    destruct (dict_get "must" bd) as [m|] eqn:Em; intros [= <-];
      unfold refine_query_for_tool, dict_setdefault;
      rewrite Ha, Hl, Hv, dict_get_set_same, ?dict_get_set_same, ?Em;
      rewrite (dict_set_present "bool" _ (dict_set "bool" _ _)) by apply dict_get_set_same;
      reflexivity.
  - intros [= <-].
    unfold refine_query_for_tool, dict_setdefault.
    rewrite Ha, Hl, Hv, dict_get_set_same. cbn [dict_get String.eqb Ascii.eqb Bool.eqb].
    rewrite (dict_set_present "bool" _ (dict_set "bool" _ _)) by apply dict_get_set_same.
    reflexivity.
Qed.

Lemma refine_other_tool_idempotent_witness :
  tool_filters (VStr "get_agent_data") = [] /\
  refine_query_for_tool (VDict sample_base_query) (VStr "get_agent_data")
  = Ok (VDict [("bool", VDict [("filter", VList [VDict [("query_string",
                                  VDict [("query", VStr "ssh")])]]);
                               ("must", VList [])])]) /\
  refine_query_for_tool
    (VDict [("bool", VDict [("filter", VList [VDict [("query_string",
                              VDict [("query", VStr "ssh")])]]);
                            ("must", VList [])])]) (VStr "get_agent_data")
  = Ok (VDict [("bool", VDict [("filter", VList [VDict [("query_string",
                                  VDict [("query", VStr "ssh")])]]);
                               ("must", VList [])])]).
Proof.
  split; [reflexivity|]. split; [reflexivity|].
  apply (refine_other_tool_idempotent (VDict sample_base_query) (VStr "get_agent_data"));
    reflexivity.
Defined.

(** ** The Task Dispatcher: when it raises, what it calls *)

Lemma TOOL_MAPPING_inv s func :
  dict_get s TOOL_MAPPING = Some func ->
  (s = "build_query" /\ func = build_query) \/
  (s = "search_raw_logs" /\ func = search_raw_logs) \/
  (s = "search_alerts" /\ func = search_alerts) \/
  (s = "get_agent_data" /\ func = get_agent_data) \/
  (s = "search_vulnerabilities" /\ func = search_vulnerabilities).
Proof.
  unfold TOOL_MAPPING. cbn [dict_get].
  repeat match goal with
         | |- context [String.eqb s ?k] => destruct (String.eqb_spec s k)
         end; try discriminate; intros [= <-]; subst; tauto.
Qed.

Section DispatcherFacts.

Context {W : Type}.
Variable tools : tool -> list (string * value) -> W -> res value * W.
Variable py_repr : value -> string.
Variable strftime_now : W -> string.

Local Abbreviation execute_task := (execute_task tools py_repr).
Local Abbreviation call_tool := (call_tool tools).
Local Abbreviation run_loop := (run_loop tools py_repr).
Local Abbreviation run_execution_plan := (run_execution_plan tools py_repr strftime_now).
Local Abbreviation world := (@world W).

(** X4.  [execute_task] raises only on a task it cannot read: it returns
    an outcome, whatever the tools and the cache, if and only if the task
    is a dict and its tool name can be hashed.  A task without identifier,
    a registered tool that raises, a result that cannot be stored: all end
    in an outcome. *)
Theorem execute_task_returns_iff task cache (w : world) :
  (exists out cache' w', execute_task task cache w = (Ok (out, cache'), w'))
  <-> isinstance_dict task = true /\ hashable (tool_name_of task) = true.
Proof.
  split.
  - intros (out & cache' & w' & H). revert H.
    destruct task as [| | | | |d|]; try discriminate.
    unfold_execute_task. cbn [py_get].
    fold (field "tool_name" VNone (VDict d)).
    change (field "tool_name" VNone) with tool_name_of.
    unfold TOOL_MAPPING_get.
    destruct (hashable (tool_name_of (VDict d))); [auto|discriminate].
  - intros [Hd Hh]. destruct task as [| | | | |d|]; try discriminate.
    unfold_execute_task. cbn [py_get].
    fold (field "tool_name" VNone (VDict d)).
    change (field "tool_name" VNone) with tool_name_of.
    unfold TOOL_MAPPING_get. rewrite Hh.
    match goal with
    | |- context [match ?o with Some _ => _ | None => _ end] => destruct o as [func|]
    end.
    + destruct (call_tool _ _ _ _ _ _) as [[r|e] w1].
      * destruct (py_getitem (VDict d) "task_id") as [tid|e]; [|cbn; eauto].
        destruct (cache_set tid (safe_json py_repr r) cache); cbn; eauto.
      * cbn; eauto.
    + cbn; eauto.
Qed.

Ltac solve_calls :=
  match goal with
  | |- exists cs, ?l = (?l ++ cs)%list /\ _ =>
      exists []; rewrite app_nil_r; repeat split; [simpl; lia|constructor]
  | |- exists cs, (?l ++ [?c])%list = (?l ++ cs)%list /\ _ =>
      exists [c]; repeat split; [simpl; lia|]
  | |- exists cs, ((?l ++ [?c1]) ++ [?c2])%list = (?l ++ cs)%list /\ _ =>
      exists [c1; c2]; rewrite <- app_assoc; repeat split; [simpl; lia|]
  end.

Lemma search_branch_calls func task tool_name sub_task cache (w : world) :
  func = search_raw_logs \/ func = search_alerts \/ func = search_vulnerabilities ->
  exists cs,
    calls (snd (search_branch tools func task tool_name sub_task cache w))
    = (calls w ++ cs)%list /\
    (List.length cs <= 2)%nat /\
    Forall (expected_call func) cs.
Proof.
  intros Hf.
  assert (Hown : forall q, expected_call func (Call func [("query", q); ("time_range", VStr "2d")])).
  { intros q. split; [now left|]. cbn [callee call_args].
    destruct Hf as [->|[->| ->]]; eauto. }
  assert (Hbq : expected_call func
                  (Call build_query [("query_string", sub_task); ("time_range", VStr "2d")])).
  { split; [now right|]. cbn [callee call_args]. eauto. }
  unfold search_branch, search_with, bind, lift, ret.
  destruct (dependency_base_query task cache) as [b|e]; [|cbn [snd]; solve_calls].
  destruct (py_truthy b); cbn [negb].
  - destruct (refine_query_for_tool b tool_name) as [r|e]; [|cbn [snd]; solve_calls].
    unfold invoke. destruct (tools func _ (ext w)) as [r' x]. cbn [snd calls].
    solve_calls. constructor; auto.
  - unfold invoke at 1. destruct (tools build_query _ (ext w)) as [[built|e] x];
      [|cbn [snd calls]; solve_calls; constructor; auto].
    destruct (refine_query_for_tool (unwrap_query built) tool_name) as [r|e];
      [|cbn [snd calls]; solve_calls; constructor; auto].
    unfold invoke. cbn [ext calls]. destruct (tools func _ x) as [r' x']. cbn [snd calls].
    solve_calls. constructor; auto.
Qed.

Lemma agent_branch_calls task cache (w : world) :
  exists cs,
    calls (snd (agent_branch tools get_agent_data task cache w)) = (calls w ++ cs)%list /\
    (List.length cs <= 2)%nat /\
    Forall (expected_call get_agent_data) cs.
Proof.
  unfold agent_branch, bind, lift.
  destruct (py_get task "dependent_on_tasks" VNone) as [deps|e]; [|cbn [snd]; solve_calls].
  destruct (py_iter (or_empty_list deps)) as [tids|e]; [|cbn [snd]; solve_calls].
  destruct (map_res _ tids) as [prev|e]; [|cbn [snd]; solve_calls].
  unfold invoke. destruct (tools get_agent_data _ (ext w)) as [r x]. cbn [snd calls].
  solve_calls. constructor; auto. split; [now left|]. cbn [callee call_args]. eauto.
Qed.

Lemma call_tool_calls s func task sub_task cache (w : world) :
  dict_get s TOOL_MAPPING = Some func ->
  exists cs,
    calls (snd (call_tool func task (VStr s) sub_task cache w)) = (calls w ++ cs)%list /\
    (List.length cs <= 2)%nat /\
    Forall (expected_call func) cs.
Proof.
  intros H.
  destruct (TOOL_MAPPING_inv s func H) as [[-> ->]|[[-> ->]|[[-> ->]|[[-> ->]|[-> ->]]]]];
    unfold call_tool;
    cbn [py_eqb is_search_tool_name existsb String.eqb Ascii.eqb Bool.eqb orb];
    cbv iota.
  - unfold invoke. destruct (tools build_query _ (ext w)) as [r x]. cbn [snd calls].
    solve_calls. constructor; auto. split; [now left|]. cbn [callee call_args]. eauto.
  - apply search_branch_calls. auto.
  - apply search_branch_calls. auto.
  - apply agent_branch_calls.
  - apply search_branch_calls. auto.
Qed.

(** The world a dispatch leaves is the one the selected call leaves. *)
Lemma execute_task_world task cache (w : world) :
  snd (execute_task task cache w)
  = match tool_of task with
    | Some func =>
        snd (call_tool func task (tool_name_of task) (sub_task_of task) cache w)
    | None => w
    end.
Proof.
  destruct task as [| | | | |d|]; try reflexivity.
  unfold_execute_task. cbn [py_get].
  fold (field "tool_name" VNone (VDict d)). fold (field "sub_task" (VStr "") (VDict d)).
  change (field "tool_name" VNone) with tool_name_of.
  change (field "sub_task" (VStr "")) with sub_task_of.
  unfold TOOL_MAPPING_get, tool_of.
  destruct (tool_name_of (VDict d)) as [| | |s| | |] eqn:En; cbn [hashable];
    try reflexivity;
    try (destruct (failure_outcome (VDict d) _); reflexivity).
  destruct (dict_get s TOOL_MAPPING) as [func|].
  - destruct (call_tool func (VDict d) (VStr s) (sub_task_of (VDict d)) cache w) as [[r|e] w1]; cbn [snd].
    + destruct (py_getitem (VDict d) "task_id") as [tid|e]; [|destruct (failure_outcome (VDict d) _); reflexivity].
      destruct (cache_set tid (safe_json py_repr r) cache); [reflexivity|].
      destruct (failure_outcome (VDict d) _); reflexivity.
    + destruct (failure_outcome (VDict d) _); reflexivity.
  - destruct (failure_outcome (VDict d) _); reflexivity.
Qed.

Lemma dispatch_calls task cache (w : world) :
  exists cs,
    calls (snd (execute_task task cache w)) = (calls w ++ cs)%list /\
    (List.length cs <= 2)%nat /\
    match tool_of task with
    | Some func => Forall (expected_call func) cs
    | None => cs = []
    end.
Proof.
  rewrite execute_task_world. destruct (tool_of task) as [func|] eqn:Hf.
  - unfold tool_of in Hf. destruct (tool_name_of task) as [| | |s| | |]; try discriminate.
    apply call_tool_calls. exact Hf.
  - exists []. rewrite app_nil_r. repeat split. simpl. lia.
Qed.

(** X5.  A dispatch makes at most two tool calls and no other change to
    the world: none for a task whose tool is not registered, else calls to
    the task's own tool or to [build_query] only, each of them with the
    keyword arguments of its branch; in particular every query is built and
    every search is made with the window ["2d"], and no tool is ever called
    without arguments. *)
Theorem execute_task_calls task cache (w : world) :
  exists cs,
    calls (snd (execute_task task cache w)) = (calls w ++ cs)%list /\
    (List.length cs <= 2)%nat /\
    match tool_of task with
    | Some func => Forall (expected_call func) cs
    | None => cs = []
    end.
Proof. apply dispatch_calls. Qed.

(** *** Invariants of a run *)

Lemma find_task_In plans dep_id t :
  find_task plans dep_id = Ok t -> t = VNone \/ In t plans.
Proof.
  induction plans as [|t0 plans IH]; simpl.
  - intros [= <-]. now left.
  - destruct (py_getitem t0 "task_id") as [tid|e]; [|discriminate]. cbn [res_bind].
    destruct (py_eqb tid dep_id).
    + intros [= <-]. right. now left.
    + intros H. destruct (IH H); auto.
Qed.

Section RunInvariant.

(** A property of the cache, the trace and the world that every dispatch
    of a task of the plan preserves. *)
Variable Inv : pydict -> list value -> world -> Prop.
Variable plans : list value.
Hypothesis Inv_dispatch :
  forall t cache trace (w : world) out cache' w',
    In t plans -> Inv cache trace w ->
    execute_task t cache w = (Ok (out, cache'), w') ->
    Inv cache' (trace ++ [out])%list w'.

Lemma resolve_dep_inv dep cache trace (w : world) cache' trace' w' :
  Inv cache trace w ->
  resolve_dep tools py_repr plans dep (cache, trace) w = (Ok (cache', trace'), w') ->
  Inv cache' trace' w'.
Proof.
  intros HI. unfold resolve_dep, bind, lift, ret.
  destruct (cache_mem dep cache) as [[|]|e]; cbn [negb]; try discriminate.
  - now intros [= <- <- <-].
  - destruct (find_task plans dep) as [t|e] eqn:Ef; [|discriminate].
    destruct (py_truthy t) eqn:Et; [|now intros [= <- <- <-]].
    destruct (find_task_In _ _ _ Ef) as [->|Hin]; [discriminate|].
    destruct (execute_task t cache w) as [[[out c1]|e] w1] eqn:Ex; [|discriminate].
    intros [= <- <- <-]. eapply Inv_dispatch; eauto.
Qed.

Lemma resolve_deps_inv deps :
  forall cache trace (w : world) cache' trace' w',
    Inv cache trace w ->
    for_each deps (resolve_dep tools py_repr plans) (cache, trace) w
    = (Ok (cache', trace'), w') ->
    Inv cache' trace' w'.
Proof.
  induction deps as [|dep deps IH]; intros cache trace w cache' trace' w' HI.
  - cbn [for_each]. unfold ret. now intros [= <- <- <-].
  - cbn [for_each]. unfold bind at 1.
    destruct (resolve_dep tools py_repr plans dep (cache, trace) w)
      as [[[c1 t1]|e] w1] eqn:E1; [|discriminate].
    intros H. eapply IH; [|exact H]. eapply resolve_dep_inv; eauto.
Qed.

Lemma run_task_inv task cache trace (w : world) cache' trace' w' :
  In task plans -> Inv cache trace w ->
  run_task tools py_repr plans task (cache, trace) w = (Ok (cache', trace'), w') ->
  Inv cache' trace' w'.
Proof.
  intros Hin HI. unfold run_task. unfold bind at 1 2 3. unfold lift.
  destruct (py_get task "task_id" VNone) as [tid|e]; [|discriminate].
  destruct (py_get task "dependent_on_tasks" (VList [])) as [deps|e]; [|discriminate].
  destruct (py_iter (or_empty_list deps)) as [dep_ids|e]; [|discriminate].
  unfold bind at 1.
  destruct (for_each dep_ids (resolve_dep tools py_repr plans) (cache, trace) w)
    as [[[c1 t1]|e] w1] eqn:E1; [|discriminate].
  unfold bind at 1.
  destruct (execute_task task c1 w1) as [[[out c2]|e] w2] eqn:E2; [|discriminate].
  unfold ret. intros [= <- <- <-].
  eapply Inv_dispatch; eauto. eapply resolve_deps_inv; eauto.
Qed.

Lemma run_tasks_inv tasks :
  (forall t, In t tasks -> In t plans) ->
  forall cache trace (w : world) cache' trace' w',
    Inv cache trace w ->
    for_each tasks (run_task tools py_repr plans) (cache, trace) w
    = (Ok (cache', trace'), w') ->
    Inv cache' trace' w'.
Proof.
  induction tasks as [|t tasks IH]; intros Hsub cache trace w cache' trace' w' HI.
  - cbn [for_each]. unfold ret. now intros [= <- <- <-].
  - cbn [for_each]. unfold bind at 1.
    destruct (run_task tools py_repr plans t (cache, trace) w)
      as [[[c1 t1]|e] w1] eqn:E1; [|discriminate].
    intros H. eapply IH; [| |exact H].
    + intros t' Ht'. apply Hsub. now right.
    + eapply run_task_inv; eauto. apply Hsub. now left.
Qed.

(** What every dispatch preserves holds at the end of the loop. *)
Lemma run_loop_inv (w : world) cache trace w' :
  Inv [] [] w ->
  run_loop plans w = (Ok (cache, trace), w') ->
  Inv cache trace w'.
Proof.
  intros HI H. unfold run_loop in H. eapply run_tasks_inv; eauto.
Qed.

End RunInvariant.

(** X6.  A task without ["task_id"] whose tool is registered is not
    turned away: the tool is called, and only then does the lookup of the
    identifier fail, so that the result the tool returned is dropped.  The
    outcome is the failure [{"task_id": None, "error": "'task_id'"}], the
    cache is as before, and the world is the one the call left. *)
Theorem task_without_id_loses_result d func cache (w w1 : world) r :
  dict_get "task_id" d = None ->
  tool_of (VDict d) = Some func ->
  call_tool func (VDict d) (tool_name_of (VDict d)) (sub_task_of (VDict d)) cache w
  = (Ok r, w1) ->
  execute_task (VDict d) cache w = (Ok (failure VNone "'task_id'", cache), w1).
Proof.
  intros Hid Hf Hcall. unfold_execute_task. cbn [py_get].
  fold (field "tool_name" VNone (VDict d)). fold (field "sub_task" (VStr "") (VDict d)).
  change (field "tool_name" VNone) with tool_name_of.
  change (field "sub_task" (VStr "")) with sub_task_of.
  unfold tool_of in Hf. unfold TOOL_MAPPING_get.
  destruct (tool_name_of (VDict d)) as [| | |s| | |]; try discriminate.
  cbn [hashable]. rewrite Hf, Hcall.
  unfold py_getitem, failure_outcome, py_get. rewrite Hid. reflexivity.
Qed.

Lemma safe_json_serializable v : json_serializable (safe_json py_repr v) = true.
Proof.
  unfold safe_json. destruct (json_serializable v) eqn:E; [exact E|reflexivity].
Qed.

(** The outcome of a dispatch of a well-formed task, in full. *)
Lemma execute_task_outcome task cache (w : world) out cache' w' :
  wf_task task = true ->
  execute_task task cache w = (Ok (out, cache'), w') ->
  (exists r, out = success (task_id_of task) (safe_json py_repr r) /\
             cache' = pd_set (task_id_of task) (safe_json py_repr r) cache /\
             tool_of task <> None) \/
  (exists msg, out = failure (task_id_of task) msg /\ cache' = cache).
Proof.
  intros Hwf. destruct (tool_of task) as [func|] eqn:Hf.
  - rewrite (execute_task_registered tools py_repr _ _ _ func Hwf Hf).
    destruct (call_tool _ _ _ _ _ _) as [[r|e] w1]; intros [= <- <- <-].
    + left. exists r. repeat split; auto. congruence.
    + right. eauto.
  - rewrite (execute_task_unregistered tools py_repr _ _ _ Hwf Hf).
    intros [= <- <- <-]. right. eauto.
Qed.

(** The plan runner on a plan of well-formed tasks, in terms of its loop. *)
Lemma run_execution_plan_loop d plans (w : world) :
  dict_get "plans" d = Some (VList plans) ->
  wf_plan plans = true ->
  exists segs cache w',
    run_loop plans w = (Ok (cache, map snd (List.concat segs)), w') /\
    run_execution_plan (VDict d) w
    = (Ok (RunDone (strftime_now (ext w')) (map snd (List.concat segs)) cache), w') /\
    Forall2 (segment plans) plans segs /\
    dispatches [] (List.concat segs) cache.
Proof.
  intros Hd Hp.
  destruct (run_loop_wf tools py_repr plans w Hp) as (segs & cache & w' & Hrun & Hsegs & Hdisp).
  exists segs, cache, w'. repeat split; auto.
  unfold run_execution_plan. unfold bind at 1.
  assert (Htruthy : py_truthy (VDict d) = true) by (destruct d; [discriminate|reflexivity]).
  rewrite Htruthy. unfold lift at 1. cbn [py_contains_str]. unfold dict_mem.
  rewrite Hd. cbn [negb]. unfold bind at 1. unfold lift at 1.
  cbn [py_getitem]. rewrite Hd. unfold bind at 1. unfold lift at 1. cbn [py_iter].
  unfold bind at 1. rewrite Hrun. unfold bind at 1. unfold lift at 1.
  rewrite (aggregate_dispatches [] _ cache Hdisp); [reflexivity|].
  eapply Forall_impl; [|apply (segments_in_plan plans plans segs Hsegs); auto].
  intros ev Hin. now apply wf_plan_In with plans.
Qed.

(** X7.  Whatever the tools return, a run over a plan of well-formed
    tasks hands back only what [json.dumps] accepts: every record of the
    trace is JSON-serialisable, and [aggregated_results] maps string
    identifiers to JSON-serialisable results. *)
Theorem run_results_serializable d plans (w : world) :
  dict_get "plans" d = Some (VList plans) ->
  wf_plan plans = true ->
  exists executed_at task_results aggregated_results w',
    run_execution_plan (VDict d) w
    = (Ok (RunDone executed_at task_results aggregated_results), w') /\
    Forall (fun r => json_serializable r = true) task_results /\
    (forall k v, pd_get k aggregated_results = Some v ->
                 is_str k = true /\ json_serializable v = true).
Proof.
  intros Hd Hp.
  destruct (run_execution_plan_loop d plans w Hd Hp)
    as (segs & cache & w' & Hloop & Hrun & _ & _).
  do 4 eexists. split; [exact Hrun|].
  pose (Inv := fun (cache : pydict) (trace : list value) (_ : world) =>
                 Forall (fun r => json_serializable r = true) trace /\
                 (forall k v, pd_get k cache = Some v ->
                              is_str k = true /\ json_serializable v = true)).
  apply (run_loop_inv Inv plans) with (w := w) (w' := w'); [|split|exact Hloop].
  - intros t c tr w0 out c' w0' Hin [Htr Hc] Hex.
    pose proof (wf_plan_In _ _ Hp Hin) as Ht.
    destruct (wf_task_id t Ht) as [id Hid].
    destruct (execute_task_outcome t c w0 out c' w0' Ht Hex)
      as [(r & -> & -> & _)|(msg & -> & ->)]; rewrite Hid; split.
    + apply Forall_app. split; auto. constructor; [|constructor].
      cbn. now rewrite safe_json_serializable.
    + intros k v Hk. apply pd_get_set_inv in Hk as [[-> ->]|Hk]; auto.
      split; [reflexivity|apply safe_json_serializable].
    + apply Forall_app. split; auto.
    + exact Hc.
  - constructor.
  - discriminate.
Qed.

(** X8.  In a run over a plan of well-formed tasks every tool call comes
    from a dispatch: the calls made are at most twice as many as the trace
    has records, and each of them is a call that the dispatcher makes for a
    registered tool that some task of the plan names. *)
Theorem run_calls_bounded d plans (w : world) :
  dict_get "plans" d = Some (VList plans) ->
  wf_plan plans = true ->
  exists executed_at task_results aggregated_results w' cs,
    run_execution_plan (VDict d) w
    = (Ok (RunDone executed_at task_results aggregated_results), w') /\
    calls w' = (calls w ++ cs)%list /\
    (List.length cs <= 2 * List.length task_results)%nat /\
    Forall (fun c => exists t func,
                In t plans /\ tool_of t = Some func /\ expected_call func c) cs.
Proof.
  intros Hd Hp.
  destruct (run_execution_plan_loop d plans w Hd Hp)
    as (segs & cache & w' & Hloop & Hrun & _ & _).
  pose (Inv := fun (_ : pydict) (trace : list value) (w1 : world) =>
                 exists cs,
                   calls w1 = (calls w ++ cs)%list /\
                   (List.length cs <= 2 * List.length trace)%nat /\
                   Forall (fun c => exists t func,
                               In t plans /\ tool_of t = Some func /\
                               expected_call func c) cs).
  assert (HI : Inv cache (map snd (List.concat segs)) w').
  { apply (run_loop_inv Inv plans) with (w := w); [| |exact Hloop].
    - intros t c tr w0 out c' w0' Hin (cs & Hcs & Hlen & Hall) Hex.
      destruct (dispatch_calls t c w0) as (cs1 & Hcs1 & Hlen1 & Hall1).
      rewrite Hex in Hcs1. cbn [snd] in Hcs1.
      exists (cs ++ cs1)%list. rewrite Hcs1, Hcs, app_assoc, !length_app.
      split; [reflexivity|]. split; [simpl; lia|].
      apply Forall_app. split; auto.
      destruct (tool_of t) as [func|] eqn:Hf; [|subst cs1; constructor].
      eapply Forall_impl; [|exact Hall1]. intros c0 Hc0. exists t, func. auto.
    - exists []. rewrite app_nil_r. repeat split; [simpl; lia|constructor]. }
  destruct HI as (cs & Hcs & Hlen & Hall).
  do 5 eexists. split; [exact Hrun|]. eauto.
Qed.

Lemma segments_length plans0 tasks segs :
  Forall2 (segment plans0) tasks segs ->
  (List.length tasks <= List.length (List.concat segs) /\
   List.length (List.concat segs) <= List.length tasks + declared_deps tasks)%nat.
Proof.
  induction 1 as [|t seg tasks segs (evs & out & -> & Hlen & _) Hrest IH].
  - simpl. unfold declared_deps. simpl. lia.
  - cbn [List.concat]. rewrite !length_app. unfold declared_deps in *.
    simpl in *. lia.
Qed.

(** X9.  A run over a plan of well-formed tasks dispatches every task
    once in its own turn, and besides that at most once per dependency
    declared: the trace has at least as many records as the plan has
    tasks, and at most as many as tasks and declared dependencies
    together. *)
Theorem run_trace_length d plans (w : world) :
  dict_get "plans" d = Some (VList plans) ->
  wf_plan plans = true ->
  exists executed_at task_results aggregated_results w',
    run_execution_plan (VDict d) w
    = (Ok (RunDone executed_at task_results aggregated_results), w') /\
    (List.length plans <= List.length task_results)%nat /\
    (List.length task_results <= List.length plans + declared_deps plans)%nat.
Proof.
  intros Hd Hp.
  destruct (run_execution_plan_loop d plans w Hd Hp)
    as (segs & cache & w' & _ & Hrun & Hsegs & _).
  do 4 eexists. split; [exact Hrun|].
  rewrite length_map. now apply segments_length with plans.
Qed.

Lemma resolve_deps_skipped plans deps cache trace (w : world) :
  Forall (fun dep => is_str dep = true) deps ->
  (forall dep, In dep deps -> pd_get dep cache <> None) ->
  for_each deps (resolve_dep tools py_repr plans) (cache, trace) w
  = (Ok (cache, trace), w).
Proof.
  induction 1 as [|dep deps Hs Hrest IH]; intros Hc; [reflexivity|].
  cbn [for_each]. unfold bind at 1.
  rewrite (resolve_dep_skipped tools py_repr plans dep cache trace w Hs).
  - apply IH. intros dep' Hin. apply Hc. now right.
  - left. apply Hc. now left.
Qed.

Lemma pd_get_set_keeps k id r cache :
  pd_get k cache <> None -> pd_get k (pd_set (VStr id) r cache) <> None.
Proof.
  intros H. destruct (py_eqb k (VStr id)) eqn:E.
  - apply py_eqb_str_r in E. subst k. rewrite pd_get_set_same. discriminate.
  - rewrite pd_get_set_other; auto. intros ->. now rewrite py_eqb_str_refl in E.
Qed.

Lemma run_tasks_ordered plans tasks :
  wf_plan plans = true ->
  Forall (fun t => wf_task t = true) tasks ->
  forall seen cache trace (w : world) cache' trace' w',
    in_dependency_order seen tasks = true ->
    (forall id, In id seen -> pd_get id cache <> None) ->
    for_each tasks (run_task tools py_repr plans) (cache, trace) w
    = (Ok (cache', trace'), w') ->
    exists new,
      trace' = (trace ++ new)%list /\
      (forallb is_success new = true -> map record_id new = map task_id_of tasks).
Proof.
  intros Hp. induction 1 as [|t tasks Ht Hrest IH];
    intros seen cache trace w cache' trace' w' Hord Hseen.
  - cbn [for_each]. unfold ret. intros [= <- <- <-]. exists [].
    rewrite app_nil_r. auto.
  - cbn [in_dependency_order] in Hord. apply andb_prop in Hord as [Hdeps Hord].
    cbn [for_each]. unfold bind at 1.
    rewrite (run_task_eq tools py_repr plans t cache trace w Ht).
    destruct (dep_ids_wf t Ht) as [_ Hstr].
    rewrite resolve_deps_skipped; auto.
    2:{ intros dep Hin. rewrite forallb_forall in Hdeps. specialize (Hdeps dep Hin).
        apply existsb_exists in Hdeps as (id & Hid & He).
        rewrite Forall_forall in Hstr. specialize (Hstr dep Hin).
        destruct dep as [| | |s| | |]; try discriminate.
        apply py_eqb_str_l in He. subst id. now apply Hseen. }
    destruct (execute_task t cache w) as [[[out c1]|e] w1] eqn:Hex; [|discriminate].
    destruct (wf_task_id t Ht) as [id Hid].
    destruct (execute_task_outcome t cache w out c1 w1 Ht Hex)
      as [(r & -> & -> & _)|(msg & -> & ->)]; intros Hfor.
    + assert (Hpre : forall k, In k (task_id_of t :: seen) ->
                       pd_get k (pd_set (task_id_of t) (safe_json py_repr r) cache) <> None).
      { intros k [<-|Hk]; rewrite Hid.
        - rewrite pd_get_set_same. discriminate.
        - apply pd_get_set_keeps. now apply Hseen. }
      destruct (IH _ _ _ _ _ _ _ Hord Hpre Hfor) as (new & -> & Hnew).
      exists (success (task_id_of t) (safe_json py_repr r) :: new).
      rewrite <- app_assoc. split; [reflexivity|].
      cbn [forallb map]. intros H. apply andb_prop in H as [_ H].
      rewrite (Hnew H). reflexivity.
    + assert (Hall : Forall (fun t => wf_task t = true) tasks) by exact Hrest.
      destruct (run_tasks_wf tools py_repr plans tasks Hp Hall cache
                  (trace ++ [failure (task_id_of t) msg])%list w1)
        as (segs & c2 & w2 & Heq & _).
      rewrite Heq in Hfor. injection Hfor as <- <- <-.
      exists (failure (task_id_of t) msg :: map snd (List.concat segs)).
      rewrite <- app_assoc. split; [reflexivity|].
      cbn [forallb]. discriminate.
Qed.

(** X10.  A plan of well-formed tasks listed in dependency order is run
    without repetition as long as nothing fails: when every record of the
    trace is a success, the trace has exactly one record per task, carrying
    the identifiers of the tasks in plan order. *)
Theorem ordered_plan_runs_each_task_once d plans (w : world) :
  dict_get "plans" d = Some (VList plans) ->
  wf_plan plans = true ->
  in_dependency_order [] plans = true ->
  exists executed_at task_results aggregated_results w',
    run_execution_plan (VDict d) w
    = (Ok (RunDone executed_at task_results aggregated_results), w') /\
    (forallb is_success task_results = true ->
     map record_id task_results = map task_id_of plans).
Proof.
  intros Hd Hp Hord.
  destruct (run_execution_plan_loop d plans w Hd Hp)
    as (segs & cache & w' & Hloop & Hrun & _ & _).
  do 4 eexists. split; [exact Hrun|].
  assert (Hall : Forall (fun t => wf_task t = true) plans).
  { apply Forall_forall. intros t. now apply wf_plan_In. }
  unfold run_loop in Hloop.
  assert (Hpre : forall id : value, In id [] -> pd_get id [] <> None) by (intros id []).
  destruct (run_tasks_ordered plans plans Hp Hall [] [] [] w _ _ _ Hord Hpre Hloop)
    as (new & Hnew & Hids).
  cbn [app] in Hnew. rewrite Hnew. exact Hids.
Qed.

Lemma dispatches_records cache evs cache' :
  dispatches cache evs cache' ->
  Forall (fun ev : event => wf_task (fst ev) = true) evs ->
  Forall (fun r => isinstance_dict r = true /\ is_str (record_id r) = true) (map snd evs).
Proof.
  induction 1 as [|c task out c1 evs c2 Hd1 Hds IH]; intros Hwf; [constructor|].
  inversion Hwf as [|? ? Ht Hr]; subst. cbn [fst] in Ht.
  cbn [map snd]. constructor; [|apply IH; exact Hr].
  destruct (wf_task_id task Ht) as [id Hid].
  destruct Hd1; rewrite Hid; split; reflexivity.
Qed.

Lemma aggregate_last trace :
  Forall (fun r => isinstance_dict r = true /\ is_str (record_id r) = true) trace ->
  forall acc, exists agg,
    aggregate trace acc = Ok agg /\
    forall id, pd_get (VStr id) agg
               = match last_result (VStr id) trace with
                 | Some v => Some v
                 | None => pd_get (VStr id) acc
                 end.
Proof.
  induction 1 as [|r trace [Hd Hs] Hrest IH]; intros acc.
  - exists acc. split; [reflexivity|]. reflexivity.
  - destruct r as [| | | | |rd|]; try discriminate.
    unfold record_id, field in Hs.
    cbn [aggregate py_contains_str res_bind last_result result_for]. unfold dict_mem.
    destruct (dict_get "result" rd) as [v|] eqn:Er.
    + cbn [py_getitem py_get]. rewrite Er.
      destruct (dict_get "task_id" rd) as [[| | |tid| | |]|]; try discriminate.
      cbn [res_bind cache_set hashable].
      destruct (IH (pd_set (VStr tid) v acc)) as (agg & -> & Hagg).
      exists agg. split; [reflexivity|]. intros id. rewrite Hagg.
      destruct (last_result (VStr id) trace); [reflexivity|].
      cbn [py_eqb]. destruct (String.eqb_spec id tid) as [->|Hne].
      * apply pd_get_set_same.
      * apply pd_get_set_other. congruence.
    + destruct (IH acc) as (agg & -> & Hagg).
      exists agg. split; [reflexivity|]. intros id. rewrite Hagg.
      destruct (last_result (VStr id) trace); reflexivity.
Qed.

(** X11.  [aggregated_results] keeps, for every identifier, the result of
    the last success the trace records for it, and has no entry for an
    identifier without success: when a task is dispatched more than once,
    the later result replaces the earlier one. *)
Theorem aggregated_results_last_success d plans (w : world) :
  dict_get "plans" d = Some (VList plans) ->
  wf_plan plans = true ->
  exists executed_at task_results aggregated_results w',
    run_execution_plan (VDict d) w
    = (Ok (RunDone executed_at task_results aggregated_results), w') /\
    forall id, pd_get (VStr id) aggregated_results = last_result (VStr id) task_results.
Proof.
  intros Hd Hp.
  destruct (run_execution_plan_loop d plans w Hd Hp)
    as (segs & cache & w' & _ & Hrun & Hsegs & Hdisp).
  do 4 eexists. split; [exact Hrun|].
  assert (Hwf : Forall (fun ev : event => wf_task (fst ev) = true) (List.concat segs)).
  { eapply Forall_impl; [|apply (segments_in_plan plans plans segs Hsegs); auto].
    intros ev Hin. now apply wf_plan_In with plans. }
  pose proof (aggregate_dispatches [] _ cache Hdisp Hwf) as Hagg.
  destruct (aggregate_last (map snd (List.concat segs))) with (acc := @nil (value * value))
    as (agg & Hagg' & Hlast).
  - eapply dispatches_records; eauto.
  - rewrite Hagg in Hagg'. injection Hagg' as <-.
    intros id. rewrite Hlast. destruct (last_result (VStr id) _); reflexivity.
Qed.

(** X16.  The agent lookup takes the name from the first record of the
    first dependency.  For a well-formed [get_agent_data] task whose first
    declared dependency has in the cache a list whose first element is a
    dict with a dict under ["agent"] and a ["name"] in it, the one call
    made is [get_agent_data(agent_name=name)], whatever the other records
    and the other dependencies hold; what the call returns becomes the
    task's result, and what it raises becomes the task's error. *)
Theorem agent_lookup_uses_first_record
    task cache (w : world) dep rest record others agent name :
  wf_task task = true ->
  tool_name_of task = VStr "get_agent_data" ->
  deps_of task = dep :: rest ->
  pd_get dep cache = Some (VList (VDict record :: others)) ->
  dict_get "agent" record = Some (VDict agent) ->
  dict_get "name" agent = Some name ->
  execute_task task cache w
  = let called := (calls w ++ [Call get_agent_data [("agent_name", name)]])%list in
    match tools get_agent_data [("agent_name", name)] (ext w) with
    | (Ok r, x) =>
        (Ok (success (task_id_of task) (safe_json py_repr r),
             pd_set (task_id_of task) (safe_json py_repr r) cache),
         World called x)
    | (Raise e, x) => (Ok (failure (task_id_of task) (exn_str e), cache), World called x)
    end.
Proof.
  intros Hwf Htool Hdeps Hdep Hagent Hname.
  assert (Hf : tool_of task = Some get_agent_data).
  { unfold tool_of. rewrite Htool. reflexivity. }
  rewrite (execute_task_registered tools py_repr _ _ _ _ Hwf Hf).
  unfold call_tool. rewrite Htool.
  change (py_eqb (VStr "get_agent_data") (VStr "build_query")) with false.
  change (is_search_tool_name (VStr "get_agent_data")) with false.
  change (py_eqb (VStr "get_agent_data") (VStr "get_agent_data")) with true.
  cbv iota. unfold agent_branch. unfold bind at 1 2 3. unfold lift.
  pose proof (prev_results_wf task cache Hwf) as Hprev.
  destruct (wf_task_inv task Hwf) as (d & id' & Heq & _).
  rewrite Heq in Hprev |- *. cbn [py_get res_bind] in Hprev |- *.
  destruct (py_iter _) as [tids|e]; [|discriminate]. cbn [res_bind] in Hprev.
  rewrite Hprev. rewrite <- Heq. rewrite Hdeps. cbn [map extract_agent_name].
  rewrite Hdep. cbn [py_get res_bind]. rewrite Hagent. cbn [py_get res_bind].
  rewrite Hname. unfold invoke. cbv zeta.
  destruct (tools get_agent_data _ (ext w)) as [[r|e] x]; reflexivity.
Qed.

End DispatcherFacts.

(** *** The dispatcher and the runner on sample plans *)

Lemma task_without_id_loses_result_witness :
  dict_get "task_id" anonymous_task = None /\
  tool_of (VDict anonymous_task) = Some build_query /\
  execute_task counting_tools sample_repr (VDict anonymous_task) [] (World [] 0)
  = (Ok (failure VNone "'task_id'", []),
     World [Call build_query [("query_string", VStr "failed ssh logins");
                              ("time_range", VStr "2d")]] 1).
Proof.
  split; [reflexivity|]. split; [reflexivity|].
  apply (task_without_id_loses_result counting_tools sample_repr anonymous_task
           build_query [] (World [] 0) _ (VInt 0)); reflexivity.
Defined.

Lemma run_results_serializable_witness :
  dict_get "plans" [("plans", VList dummy_plan)] = Some (VList dummy_plan) /\
  wf_plan dummy_plan = true /\
  exists executed_at task_results aggregated_results w',
    run_execution_plan counting_tools sample_repr sample_now
      (VDict [("plans", VList dummy_plan)]) (World [] 0)
    = (Ok (RunDone executed_at task_results aggregated_results), w') /\
    Forall (fun r => json_serializable r = true) task_results.
Proof.
  split; [reflexivity|]. split; [reflexivity|].
  destruct (run_results_serializable counting_tools sample_repr sample_now
              [("plans", VList dummy_plan)] dummy_plan (World [] 0) eq_refl eq_refl)
    as (e & tr & agg & w' & Hrun & Htr & _).
  exists e, tr, agg, w'. split; assumption.
Defined.

Lemma run_calls_bounded_witness :
  dict_get "plans" [("plans", VList reversed_chain)] = Some (VList reversed_chain) /\
  wf_plan reversed_chain = true /\
  exists executed_at task_results aggregated_results w' cs,
    run_execution_plan counting_tools sample_repr sample_now
      (VDict [("plans", VList reversed_chain)]) (World [] 0)
    = (Ok (RunDone executed_at task_results aggregated_results), w') /\
    calls w' = ([] ++ cs)%list /\
    (List.length cs <= 2 * List.length task_results)%nat.
Proof.
  split; [reflexivity|]. split; [reflexivity|].
  destruct (run_calls_bounded counting_tools sample_repr sample_now
              [("plans", VList reversed_chain)] reversed_chain (World [] 0)
              eq_refl eq_refl)
    as (e & tr & agg & w' & cs & Hrun & Hcs & Hlen & _).
  exists e, tr, agg, w', cs. repeat split; assumption.
Defined.

Lemma run_trace_length_witness :
  dict_get "plans" [("plans", VList reversed_chain)] = Some (VList reversed_chain) /\
  wf_plan reversed_chain = true /\
  exists executed_at task_results aggregated_results w',
    run_execution_plan failing_tools sample_repr sample_now
      (VDict [("plans", VList reversed_chain)]) (World [] tt)
    = (Ok (RunDone executed_at task_results aggregated_results), w') /\
    (3 <= List.length task_results)%nat /\
    (List.length task_results <= 3 + 2)%nat.
Proof.
  split; [reflexivity|]. split; [reflexivity|].
  exact (run_trace_length failing_tools sample_repr sample_now
           [("plans", VList reversed_chain)] reversed_chain (World [] tt)
           eq_refl eq_refl).
Defined.

Lemma ordered_plan_runs_each_task_once_witness :
  dict_get "plans" [("plans", VList dummy_plan)] = Some (VList dummy_plan) /\
  wf_plan dummy_plan = true /\
  in_dependency_order [] dummy_plan = true /\
  exists executed_at task_results aggregated_results w',
    run_execution_plan counting_tools sample_repr sample_now
      (VDict [("plans", VList dummy_plan)]) (World [] 0)
    = (Ok (RunDone executed_at task_results aggregated_results), w') /\
    (forallb is_success task_results = true ->
     map record_id task_results = [VStr "1"; VStr "2"]).
Proof.
  split; [reflexivity|]. split; [reflexivity|]. split; [reflexivity|].
  exact (ordered_plan_runs_each_task_once counting_tools sample_repr sample_now
           [("plans", VList dummy_plan)] dummy_plan (World [] 0)
           eq_refl eq_refl eq_refl).
Defined.

Lemma aggregated_results_last_success_witness :
  dict_get "plans" [("plans", VList reversed_chain)] = Some (VList reversed_chain) /\
  wf_plan reversed_chain = true /\
  exists executed_at task_results aggregated_results w',
    run_execution_plan counting_tools sample_repr sample_now
      (VDict [("plans", VList reversed_chain)]) (World [] 0)
    = (Ok (RunDone executed_at task_results aggregated_results), w') /\
    forall id, pd_get (VStr id) aggregated_results = last_result (VStr id) task_results.
Proof.
  split; [reflexivity|]. split; [reflexivity|].
  exact (aggregated_results_last_success counting_tools sample_repr sample_now
           [("plans", VList reversed_chain)] reversed_chain (World [] 0)
           eq_refl eq_refl).
Defined.

Lemma agent_lookup_uses_first_record_witness :
  let task := mk_task "4" "get_agent_data" ["3"; "2"] in
  let cache := [(VStr "3", VList [VDict [("agent", VDict [("name", VStr "web-01")])];
                                  VDict [("agent", VDict [("name", VStr "db-02")])]])] in
  wf_task task = true /\
  execute_task counting_tools sample_repr task cache (World [] 0)
  = (Ok (success (VStr "4") (VInt 0), pd_set (VStr "4") (VInt 0) cache),
     World [Call get_agent_data [("agent_name", VStr "web-01")]] 1).
Proof.
  cbv zeta. split; [reflexivity|].
  exact (agent_lookup_uses_first_record counting_tools sample_repr
           (mk_task "4" "get_agent_data" ["3"; "2"])
           [(VStr "3", VList [VDict [("agent", VDict [("name", VStr "web-01")])];
                              VDict [("agent", VDict [("name", VStr "db-02")])]])]
           (World [] 0)
           (VStr "3") [VStr "2"] [("agent", VDict [("name", VStr "web-01")])]
           [VDict [("agent", VDict [("name", VStr "db-02")])]]
           [("name", VStr "web-01")] (VStr "web-01")
           eq_refl eq_refl eq_refl eq_refl eq_refl eq_refl).
Defined.

(** With tools that answer, the reversed chain runs task 2 twice and task
    1 twice; the aggregate keeps the later results. *)
Example reversed_chain_run :
  fst (run_execution_plan counting_tools sample_repr sample_now
         (VDict [("plans", VList reversed_chain)]) (World [] 0))
  = Ok (RunDone "2025-01-01 00:00:00"
          [success (VStr "2") (VInt 1); success (VStr "3") (VInt 2);
           success (VStr "1") (VInt 3); success (VStr "2") (VInt 4);
           success (VStr "1") (VInt 5)]
          [(VStr "2", VInt 4); (VStr "3", VInt 2); (VStr "1", VInt 5)]).
Proof. reflexivity. Qed.

(** ** The tools: windows, hits, names *)

Ltac digit_cases d H :=
  do 10 (try (destruct d as [|d]; [try reflexivity|])); try (exfalso; lia).

Lemma digit_of_char d : (d < 10)%nat -> digit_of (digit_char d) = Some (Z.of_nat d).
Proof. intros H. digit_cases d H. Qed.

Lemma is_space_digit d : (d < 10)%nat -> is_space (digit_char d) = false.
Proof. intros H. digit_cases d H. Qed.

Lemma lower_digit d : (d < 10)%nat -> lower_ascii (digit_char d) = digit_char d.
Proof. intros H. digit_cases d H. Qed.

Lemma digit_not_letter d c :
  (d < 10)%nat -> (97 <= nat_of_ascii c)%nat -> Ascii.eqb (digit_char d) c = false.
Proof.
  intros H Hc. destruct (Ascii.eqb_spec (digit_char d) c) as [<-|]; [|reflexivity].
  exfalso. revert Hc. unfold digit_char. rewrite nat_ascii_embedding by lia. lia.
Qed.

Lemma parse_digits_numeral ds :
  Forall (fun d => d < 10)%nat ds ->
  forall acc,
    parse_digits (numeral ds) acc false
    = Some (fold_left (fun acc d => (10 * acc + Z.of_nat d)%Z) ds acc).
Proof.
  induction 1 as [|d ds Hd Hrest IH]; intros acc; [reflexivity|].
  cbn [numeral parse_digits fold_left]. rewrite (digit_of_char d Hd). apply IH.
Qed.

Lemma rstrip_numeral ds :
  Forall (fun d => d < 10)%nat ds -> rstrip (numeral ds) = numeral ds.
Proof.
  induction 1 as [|d ds Hd Hrest IH]; [reflexivity|].
  cbn [numeral rstrip]. rewrite IH.
  destruct (numeral ds); [|reflexivity]. now rewrite (is_space_digit d Hd).
Qed.

(** [int] reads a decimal numeral as the number it denotes. *)
Lemma py_int_numeral ds :
  ds <> [] -> Forall (fun d => d < 10)%nat ds ->
  py_int (numeral ds) = Ok (numeral_value ds).
Proof.
  intros Hne Hds. destruct ds as [|d ds]; [contradiction|].
  inversion Hds as [|? ? Hd Hrest]; subst.
  unfold py_int.
  assert (Hl : lstrip (numeral (d :: ds)) = numeral (d :: ds)).
  { cbn [numeral lstrip]. now rewrite (is_space_digit d Hd). }
  rewrite Hl, (rstrip_numeral _ Hds).
  assert (Hp : parse_unsigned (numeral (d :: ds)) = Some (numeral_value (d :: ds))).
  { cbn [numeral parse_unsigned]. rewrite (digit_of_char d Hd).
    rewrite (parse_digits_numeral ds Hrest). reflexivity. }
  cbn [numeral] in *.
  assert (Hm : match String (digit_char d) (numeral ds) with
               | String "-" s' => option_map Z.opp (parse_unsigned s')
               | String "+" s' => parse_unsigned s'
               | _ => parse_unsigned (String (digit_char d) (numeral ds))
               end = parse_unsigned (String (digit_char d) (numeral ds))).
  { clear -Hd. digit_cases d Hd. }
  rewrite Hm, Hp. reflexivity.
Qed.

Lemma str_remove_days ds :
  Forall (fun d => d < 10)%nat ds ->
  str_remove "d" (numeral ds ++ "d") = numeral ds.
Proof.
  induction 1 as [|d ds Hd Hrest IH]; [reflexivity|].
  cbn [numeral append str_remove].
  rewrite (digit_not_letter d "d" Hd) by (change (nat_of_ascii "d") with 100%nat; lia).
  now rewrite IH.
Qed.

Lemma str_lower_days ds :
  Forall (fun d => d < 10)%nat ds ->
  str_lower (numeral ds ++ "d") = numeral ds ++ "d".
Proof.
  induction 1 as [|d ds Hd Hrest IH]; [reflexivity|].
  cbn [numeral append str_lower]. now rewrite (lower_digit d Hd), IH.
Qed.

Lemma is_substring_days ds : is_substring "d" (numeral ds ++ "d") = true.
Proof.
  induction ds as [|d ds IH]; [reflexivity|].
  cbn [numeral append is_substring]. rewrite IH. apply orb_true_r.
Qed.

Lemma numeral_value_nonneg ds : (0 <= numeral_value ds)%Z.
Proof.
  unfold numeral_value.
  assert (H : forall acc, (0 <= acc)%Z ->
                (0 <= fold_left (fun acc d => (10 * acc + Z.of_nat d)%Z) ds acc)%Z).
  { induction ds as [|d ds IH]; intros acc Hacc; [exact Hacc|].
    cbn [fold_left]. apply IH. lia. }
  apply H. lia.
Qed.

Section MainOpensearchFacts.

Context {W : Type}.
Variable opensearch_client : option (value -> string -> W -> res value * W).
Variable utcnow : W -> Z * W.
Variable isoformat : Z -> string.
Variable py_repr : value -> string.

Local Abbreviation build_query_fn := (build_query_fn utcnow isoformat py_repr).
Local Abbreviation search_raw_logs_fn := (search_raw_logs_fn opensearch_client py_repr).
Local Abbreviation search_alerts_fn := (search_alerts_fn opensearch_client py_repr).
Local Abbreviation get_agent_data_fn := (get_agent_data_fn opensearch_client py_repr).
Local Abbreviation search_vulnerabilities_fn :=
  (search_vulnerabilities_fn opensearch_client py_repr).
Local Abbreviation execute_tool := (execute_tool opensearch_client utcnow isoformat py_repr).
Local Abbreviation main_opensearch :=
  (main_opensearch opensearch_client utcnow isoformat py_repr).

(** X12.  Windows that are no day counts.  With the window ["anytime"],
    in any letter case, [build_query] reads no clock and returns the query
    with the text filter alone.  With any other window that holds no
    letter [d] (["1h"], the default window of the search tools, or
    ["2D"]) the window filter it adds is empty: it starts and ends at the
    instant read from the clock. *)
Theorem build_query_no_day_count query_string time_range (w : W) :
  (str_lower time_range = "anytime" ->
   build_query_fn query_string (VStr time_range) w
   = (Ok (query_of_filters [query_string_clause query_string]), w)) /\
  (str_lower time_range <> "anytime" -> is_substring "d" time_range = false ->
   build_query_fn query_string (VStr time_range) w
   = (Ok (query_of_filters
            [time_window (isoformat (fst (utcnow w))) (isoformat (fst (utcnow w)));
             query_string_clause query_string]),
      snd (utcnow w))).
Proof.
  unfold build_query_fn. split.
  - intros ->. reflexivity.
  - intros Hne Hd. apply String.eqb_neq in Hne. rewrite Hne, Hd.
    destruct (utcnow w) as [t w']. reflexivity.
Qed.

(** X13.  A window of [n] days, written as a decimal numeral followed by
    [d], makes [build_query] add the window from [n] days before the
    instant read from the clock up to that instant, in front of the text
    filter, provided that instant is at least [n] days after the first
    instant a [datetime] can hold. *)
Theorem build_query_days query_string ds (w : W) :
  ds <> [] -> Forall (fun d => d < 10)%nat ds ->
  (numeral_value ds <= 999999999)%Z ->
  (numeral_value ds * us_per_day <= fst (utcnow w) <= datetime_max)%Z ->
  build_query_fn query_string (VStr (numeral ds ++ "d")) w
  = (Ok (query_of_filters
           [time_window (isoformat (fst (utcnow w) - numeral_value ds * us_per_day))
                        (isoformat (fst (utcnow w)));
            query_string_clause query_string]),
     snd (utcnow w)).
Proof.
  intros Hne Hds Hn Hclock. pose proof (numeral_value_nonneg ds) as H0.
  unfold build_query_fn.
  rewrite (str_lower_days ds Hds), (is_substring_days ds), (str_remove_days ds Hds).
  rewrite (py_int_numeral ds Hne Hds).
  assert (Hany : String.eqb (numeral ds ++ "d") "anytime" = false).
  { destruct ds as [|d ds']; [contradiction|]. inversion Hds; subst.
    cbn [numeral append String.eqb].
    rewrite (digit_not_letter d "a") by (auto; change (nat_of_ascii "a") with 97%nat; lia).
    reflexivity. }
  rewrite Hany. cbn [negb]. destruct (utcnow w) as [t w']. cbn [fst snd] in *.
  cbn [res_bind]. unfold minus_days.
  assert (Ha : (Z.abs (numeral_value ds) >? 999999999)%Z = false).
  { rewrite Z.gtb_ltb. apply Z.ltb_ge. lia. }
  rewrite Ha.
  assert (Hr : ((0 <=? t - numeral_value ds * us_per_day)
                && (t - numeral_value ds * us_per_day <=? datetime_max))%Z = true).
  { apply andb_true_intro. split; apply Z.leb_le; unfold us_per_day in *; lia. }
  rewrite Hr. reflexivity.
Qed.

(** What [search_hits] returns is a list: the documents of the hits, or
    the empty list. *)
Lemma search_hits_list search body index (w : W) :
  exists docs w', search_hits search body index w = (Ok (VList docs), w').
Proof.
  unfold search_hits. destruct (search body index w) as [resp w'].
  match goal with
  | |- context [match ?x with Ok _ => _ | Raise _ => _ end] => destruct x as [v|e] eqn:E
  end; [|eauto].
  destruct resp as [resp|e]; [|discriminate]. cbn [res_bind] in E.
  destruct (py_get resp "hits" (VDict [])) as [outer|e]; [|discriminate].
  cbn [res_bind] in E.
  destruct (py_get outer "hits" (VList [])) as [inner|e]; [|discriminate].
  cbn [res_bind] in E.
  destruct (py_iter inner) as [hits|e]; [|discriminate]. cbn [res_bind] in E.
  destruct (map_res _ hits) as [sources|e]; [|discriminate]. cbn [res_bind] in E.
  injection E as <-. eauto.
Qed.

Lemma tool_answer_marker msg : tool_answer (VDict [("error", VStr msg)]).
Proof. left. now exists msg. Qed.

(** X14.  The four tools that query the backend never raise, whatever
    their arguments are and whatever the backend does: each returns an
    error marker or a list of documents; and without a client each returns
    the marker of the missing client and leaves the world as it is. *)
Theorem search_tools_never_raise query time_range min_level agent_id agent_name (w : W) :
  let answers (r : res value * W) :=
    exists v w', r = (Ok v, w') /\ tool_answer v /\
                 (opensearch_client = None -> v = not_initialized /\ w' = w) in
  answers (search_raw_logs_fn query time_range w) /\
  answers (search_alerts_fn query time_range min_level w) /\
  answers (get_agent_data_fn agent_id agent_name w) /\
  answers (search_vulnerabilities_fn query time_range min_level w).
Proof.
  cbv zeta.
  unfold search_raw_logs_fn, search_alerts_fn, get_agent_data_fn,
    search_vulnerabilities_fn.
  assert (Hhits : forall search body index,
             exists v w', search_hits search body index w = (Ok v, w') /\ tool_answer v /\
                          (Some search = None -> v = not_initialized /\ w' = w)).
  { intros search body index.
    destruct (search_hits_list search body index w) as (docs & w' & ->).
    exists (VList docs), w'. split; [reflexivity|]. split; [right; eauto|discriminate]. }
  assert (Hmark : forall msg (P : Prop), (P -> VDict [("error", VStr msg)] = not_initialized) ->
             exists v w', (Ok (VDict [("error", VStr msg)]), w) = (Ok v, w') /\ tool_answer v /\
                          (P -> v = not_initialized /\ w' = w)).
  { intros msg P HP. do 2 eexists. split; [reflexivity|].
    split; [apply tool_answer_marker|]. intros HPp. split; [auto|reflexivity]. }
  destruct opensearch_client as [search|].
  - repeat apply conj; try apply Hhits.
    destruct (negb (py_truthy agent_id) && negb (py_truthy agent_name));
      [apply Hmark; discriminate|apply Hhits].
  - repeat apply conj; apply Hmark; reflexivity.
Qed.

Lemma map_res_sources hits sources :
  Forall2 (fun hit doc => source_of hit = Some doc) hits sources ->
  map_res (fun hit => py_getitem hit "_source") hits = Ok sources.
Proof.
  induction 1 as [|hit doc hits sources Hs Hrest IH]; [reflexivity|].
  cbn [map_res]. destruct hit as [| | | | |d|]; try discriminate.
  cbn [source_of] in Hs. cbn [py_getitem]. rewrite Hs. cbn [res_bind].
  now rewrite IH.
Qed.

Lemma map_res_no_source hits hit :
  In hit hits -> source_of hit = None ->
  exists e, map_res (fun hit => py_getitem hit "_source") hits = Raise e.
Proof.
  induction hits as [|h hits IH]; intros [] Hn.
  - subst h. cbn [map_res].
    destruct hit as [| | | | |d|]; cbn [py_getitem res_bind]; eauto.
    cbn [source_of] in Hn. rewrite Hn. cbn [res_bind]. eauto.
  - cbn [map_res]. destruct (py_getitem h "_source"); cbn [res_bind]; eauto.
    destruct (IH H Hn) as [e ->]. cbn [res_bind]. eauto.
Qed.

(** X15.  The hits of a response are taken all or none: when every hit
    carries a document under ["_source"], the tool returns these documents
    in the order of the hits; when a single hit carries none, the tool
    returns the empty list, and the documents of the other hits are
    lost. *)
Theorem search_hits_all_or_nothing search body index (w w' : W) resp hits :
  search body index w = (Ok resp, w') ->
  response_with resp hits ->
  (forall sources,
      Forall2 (fun hit doc => source_of hit = Some doc) hits sources ->
      search_hits search body index w = (Ok (VList sources), w')) /\
  (forall hit,
      In hit hits -> source_of hit = None ->
      search_hits search body index w = (Ok (VList []), w')).
Proof.
  intros Hs (rd & outer & -> & Ho & Hi). unfold search_hits. rewrite Hs.
  cbn [res_bind py_get]. rewrite Ho. cbn [res_bind py_get]. rewrite Hi.
  cbn [res_bind py_iter]. split.
  - intros sources Hall. now rewrite (map_res_sources _ _ Hall).
  - intros hit Hin Hn. destruct (map_res_no_source _ _ Hin Hn) as [e ->]. reflexivity.
Qed.

(** In the agent lookup the identifier comes first: when an [agent_id] is
    given, the name plays no part in what is asked of the backend nor in
    what is returned. *)
Lemma get_agent_data_id_first agent_id name1 name2 (w : W) :
  py_truthy agent_id = true ->
  get_agent_data_fn agent_id name1 w = get_agent_data_fn agent_id name2 w.
Proof.
  intros H. unfold get_agent_data_fn. rewrite H. reflexivity.
Qed.

(** X17.  [execute_tool] knows the names of [TOOL_MAPPING] and no other:
    under a registered name it does what calling the registered function
    with the same keyword arguments does, and for anything else it raises
    [ValueError] and leaves the world as it is. *)
Theorem execute_tool_registry tool_name kwargs (w : W) :
  execute_tool tool_name kwargs w
  = match registered tool_name with
    | Some f => main_opensearch f kwargs w
    | None => (Raise (Exn ValueError ("Unknown tool: " ++ fmt py_repr tool_name)), w)
    end.
Proof.
  unfold execute_tool, registered.
  destruct tool_name as [| | |s| | |]; try reflexivity.
  unfold TOOL_MAPPING. cbn [py_eqb dict_get].
  repeat match goal with
         | |- context [String.eqb s ?k] => destruct (String.eqb s k)
         end; reflexivity.
Qed.

End MainOpensearchFacts.

(** *** The tools on samples *)

Lemma build_query_no_day_count_witness :
  str_lower "AnyTime" = "anytime" /\
  str_lower "1h" <> "anytime" /\ is_substring "d" "1h" = false /\
  build_query_fn sample_utcnow sample_isoformat sample_repr (VStr "ssh") (VStr "AnyTime") tt
  = (Ok (query_of_filters [query_string_clause (VStr "ssh")]), tt) /\
  build_query_fn sample_utcnow sample_isoformat sample_repr (VStr "ssh") (VStr "1h") tt
  = (Ok (query_of_filters
           [time_window (sample_isoformat unix_epoch) (sample_isoformat unix_epoch);
            query_string_clause (VStr "ssh")]), tt).
Proof.
  assert (H1 : str_lower "1h" <> "anytime") by (vm_compute; discriminate).
  split; [reflexivity|]. split; [exact H1|]. split; [reflexivity|]. split.
  - apply (proj1 (build_query_no_day_count sample_utcnow sample_isoformat sample_repr
                    (VStr "ssh") "AnyTime" tt)). reflexivity.
  - apply (proj2 (build_query_no_day_count sample_utcnow sample_isoformat sample_repr
                    (VStr "ssh") "1h" tt)); [exact H1|reflexivity].
Defined.

Lemma build_query_days_witness :
  (numeral_value [7; 0]%nat <= 999999999)%Z /\
  (numeral_value [7; 0]%nat * us_per_day <= fst (sample_utcnow tt) <= datetime_max)%Z /\
  build_query_fn sample_utcnow sample_isoformat sample_repr (VStr "ssh") (VStr "70d") tt
  = (Ok (query_of_filters
           [time_window (sample_isoformat (unix_epoch - 70 * us_per_day))
                        (sample_isoformat unix_epoch);
            query_string_clause (VStr "ssh")]), tt).
Proof.
  assert (Hn : (numeral_value [7; 0]%nat <= 999999999)%Z) by (vm_compute; discriminate).
  assert (Hc : (numeral_value [7; 0]%nat * us_per_day <= fst (sample_utcnow tt)
                <= datetime_max)%Z) by (split; vm_compute; discriminate).
  split; [exact Hn|]. split; [exact Hc|].
  apply (build_query_days sample_utcnow sample_isoformat sample_repr (VStr "ssh") [7; 0]%nat tt);
    [discriminate|repeat constructor|exact Hn|exact Hc].
Defined.

Lemma search_hits_all_or_nothing_witness :
  search_hits sample_client (VDict []) "wazuh-alerts-*" tt
  = (Ok (VList [VDict [("agent", VDict [("name", VStr "web-01")])]]), tt).
Proof.
  apply (proj1 (search_hits_all_or_nothing sample_client (VDict []) "wazuh-alerts-*" tt tt
                  _ [sample_hit] eq_refl
                  (ex_intro _ _ (ex_intro _ _ (conj eq_refl (conj eq_refl eq_refl)))))).
  repeat constructor.
Defined.

(** A window that holds a [d] without being a day count makes
    [build_query] raise, after the clock was read. *)
Example build_query_today :
  build_query_fn sample_utcnow sample_isoformat sample_repr (VStr "ssh") (VStr "today") tt
  = (Raise (Exn ValueError "invalid literal for int() with base 10: 'toay'"), tt).
Proof. reflexivity. Qed.

(** A response with one hit that lacks its document. *)
Example one_bad_hit_empties_the_result :
  search_hits (fun _ _ w => (Ok (VDict [("hits", VDict [("hits",
                 VList [sample_hit; VDict [("_id", VStr "7")]])])]), w))
              (VDict []) "wazuh-alerts-*" tt
  = (Ok (VList []), tt).
Proof. reflexivity. Qed.

(** ** The audit log *)

Lemma json_serializable_app xs ys :
  json_serializable (VList (xs ++ ys))
  = json_serializable (VList xs) && json_serializable (VList ys).
Proof. cbn [json_serializable]. apply forallb_app. Qed.

Section AuditFacts.

Context {W : Type}.
Variable now_isoformat : W -> string * W.
Variable py_repr : value -> string.

Local Abbreviation log_step := (log_step now_isoformat py_repr).
Local Abbreviation audit_entry := (audit_entry py_repr).
Local Abbreviation logger_world := (@logger_world W).

Lemma audit_entry_serializable ts step_name status data error :
  json_serializable (audit_entry ts step_name status data error)
  = json_serializable step_name && json_serializable status && json_serializable data.
Proof.
  unfold audit_entry. destruct (py_truthy error);
    cbn [dict_set String.eqb Ascii.eqb Bool.eqb json_serializable forallb snd];
    rewrite ?andb_true_r; now rewrite ?andb_assoc.
Qed.

(** What [append_audit_entry] does with a log it can extend. *)
Lemma append_audit_entry_entries entry (s : logger_world) entries :
  audit_entries (audit s) = Some entries ->
  append_audit_entry entry s
  = if json_serializable (VList (entries ++ [entry])) then
      (Ok tt, set_audit (Document (VList (entries ++ [entry]))) s)
    else
      (Ok tt, log_line ERROR
                ("❌ Failed to write audit entry: "
                 ++ "Object of type function is not JSON serializable")
                (set_audit Malformed s)).
Proof.
  unfold append_audit_entry, _load_audit_file, _save_audit_file.
  destruct (audit s) as [|e| |v] eqn:Ea; try discriminate.
  - intros [= <-]. cbn [res_bind py_append app].
    destruct (json_serializable (VList [entry])); reflexivity.
  - destruct v as [| | | |xs| |]; try discriminate. intros [= <-].
    cbn [res_bind py_append].
    destruct (json_serializable (VList (xs ++ [entry]))); reflexivity.
Qed.

(** X18.  On an audit log that holds a list of entries that can be
    written back, or that does not exist yet, [log_step] with a step name,
    a status and data that [json.dumps] accepts does not raise and adds
    exactly one entry at the end: the entries that were there are kept, in
    their order, and the new one carries the time read from the clock, the
    step name, the status and the data. *)
Theorem log_step_appends step_name status data error (s : logger_world) entries :
  audit_entries (audit s) = Some entries ->
  json_serializable (VList entries) = true ->
  json_serializable (VList [step_name; status; data]) = true ->
  exists s',
    log_step step_name status data error s = (Ok tt, s') /\
    audit s'
    = Document (VList (entries ++ [audit_entry (fst (now_isoformat (outside s)))
                                     step_name status data error])) /\
    outside s' = snd (now_isoformat (outside s)).
Proof.
  intros He Hs Hargs. unfold log_step.
  destruct (now_isoformat (outside s)) as [ts x]. cbn [fst snd].
  rewrite (append_audit_entry_entries _ _ entries) by exact He.
  rewrite json_serializable_app, Hs.
  cbn [json_serializable forallb andb] in Hargs |- *.
  rewrite audit_entry_serializable. rewrite andb_true_r in Hargs.
  rewrite andb_assoc in Hargs. rewrite Hargs. cbn [andb].
  eexists. split; [reflexivity|].
  destruct (py_eqb status (VStr "success")); [|destruct (py_eqb status (VStr "in_progress"))];
    split; reflexivity.
Qed.

Ltac finish_log_step status :=
  eexists; (split; [reflexivity|]);
  destruct (py_eqb status (VStr "success"));
    [|destruct (py_eqb status (VStr "in_progress"))];
  (split; [reflexivity|]); (split; [reflexivity|]);
  eexists; cbn [log_line console set_audit]; rewrite <- ?app_assoc;
  (split; [reflexivity|cbn; discriminate]).

(** What [log_step] leaves in the audit file and on the console. *)
Lemma log_step_audit step_name status data error (s : logger_world) :
  exists s',
    log_step step_name status data error s = (Ok tt, s') /\
    outside s' = snd (now_isoformat (outside s)) /\
    audit s'
    = (let entry := audit_entry (fst (now_isoformat (outside s)))
                      step_name status data error in
       match audit s with
       | Unreadable e => Unreadable e
       | NoFile | Malformed =>
           if json_serializable entry then Document (VList [entry]) else Malformed
       | Document (VList entries) =>
           if json_serializable (VList (entries ++ [entry]))
           then Document (VList (entries ++ [entry])) else Malformed
       | Document v => Document v
       end) /\
    exists lines, console s' = (console s ++ lines)%list /\ lines <> [].
Proof.
  unfold log_step. destruct (now_isoformat (outside s)) as [ts x]. cbn [fst snd].
  unfold append_audit_entry, _load_audit_file, _save_audit_file.
  cbn [audit]. cbv zeta.
  assert (Hone : forall entry, json_serializable (VList [entry]) = json_serializable entry).
  { intros entry. cbn [json_serializable forallb]. apply andb_true_r. }
  destruct (audit s) as [|e| |v]; cbn [res_bind py_append app log_line audit].
  - rewrite Hone. destruct (json_serializable (audit_entry ts _ _ _ _));
      finish_log_step status.
  - finish_log_step status.
  - rewrite Hone. destruct (json_serializable (audit_entry ts _ _ _ _));
      finish_log_step status.
  - destruct v as [| | | |xs| |]; cbn [res_bind py_append];
      try finish_log_step status.
    destruct (json_serializable (VList (xs ++ [audit_entry ts _ _ _ _])));
      finish_log_step status.
Qed.

(** X19.  One payload that [json.dumps] rejects costs the whole audit
    log.  [log_step] with such data does not raise, but it leaves the file
    without a document in it, whatever entries it held; and the next
    [log_step], with a step name, a status and data that can be written,
    starts the log anew: the file then holds that one entry. *)
Theorem unserializable_data_erases_audit_log
    step1 status1 data1 error1 step2 status2 data2 error2 (s : logger_world) entries :
  audit_entries (audit s) = Some entries ->
  json_serializable data1 = false ->
  json_serializable (VList [step2; status2; data2]) = true ->
  exists s1 s2,
    log_step step1 status1 data1 error1 s = (Ok tt, s1) /\
    audit s1 = Malformed /\
    log_step step2 status2 data2 error2 s1 = (Ok tt, s2) /\
    audit s2 = Document (VList [audit_entry (fst (now_isoformat (outside s1)))
                                  step2 status2 data2 error2]).
Proof.
  intros He Hbad Hgood.
  destruct (log_step_audit step1 status1 data1 error1 s) as (s1 & H1 & _ & Ha1 & _).
  destruct (log_step_audit step2 status2 data2 error2 s1) as (s2 & H2 & _ & Ha2 & _).
  exists s1, s2. split; [exact H1|].
  assert (Hm : audit s1 = Malformed).
  { rewrite Ha1. cbv zeta.
    assert (Hentry : json_serializable
                       (audit_entry (fst (now_isoformat (outside s)))
                          step1 status1 data1 error1) = false).
    { rewrite audit_entry_serializable, Hbad. apply andb_false_r. }
    destruct (audit s) as [|e| |v]; try discriminate.
    - now rewrite Hentry.
    - destruct v as [| | | |xs| |]; try discriminate.
      rewrite json_serializable_app. cbn [json_serializable forallb] in *.
      rewrite Hentry. cbn [andb]. now rewrite andb_false_r. }
  split; [exact Hm|]. split; [exact H2|].
  rewrite Ha2, Hm. cbv zeta. rewrite audit_entry_serializable.
  cbn [json_serializable forallb] in Hgood. rewrite andb_true_r, andb_assoc in Hgood.
  now rewrite Hgood.
Qed.

(** X20.  An audit file that cannot be read, or that holds a JSON
    document other than a list, silences the audit log: [log_step] does not
    raise and leaves the file exactly as it is, so every later entry is
    dropped as well. *)
Theorem blocked_audit_log_stays_blocked step_name status data error (s : logger_world) :
  audit_blocked (audit s) = true ->
  exists s',
    log_step step_name status data error s = (Ok tt, s') /\
    audit s' = audit s /\ audit_blocked (audit s') = true.
Proof.
  intros Hb.
  destruct (log_step_audit step_name status data error s) as (s' & H & _ & Ha & _).
  exists s'. split; [exact H|].
  assert (Heq : audit s' = audit s).
  { rewrite Ha. cbv zeta. destruct (audit s) as [|e| |v]; try discriminate; auto.
    destruct v; try discriminate; reflexivity. }
  split; [exact Heq|]. now rewrite Heq.
Qed.

(** X21.  [log_step] never raises, whatever it is given and whatever
    state the audit file is in; it reads the clock once; and it never
    removes a line from the console. *)
Theorem log_step_never_raises step_name status data error (s : logger_world) :
  exists s' lines,
    log_step step_name status data error s = (Ok tt, s') /\
    outside s' = snd (now_isoformat (outside s)) /\
    console s' = (console s ++ lines)%list /\ lines <> [].
Proof.
  destruct (log_step_audit step_name status data error s)
    as (s' & H & Ho & _ & lines & Hc & Hl).
  exists s', lines. auto.
Qed.

End AuditFacts.

(** *** The audit log on samples *)

Lemma log_step_appends_witness :
  let s := LoggerWorld (Document (VList [VStr "earlier entry"])) [] 0 in
  audit_entries (audit s) = Some [VStr "earlier entry"] /\
  json_serializable (VList [VStr "earlier entry"]) = true /\
  json_serializable (VList [VStr "plan_generation"; VStr "success"; VInt 3]) = true /\
  exists s',
    log_step sample_clock sample_repr (VStr "plan_generation") (VStr "success") (VInt 3)
      VNone s = (Ok tt, s') /\
    audit s'
    = Document (VList [VStr "earlier entry";
                       VDict [("timestamp", VStr "2025-01-01T00:00:00");
                              ("step", VStr "plan_generation");
                              ("status", VStr "success"); ("data", VInt 3)]]).
Proof.
  cbv zeta. split; [reflexivity|]. split; [reflexivity|]. split; [reflexivity|].
  destruct (log_step_appends sample_clock sample_repr
              (VStr "plan_generation") (VStr "success") (VInt 3) VNone
              (LoggerWorld (Document (VList [VStr "earlier entry"])) [] 0)
              [VStr "earlier entry"] eq_refl eq_refl eq_refl)
    as (s' & H & Ha & _).
  exists s'. split; assumption.
Defined.

Lemma unserializable_data_erases_audit_log_witness :
  let s := LoggerWorld (Document (VList [VStr "earlier entry"])) [] 0 in
  audit_entries (audit s) = Some [VStr "earlier entry"] /\
  json_serializable (VObj 0) = false /\
  json_serializable (VList [VStr "report_generation"; VStr "success"; VNone]) = true /\
  exists s1 s2,
    log_step sample_clock sample_repr (VStr "plan_execution") (VStr "success") (VObj 0)
      VNone s = (Ok tt, s1) /\
    audit s1 = Malformed /\
    log_step sample_clock sample_repr (VStr "report_generation") (VStr "success") VNone
      VNone s1 = (Ok tt, s2) /\
    audit s2
    = Document (VList [audit_entry sample_repr (fst (sample_clock (outside s1)))
                         (VStr "report_generation") (VStr "success") VNone VNone]).
Proof.
  cbv zeta. split; [reflexivity|]. split; [reflexivity|]. split; [reflexivity|].
  exact (unserializable_data_erases_audit_log sample_clock sample_repr
           (VStr "plan_execution") (VStr "success") (VObj 0) VNone
           (VStr "report_generation") (VStr "success") VNone VNone
           (LoggerWorld (Document (VList [VStr "earlier entry"])) [] 0)
           [VStr "earlier entry"] eq_refl eq_refl eq_refl).
Defined.

Lemma blocked_audit_log_stays_blocked_witness :
  let s := LoggerWorld (Document (VDict [])) [] 0 in
  audit_blocked (audit s) = true /\
  exists s',
    log_step sample_clock sample_repr (VStr "orchestration") (VStr "failed") VNone VNone s
    = (Ok tt, s') /\
    audit s' = audit s /\ audit_blocked (audit s') = true.
Proof.
  cbv zeta. split; [reflexivity|].
  exact (blocked_audit_log_stays_blocked sample_clock sample_repr
           (VStr "orchestration") (VStr "failed") VNone VNone
           (LoggerWorld (Document (VDict [])) [] 0) eq_refl).
Defined.

(** The log of a first step, and the console. *)
Example first_log_step :
  log_step sample_clock sample_repr (VStr "plan_generation") (VStr "in_progress")
    (VDict [("goal", VStr "failed ssh logins")]) VNone (LoggerWorld NoFile [] 0)
  = (Ok tt,
     LoggerWorld
       (Document (VList [VDict [("timestamp", VStr "2025-01-01T00:00:00");
                                ("step", VStr "plan_generation");
                                ("status", VStr "in_progress");
                                ("data", VDict [("goal", VStr "failed ssh logins")])]]))
       [(INFO, "⏳ [plan_generation] started...")] 1).
Proof. reflexivity. Qed.

(** ** Reading the planner's answer *)

Lemma is_prefix_app p rest : is_prefix p (p ++ rest) = true.
Proof.
  induction p as [|c p IH]; [reflexivity|].
  cbn [append is_prefix]. now rewrite Ascii.eqb_refl, IH.
Qed.

Lemma str_drop_app p rest : str_drop (String.length p) (p ++ rest) = rest.
Proof. induction p as [|c p IH]; [reflexivity|exact IH]. Qed.

Lemma is_prefix_head c p a s :
  Ascii.eqb a c = false -> is_prefix (String c p) (String a s) = false.
Proof. intros H. cbn [is_prefix]. now rewrite Ascii.eqb_sym, H. Qed.

Lemma after_first_skip c p pre rest :
  has_char c pre = false ->
  after_first (String c p) (pre ++ String c p ++ rest) = Some rest.
Proof.
  induction pre as [|a pre IH]; intros H.
  - cbn [append after_first]. change (String c (p ++ rest)) with (String c p ++ rest).
    now rewrite is_prefix_app, str_drop_app.
  - cbn [has_char] in H. apply orb_false_elim in H as [Ha Hp].
    change ((String a pre) ++ String c p ++ rest) with (String a (pre ++ String c p ++ rest)).
    cbn [after_first]. rewrite (is_prefix_head c p a _ Ha). auto.
Qed.

Lemma before_first_skip c p body rest :
  has_char c body = false ->
  before_first (String c p) (body ++ String c p ++ rest) = Some body.
Proof.
  induction body as [|a body IH]; intros H.
  - cbn [append before_first]. change (String c (p ++ rest)) with (String c p ++ rest).
    now rewrite is_prefix_app.
  - cbn [has_char] in H. apply orb_false_elim in H as [Ha Hp].
    change ((String a body) ++ String c p ++ rest)
      with (String a (body ++ String c p ++ rest)).
    cbn [before_first]. rewrite (is_prefix_head c p a _ Ha), (IH Hp). reflexivity.
Qed.

Lemma after_first_none c p s :
  has_char c s = false -> after_first (String c p) s = None.
Proof.
  induction s as [|a s IH]; intros H; [reflexivity|].
  cbn [has_char] in H. apply orb_false_elim in H as [Ha Hs].
  cbn [after_first]. rewrite (is_prefix_head c p a _ Ha). auto.
Qed.

Lemma after_first_absent p s : is_substring p s = false -> after_first p s = None.
Proof.
  induction s as [|a s IH]; intros H.
  - destruct p; [discriminate|reflexivity].
  - cbn [is_substring] in H. apply orb_false_elim in H as [Hp Hs].
    destruct p as [|c p]; [discriminate|].
    cbn [after_first]. rewrite Hp. auto.
Qed.

Lemma from_first_skip c pre rest :
  has_char c pre = false -> from_first c (pre ++ String c rest) = Some (String c rest).
Proof.
  induction pre as [|a pre IH]; intros H.
  - cbn [append from_first]. now rewrite Ascii.eqb_refl.
  - cbn [has_char] in H. apply orb_false_elim in H as [Ha Hp].
    cbn [append from_first]. rewrite Ha. auto.
Qed.

Lemma upto_last_none c s : has_char c s = false -> upto_last c s = None.
Proof.
  induction s as [|a s IH]; intros H; [reflexivity|].
  cbn [has_char] in H. apply orb_false_elim in H as [Ha Hs].
  cbn [upto_last]. now rewrite (IH Hs), Ha.
Qed.

Lemma upto_last_app c mid post :
  has_char c post = false ->
  upto_last c (mid ++ String c post) = Some (mid ++ String c EmptyString).
Proof.
  intros H. induction mid as [|a mid IH].
  - cbn [append upto_last]. now rewrite (upto_last_none c post H), Ascii.eqb_refl.
  - cbn [append upto_last]. now rewrite IH.
Qed.

Lemma from_first_none c s : has_char c s = false -> from_first c s = None.
Proof.
  induction s as [|a s IH]; intros H; [reflexivity|].
  cbn [has_char] in H. apply orb_false_elim in H as [Ha Hs].
  cbn [from_first]. rewrite Ha. auto.
Qed.

Lemma str_drop_has d n s : has_char d s = false -> has_char d (str_drop n s) = false.
Proof.
  revert s. induction n as [|n IH]; intros s H; [exact H|].
  destruct s as [|a s]; [reflexivity|].
  cbn [has_char] in H. apply orb_false_elim in H as [_ Hs]. cbn [str_drop]. auto.
Qed.

Lemma after_first_has d p s r :
  has_char d s = false -> after_first p s = Some r -> has_char d r = false.
Proof.
  induction s as [|a s IH]; intros H.
  - cbn [after_first]. destruct (is_prefix p ""); [|discriminate].
    intros [= <-]. now apply str_drop_has.
  - cbn [after_first]. destruct (is_prefix p (String a s)).
    + intros [= <-]. now apply str_drop_has.
    + cbn [has_char] in H. apply orb_false_elim in H as [_ Hs]. auto.
Qed.

Lemma before_first_has d p s b :
  has_char d s = false -> before_first p s = Some b -> has_char d b = false.
Proof.
  revert b. induction s as [|a s IH]; intros b H.
  - cbn [before_first]. destruct (is_prefix p ""); [|discriminate]. now intros [= <-].
  - cbn [before_first]. destruct (is_prefix p (String a s)); [now intros [= <-]|].
    cbn [has_char] in H. apply orb_false_elim in H as [Ha Hs].
    destruct (before_first p s) as [b'|]; [|discriminate].
    intros [= <-]. cbn [has_char]. now rewrite Ha, (IH b' Hs eq_refl).
Qed.

Lemma from_first_has d c s t :
  has_char d s = false -> from_first c s = Some t -> has_char d t = false.
Proof.
  induction s as [|a s IH]; intros H; [discriminate|].
  cbn [from_first]. destruct (Ascii.eqb a c); [now intros [= <-]|].
  cbn [has_char] in H. apply orb_false_elim in H as [_ Hs]. auto.
Qed.

(** Without an opening or without a closing brace nothing is found. *)
Lemma braced_none s :
  has_char "{" s = false \/ has_char "}" s = false -> braced s = None.
Proof.
  unfold braced. intros [H|H].
  - now rewrite (from_first_none _ _ H).
  - destruct (from_first "{" s) as [[|b rest]|] eqn:E; try reflexivity.
    pose proof (from_first_has _ _ _ _ H E) as Hr.
    cbn [has_char] in Hr. apply orb_false_elim in Hr as [_ Hr].
    now rewrite (upto_last_none _ _ Hr).
Qed.

Lemma fenced_block_has d text body :
  has_char d text = false -> fenced_block text = Some body -> has_char d body = false.
Proof.
  unfold fenced_block. intros H.
  destruct (after_first "```json" text) as [rest|] eqn:E; [|discriminate].
  intros Hb. eapply before_first_has; [|exact Hb]. eapply after_first_has; eauto.
Qed.

Section PlannerFacts.

Variable json_loads : string -> res value.

Local Abbreviation extract_json_from_text := (extract_json_from_text json_loads).

(** X22.  Of an answer that holds a fenced block, only the block counts:
    when neither the text before the opening fence nor the block holds a
    backquote, [extract_json_from_text] reads the answer as it reads the
    block alone, whatever follows the closing fence. *)
Theorem extract_json_reads_fenced_block pre body post :
  has_char "`" pre = false -> has_char "`" body = false ->
  extract_json_from_text (pre ++ "```json" ++ body ++ "```" ++ post)
  = extract_json_from_text body.
Proof.
  intros Hpre Hbody. unfold extract_json_from_text, fenced_block.
  rewrite (after_first_skip "`" "``json" pre _ Hpre).
  rewrite (before_first_skip "`" "``" body _ Hbody).
  now rewrite (after_first_none "`" "``json" body Hbody).
Qed.

(** X23.  In an answer without opening fence, [extract_json_from_text]
    hands to [json.loads] the text from the first opening brace to the
    last closing brace, braces included: what stands before the first
    opening brace and after the last closing one is dropped, and what
    stands between them is kept whole, further braces and all. *)
Theorem extract_json_spans_braces pre mid post :
  is_substring "```json" (pre ++ "{" ++ mid ++ "}" ++ post) = false ->
  has_char "{" pre = false -> has_char "}" post = false ->
  extract_json_from_text (pre ++ "{" ++ mid ++ "}" ++ post)
  = json_loads ("{" ++ mid ++ "}").
Proof.
  intros Hfence Hpre Hpost. unfold extract_json_from_text, fenced_block.
  rewrite (after_first_absent _ _ Hfence). unfold braced.
  change ("{" ++ mid ++ "}" ++ post) with (String "{" (mid ++ String "}" post)).
  rewrite (from_first_skip "{" pre _ Hpre), (upto_last_app "}" mid post Hpost).
  reflexivity.
Qed.

(** X24.  An answer without an opening brace, or without a closing one,
    makes [extract_json_from_text] raise [ValueError] with the message
    "No JSON found in model output."; what [json.loads] would do plays no
    part. *)
Theorem extract_json_without_braces text :
  has_char "{" text = false \/ has_char "}" text = false ->
  extract_json_from_text text
  = Raise (Exn ValueError "No JSON found in model output.").
Proof.
  intros H. unfold extract_json_from_text.
  destruct (fenced_block text) as [body|] eqn:E.
  - rewrite braced_none; [reflexivity|].
    destruct H as [H|H]; [left|right]; eapply fenced_block_has; eauto.
  - now rewrite braced_none.
Qed.

End PlannerFacts.

(** *** Answers of the planner's model, on samples *)

Lemma extract_json_reads_fenced_block_witness :
  has_char "`" "Here is the plan: " = false /\
  has_char "`" "{1}" = false /\
  extract_json_from_text sample_loads "Here is the plan: ```json{1}``` Good {luck}."
  = extract_json_from_text sample_loads "{1}".
Proof.
  split; [reflexivity|]. split; [reflexivity|].
  exact (extract_json_reads_fenced_block sample_loads
           "Here is the plan: " "{1}" " Good {luck}." eq_refl eq_refl).
Defined.

Lemma extract_json_spans_braces_witness :
  is_substring "```json" "Plan: {1} and then {2}, in this order." = false /\
  has_char "{" "Plan: " = false /\ has_char "}" ", in this order." = false /\
  extract_json_from_text sample_loads "Plan: {1} and then {2}, in this order."
  = sample_loads "{1} and then {2}".
Proof.
  split; [reflexivity|]. split; [reflexivity|]. split; [reflexivity|].
  exact (extract_json_spans_braces sample_loads
           "Plan: " "1} and then {2" ", in this order." eq_refl eq_refl eq_refl).
Defined.

Lemma extract_json_without_braces_witness :
  (has_char "{" "I cannot plan this." = false \/ has_char "}" "I cannot plan this." = false) /\
  extract_json_from_text sample_loads "I cannot plan this."
  = Raise (Exn ValueError "No JSON found in model output.").
Proof.
  assert (H : has_char "{" "I cannot plan this." = false \/
              has_char "}" "I cannot plan this." = false) by (left; reflexivity).
  split; [exact H|].
  exact (extract_json_without_braces sample_loads "I cannot plan this." H).
Defined.

(** An opening fence that is never closed is no fence: the braces are
    looked for in the whole answer. *)
Example unclosed_fence :
  extract_json_from_text sample_loads "```json {1}" = Ok (VStr "{1}").
Proof. reflexivity. Qed.

(** ** The orchestrator and its MCP wrapper *)

Section OrchestratorFacts.

Context {W R : Type}.
Variable tools : tool -> list (string * value) -> W -> res value * W.
Variable py_repr : value -> string.
Variable strftime_now : W -> string.
Variable generate_plan : value -> W -> res value * W.
Variable generate_report_from_results : value -> pyobj -> W -> res value * W.
Variable log_step : string -> string -> pyobj -> W -> W.
Variable JSONResponse : pyobj -> Z -> res R.
Variable decode_body : R -> res value.
Variable response_str : R -> string.
Variable format_exc : exn -> string.

Local Abbreviation run_full_analysis :=
  (run_full_analysis tools py_repr strftime_now generate_plan
     generate_report_from_results log_step JSONResponse).
Local Abbreviation run_cyber_investigation :=
  (run_cyber_investigation tools py_repr strftime_now generate_plan
     generate_report_from_results log_step JSONResponse decode_body response_str
     format_exc).
Local Abbreviation world := (@world W).

Lemma read_user_input_lacking body :
  lacks_input body = true -> read_user_input body = Ok VNone /\ isinstance_dict body = true.
Proof.
  destruct body as [| | | | |d|]; try discriminate. cbn [lacks_input].
  intros H. apply andb_prop in H as [Ha Hb].
  apply negb_true_iff in Ha, Hb.
  unfold read_user_input. cbn [py_get res_bind]. rewrite Ha. cbn [res_bind].
  rewrite Hb. split; reflexivity.
Qed.

Lemma request_without_input_rejected request_json (w : world) :
  lacks_input (request_body request_json) = true ->
  run_full_analysis request_json w
  = (JSONResponse
       (failure_content "Missing 'user_input' or 'input' in request payload"
          [("received", request_body request_json)]) 400,
     World (calls w)
       (log_step "orchestration" "failed"
          (PValue (VDict [("error", VStr "Missing user_input or input")])) (ext w))).
Proof.
  intros H. destruct (read_user_input_lacking _ H) as [Hr _].
  unfold run_full_analysis. fold (request_body request_json).
  unfold bind at 1. unfold lift at 1. rewrite Hr. reflexivity.
Qed.

(** X25.  A request without usable input is turned away before anything
    is planned or executed.  When the body cannot be parsed, or is an
    object whose ["user_input"] and ["input"] are both missing or empty,
    [run_full_analysis] answers with status code 400 and a failure content
    that echoes the body; the planner is not asked, no tool is called, and
    the one thing that happens to the world is the audit entry. *)
Theorem request_without_input_is_rejected request_json (w : world) :
  lacks_input (request_body request_json) = true ->
  run_full_analysis request_json w
  = (JSONResponse
       (failure_content "Missing 'user_input' or 'input' in request payload"
          [("received", request_body request_json)]) 400,
     World (calls w)
       (log_step "orchestration" "failed"
          (PValue (VDict [("error", VStr "Missing user_input or input")])) (ext w))).
Proof. apply request_without_input_rejected. Qed.

(** X26.  A body that is valid JSON but no object is not handled: the
    lookup of ["user_input"] raises [AttributeError] out of
    [run_full_analysis], with the world untouched.  In particular a body
    that is a JSON string is never taken as the input itself, although the
    expression of lines 59-63 provides for it. *)
Theorem request_body_not_an_object_raises body (w : world) :
  isinstance_dict body = false ->
  run_full_analysis (Ok body) w = (Raise (no_attribute body "get"), w).
Proof.
  intros H. unfold run_full_analysis. unfold bind at 1. unfold lift at 1.
  destruct body; try discriminate; reflexivity.
Qed.

(** The run up to the planner's answer. *)
Lemma run_full_analysis_planned request_json user_input (w : world) :
  read_user_input (request_body request_json) = Ok user_input ->
  py_truthy user_input = true ->
  run_full_analysis request_json w
  = let w0 := World (calls w)
                (log_step "plan_generation" "in_progress"
                   (PValue (VDict [("goal", user_input)])) (ext w)) in
    match generate_plan user_input (ext w0) with
    | (Raise e, x) =>
        (JSONResponse (failure_content ("Planner error: " ++ exn_str e) []) 500,
         World (calls w)
           (log_step "plan_generation" "failed"
              (PValue (VDict [("error", VStr (exn_str e))])) x))
    | (Ok plan_data, x) =>
        match py_get plan_data "status" VNone with
        | Raise e => (Raise e, World (calls w) x)
        | Ok plan_status =>
            if negb (py_truthy plan_status) then
              (JSONResponse (failure_content "Planner failed" [("details", plan_data)]) 500,
               World (calls w) (log_step "plan_generation" "failed" (PValue plan_data) x))
            else
              execute_and_report tools py_repr strftime_now generate_report_from_results
                log_step JSONResponse user_input plan_data (World (calls w) x)
        end
    end.
Proof.
  intros Hr Ht. unfold run_full_analysis. fold (request_body request_json).
  unfold bind at 1. unfold lift at 1. rewrite Hr, Ht. cbn [negb].
  unfold bind at 1. unfold logged at 1. cbv zeta. unfold outside_call. cbn [ext calls].
  destruct (generate_plan user_input _) as [[plan_data|e] x]; [|reflexivity].
  unfold bind at 1. unfold lift at 1.
  destruct (py_get plan_data "status" VNone) as [st|e]; [|reflexivity].
  destruct (py_truthy st); reflexivity.
Qed.

(** X27.  A planner that fails stops the run before anything is
    executed.  When [generate_plan] raises, the answer is the failure
    "Planner error: ..." with status code 500; when it returns a dict whose
    ["status"] is missing or falsy, the answer is the failure "Planner
    failed" with the planner's answer as details and status code 500.  In
    both cases no tool has been called. *)
Theorem planner_failure_stops_the_run request_json user_input (w : world) :
  read_user_input (request_body request_json) = Ok user_input ->
  py_truthy user_input = true ->
  let x0 := log_step "plan_generation" "in_progress"
              (PValue (VDict [("goal", user_input)])) (ext w) in
  (forall e x,
      generate_plan user_input x0 = (Raise e, x) ->
      run_full_analysis request_json w
      = (JSONResponse (failure_content ("Planner error: " ++ exn_str e) []) 500,
         World (calls w)
           (log_step "plan_generation" "failed"
              (PValue (VDict [("error", VStr (exn_str e))])) x))) /\
  (forall pd x,
      generate_plan user_input x0 = (Ok (VDict pd), x) ->
      py_truthy (match dict_get "status" pd with Some v => v | None => VNone end) = false ->
      run_full_analysis request_json w
      = (JSONResponse (failure_content "Planner failed" [("details", VDict pd)]) 500,
         World (calls w) (log_step "plan_generation" "failed" (PValue (VDict pd)) x))).
Proof.
  intros Hr Ht x0. split.
  - intros e x Hg. rewrite (run_full_analysis_planned _ _ _ Hr Ht). cbv zeta.
    cbn [ext]. fold x0. now rewrite Hg.
  - intros pd x Hg Hs. rewrite (run_full_analysis_planned _ _ _ Hr Ht). cbv zeta.
    cbn [ext]. fold x0. rewrite Hg. cbn [py_get]. now rewrite Hs.
Qed.

(** From the result of the execution to the response: whatever the report
    generator answers, the response is made of the combined result, with
    status code 200. *)
Lemma report_and_respond_answer user_input pd task_results aggregated_results (w : world) :
  (forall goal content x, report_answer (fst (generate_report_from_results goal content x))) ->
  exists combined w',
    report_and_respond strftime_now generate_report_from_results log_step JSONResponse
      user_input (VDict pd) task_results aggregated_results w
    = (JSONResponse (PDict combined) 200, w') /\
    calls w' = calls w /\
    dict_get "status" combined = Some (PValue (VBool true)) /\
    dict_get "plan" combined
    = Some (PValue (match dict_get "plan" pd with Some v => v | None => VNone end)) /\
    dict_get "task_results" combined = Some (PValue (VList task_results)) /\
    dict_get "aggregated_results" combined = Some (PCache aggregated_results) /\
    (dict_mem "formatted_report" combined = true \/
     dict_mem "report_generation_error" combined = true).
Proof.
  intros Hrep. unfold report_and_respond.
  unfold bind at 1. unfold bind at 1. unfold lift at 1. cbn [py_get].
  unfold bind at 1. unfold lift at 1.
  unfold bind at 1. unfold logged at 1.
  unfold bind at 1. unfold lift at 1.
  unfold bind at 1. unfold try_except, outside_call. unfold bind at 1. cbn [ext calls].
  match goal with
  | |- context [generate_report_from_results ?g ?c ?x] =>
      specialize (Hrep g c x); destruct (generate_report_from_results g c x) as [[rr|e] x1]
  end; cbn [fst] in Hrep.
  - destruct rr as [| | | | |rd|]; try contradiction.
    unfold ret at 1. unfold bind at 1. unfold lift at 1. cbn [py_get].
    destruct (py_truthy (match dict_get "status" rd with Some v => v | None => VNone end)) eqn:Es.
    + cbn [report_answer] in Hrep. specialize (Hrep Es).
      destruct (dict_get "report" rd) as [report|] eqn:Er; [|contradiction].
      unfold bind at 1. unfold bind at 1. unfold lift at 1. cbn [py_getitem]. rewrite Er.
      unfold bind at 1. unfold logged at 1. unfold ret at 1.
      unfold bind at 1. unfold logged at 1. unfold respond, lift.
      do 2 eexists. split; [reflexivity|]. cbn [calls].
      repeat split; try reflexivity. left. reflexivity.
    + unfold bind at 1. unfold bind at 1. unfold lift at 1. cbn [py_get].
      unfold bind at 1. unfold logged at 1. unfold ret at 1.
      unfold bind at 1. unfold logged at 1. unfold respond, lift.
      do 2 eexists. split; [reflexivity|]. cbn [calls].
      repeat split; try reflexivity. right. reflexivity.
  - unfold bind at 1. unfold logged at 1. unfold ret at 1.
    unfold bind at 1. unfold lift at 1. cbn [py_get dict_get String.eqb Ascii.eqb Bool.eqb].
    cbn [py_truthy]. unfold bind at 1. unfold bind at 1. unfold lift at 1.
    unfold bind at 1. unfold logged at 1. unfold ret at 1.
    unfold bind at 1. unfold logged at 1. unfold respond, lift.
    do 2 eexists. split; [reflexivity|]. cbn [calls].
    repeat split; try reflexivity. right. reflexivity.
Qed.

(** The execution of a plan of well-formed tasks, between its audit
    entries. *)
Lemma execute_and_report_wf user_input pd pl plans (w : world) :
  dict_get "plan" pd = Some (VDict pl) ->
  dict_get "plans" pl = Some (VList plans) ->
  wf_plan plans = true ->
  let n := VInt (Z.of_nat (List.length plans)) in
  let w1 := World (calls w)
              (log_step "plan_execution" "in_progress" (PValue (VDict [("tasks", n)]))
                 (log_step "plan_generation" "success" (PValue (VDict [("plan_tasks", n)]))
                    (ext w))) in
  exists executed_at task_results aggregated_results w2,
    run_execution_plan tools py_repr strftime_now (VDict pl) w1
    = (Ok (RunDone executed_at task_results aggregated_results), w2) /\
    execute_and_report tools py_repr strftime_now generate_report_from_results
      log_step JSONResponse user_input (VDict pd) w
    = report_and_respond strftime_now generate_report_from_results log_step JSONResponse
        user_input (VDict pd) task_results aggregated_results
        (World (calls w2)
           (log_step "plan_execution" "success"
              (PRun (RunDone executed_at task_results aggregated_results)) (ext w2))).
Proof.
  intros Hplan Hplans Hwf n w1.
  destruct (run_execution_plan_wf tools py_repr strftime_now pl plans w1 Hplans Hwf)
    as (segs & cache & w2 & Hrun & _ & _).
  do 4 eexists. split; [exact Hrun|].
  unfold execute_and_report.
  assert (Hsize : plan_size (VDict pd) = Ok n).
  { unfold plan_size. cbn [py_get]. rewrite Hplan. cbn [res_bind py_get].
    rewrite Hplans. reflexivity. }
  rewrite Hsize.
  unfold bind at 1. unfold lift at 1.
  unfold bind at 1. unfold logged at 1.
  unfold bind at 1. unfold lift at 1.
  unfold bind at 1. unfold logged at 1. cbn [ext calls].
  unfold bind at 1. unfold lift at 1. cbn [py_getitem]. rewrite Hplan.
  fold w1. rewrite Hrun. reflexivity.
Qed.

(** X28.  Once the planner has answered with a plan of well-formed
    tasks, nothing that happens afterwards turns the answer into a failure:
    whatever the tools do, and whether the report generator returns a
    report, returns a failure or raises, [run_full_analysis] answers with
    status code 200 and a content with [status = True] that holds the
    plan, the trace and the aggregated results of the run of
    [run_execution_plan] on that plan, and either the report or the reason
    why there is none.  The tools are called by that run and by nothing
    else. *)
Theorem analysis_survives_failures request_json user_input pd pl plans x (w : world) :
  read_user_input (request_body request_json) = Ok user_input ->
  py_truthy user_input = true ->
  generate_plan user_input
    (log_step "plan_generation" "in_progress" (PValue (VDict [("goal", user_input)])) (ext w))
  = (Ok (VDict pd), x) ->
  py_truthy (match dict_get "status" pd with Some v => v | None => VNone end) = true ->
  dict_get "plan" pd = Some (VDict pl) ->
  dict_get "plans" pl = Some (VList plans) ->
  wf_plan plans = true ->
  (forall goal content x', report_answer (fst (generate_report_from_results goal content x'))) ->
  exists combined w' executed_at task_results aggregated_results w1 w2,
    run_full_analysis request_json w = (JSONResponse (PDict combined) 200, w') /\
    run_execution_plan tools py_repr strftime_now (VDict pl) w1
    = (Ok (RunDone executed_at task_results aggregated_results), w2) /\
    calls w1 = calls w /\ calls w' = calls w2 /\
    dict_get "status" combined = Some (PValue (VBool true)) /\
    dict_get "plan" combined = Some (PValue (VDict pl)) /\
    dict_get "task_results" combined = Some (PValue (VList task_results)) /\
    dict_get "aggregated_results" combined = Some (PCache aggregated_results) /\
    (dict_mem "formatted_report" combined = true \/
     dict_mem "report_generation_error" combined = true).
Proof.
  intros Hr Ht Hg Hs Hplan Hplans Hwf Hrep.
  destruct (execute_and_report_wf user_input pd pl plans (World (calls w) x)
              Hplan Hplans Hwf)
    as (at0 & trs & agg & w2 & Hrun & Hexec).
  match type of Hexec with
  | _ = report_and_respond _ _ _ _ _ _ _ _ ?w3 =>
      destruct (report_and_respond_answer user_input pd trs agg w3 Hrep)
        as (combined & w' & Hresp & Hcalls & Hst & Hpl & Htr & Hagg & Hreport)
  end.
  exists combined, w', at0, trs, agg. do 2 eexists.
  split.
  - rewrite (run_full_analysis_planned _ _ _ Hr Ht). cbv zeta. cbn [ext].
    rewrite Hg. cbn [py_get]. rewrite Hs. cbn [negb].
    rewrite Hexec. exact Hresp.
  - split; [exact Hrun|]. cbn [calls] in *. rewrite Hplan in Hpl. auto 10.
Qed.

(** X29.  Three answers of the planner that claim success without
    giving tasks, and what becomes of each.  A plan object without
    ["plans"] is run, found invalid by [run_execution_plan], and answered
    with the failure "Executor failed" and status code 500.  An answer
    without ["plan"] is answered with the failure "Executor error:
    'plan'" and status code 500.  A plan that is [null] is not handled:
    counting its tasks raises [AttributeError] out of
    [run_full_analysis], before any audit entry on the execution.  In none
    of the three cases is a tool called. *)
Theorem planner_answer_without_tasks request_json user_input pd x (w : world) :
  read_user_input (request_body request_json) = Ok user_input ->
  py_truthy user_input = true ->
  generate_plan user_input
    (log_step "plan_generation" "in_progress" (PValue (VDict [("goal", user_input)])) (ext w))
  = (Ok (VDict pd), x) ->
  py_truthy (match dict_get "status" pd with Some v => v | None => VNone end) = true ->
  let counted :=
    log_step "plan_execution" "in_progress" (PValue (VDict [("tasks", VInt 0)]))
      (log_step "plan_generation" "success" (PValue (VDict [("plan_tasks", VInt 0)])) x) in
  (forall pl,
      dict_get "plan" pd = Some (VDict pl) -> dict_get "plans" pl = None ->
      run_full_analysis request_json w
      = (JSONResponse
           (PDict [("status", PValue (VBool false));
                   ("error", PValue (VStr "Executor failed"));
                   ("details", PRun (RunInvalid "Invalid plan format"))]) 500,
         World (calls w)
           (log_step "plan_execution" "failed" (PRun (RunInvalid "Invalid plan format"))
              counted))) /\
  (dict_get "plan" pd = None ->
   run_full_analysis request_json w
   = (JSONResponse (failure_content "Executor error: 'plan'" []) 500,
      World (calls w)
        (log_step "plan_execution" "failed" (PValue (VDict [("error", VStr "'plan'")]))
           counted))) /\
  (dict_get "plan" pd = Some VNone ->
   run_full_analysis request_json w = (Raise (no_attribute VNone "get"), World (calls w) x)).
Proof.
  intros Hr Ht Hg Hs counted.
  assert (Hstart : run_full_analysis request_json w
                   = execute_and_report tools py_repr strftime_now
                       generate_report_from_results log_step JSONResponse
                       user_input (VDict pd) (World (calls w) x)).
  { rewrite (run_full_analysis_planned _ _ _ Hr Ht). cbv zeta. cbn [ext].
    rewrite Hg. cbn [py_get]. now rewrite Hs. }
  rewrite Hstart. unfold execute_and_report, plan_size. cbn [py_get].
  repeat split.
  - intros pl Hplan Hplans. rewrite Hplan. cbn [res_bind py_get]. rewrite Hplans.
    cbn [res_bind py_len List.length Z.of_nat].
    unfold bind at 1. unfold lift at 1.
    unfold bind at 1. unfold logged at 1.
    unfold bind at 1. unfold lift at 1.
    unfold bind at 1. unfold logged at 1. cbn [ext calls].
    unfold bind at 1. unfold lift at 1. cbn [py_getitem]. rewrite Hplan.
    unfold run_execution_plan. unfold bind at 1.
    assert (Hhas : (if py_truthy (VDict pl)
                    then lift (py_contains_str "plans" (VDict pl))
                    else ret false)
                   = (@ret W bool false)).
    { destruct pl as [|kv pl']; [reflexivity|].
      cbn [py_truthy py_contains_str]. unfold dict_mem. now rewrite Hplans. }
    rewrite Hhas. reflexivity.
  - intros Hplan. rewrite Hplan. cbn [res_bind py_get dict_get py_len List.length Z.of_nat].
    unfold bind at 1. unfold lift at 1.
    unfold bind at 1. unfold logged at 1.
    unfold bind at 1. unfold lift at 1.
    unfold bind at 1. unfold logged at 1. cbn [ext calls].
    unfold bind at 1. unfold lift at 1. cbn [py_getitem]. rewrite Hplan.
    reflexivity.
  - intros Hplan. rewrite Hplan. reflexivity.
Qed.

(** X30.  The MCP tool [run_cyber_investigation] never raises, and its
    own ["status"] tells only whether [run_full_analysis] returned a
    response, not whether the investigation went well: a response of any
    status code is wrapped with [status = True], and only an exception out
    of [run_full_analysis] gives [status = False].  So an empty
    [user_input], which the orchestrator turns away with status code 400,
    comes back with [status = True] around that failure, and neither the
    planner nor a tool is reached. *)
Theorem run_cyber_investigation_status user_input (w : world) :
  let w0 := World (calls w)
              (log_step "mcp_invocation" "started"
                 (PValue (VDict [("goal", user_input)])) (ext w)) in
  let request := Ok (VDict [("user_input", user_input)]) in
  (forall response w1,
      run_full_analysis request w0 = (Ok response, w1) ->
      run_cyber_investigation user_input w
      = (Ok (VDict [("status", VBool true);
                    ("result", response_data decode_body response_str response)]),
         World (calls w1)
           (log_step "mcp_invocation" "success"
              (PValue (VDict [("summary", VStr "Investigation completed")])) (ext w1)))) /\
  (forall e w1,
      run_full_analysis request w0 = (Raise e, w1) ->
      run_cyber_investigation user_input w
      = (Ok (VDict [("status", VBool false); ("error", VStr (exn_str e))]),
         World (calls w1)
           (log_step "mcp_invocation" "failed"
              (PValue (VDict [("error", VStr (exn_str e)); ("trace", VStr (format_exc e))]))
              (ext w1)))) /\
  (forall response,
      py_truthy user_input = false ->
      JSONResponse
        (failure_content "Missing 'user_input' or 'input' in request payload"
           [("received", VDict [("user_input", user_input)])]) 400 = Ok response ->
      fst (run_cyber_investigation user_input w)
      = Ok (VDict [("status", VBool true);
                   ("result", response_data decode_body response_str response)]) /\
      calls (snd (run_cyber_investigation user_input w)) = calls w).
Proof.
  cbv zeta.
  assert (Hok : forall response w1,
             run_full_analysis (Ok (VDict [("user_input", user_input)]))
               (World (calls w)
                  (log_step "mcp_invocation" "started"
                     (PValue (VDict [("goal", user_input)])) (ext w)))
             = (Ok response, w1) ->
             run_cyber_investigation user_input w
             = (Ok (VDict [("status", VBool true);
                           ("result", response_data decode_body response_str response)]),
                World (calls w1)
                  (log_step "mcp_invocation" "success"
                     (PValue (VDict [("summary", VStr "Investigation completed")]))
                     (ext w1)))).
  { intros response w1 H. unfold run_cyber_investigation.
    unfold bind at 1. unfold logged at 1. unfold try_except. unfold bind at 1.
    rewrite H. reflexivity. }
  split; [exact Hok|]. split.
  - intros e w1 H. unfold run_cyber_investigation.
    unfold bind at 1. unfold logged at 1. unfold try_except. unfold bind at 1.
    rewrite H. reflexivity.
  - intros response Hf Hresp.
    assert (Hlack : lacks_input (request_body (Ok (VDict [("user_input", user_input)]))) = true).
    { cbn. now rewrite Hf. }
    pose proof (request_without_input_rejected _
                  (World (calls w)
                     (log_step "mcp_invocation" "started"
                        (PValue (VDict [("goal", user_input)])) (ext w))) Hlack) as Hrej.
    cbn [request_body] in Hrej. rewrite Hresp in Hrej.
    rewrite (Hok _ _ Hrej). split; reflexivity.
Qed.

End OrchestratorFacts.

(** *** The orchestrator on samples *)

Lemma request_without_input_is_rejected_witness :
  lacks_input (request_body (Raise (Exn ValueError "Expecting value"))) = true /\
  run_full_analysis counting_tools sample_repr sample_now sample_planner sample_reporter
    silent_log_step sample_response (Raise (Exn ValueError "Expecting value")) (World [] 0)
  = (Ok (failure_content "Missing 'user_input' or 'input' in request payload"
           [("received", VDict [])], 400%Z),
     World [] 0).
Proof.
  split; [reflexivity|].
  exact (request_without_input_is_rejected counting_tools sample_repr sample_now
           sample_planner sample_reporter silent_log_step sample_response
           (Raise (Exn ValueError "Expecting value")) (World [] 0) eq_refl).
Defined.

Lemma request_body_not_an_object_raises_witness :
  isinstance_dict (VStr "find failed ssh logins") = false /\
  run_full_analysis counting_tools sample_repr sample_now sample_planner sample_reporter
    silent_log_step sample_response (Ok (VStr "find failed ssh logins")) (World [] 0)
  = (Raise (Exn AttributeError "'str' object has no attribute 'get'"), World [] 0).
Proof.
  split; [reflexivity|].
  exact (request_body_not_an_object_raises counting_tools sample_repr sample_now
           sample_planner sample_reporter silent_log_step sample_response
           (VStr "find failed ssh logins") (World [] 0) eq_refl).
Defined.

Lemma planner_failure_stops_the_run_witness :
  let request := Ok (VDict [("input", VStr "find failed ssh logins")]) in
  read_user_input (request_body request) = Ok (VStr "find failed ssh logins") /\
  py_truthy (VStr "find failed ssh logins") = true /\
  run_full_analysis counting_tools sample_repr sample_now unreachable_planner
    sample_reporter silent_log_step sample_response request (World [] 0)
  = (Ok (failure_content "Planner error: planner unreachable" [], 500%Z), World [] 0).
Proof.
  cbv zeta. split; [reflexivity|]. split; [reflexivity|].
  exact (proj1 (planner_failure_stops_the_run counting_tools sample_repr sample_now
                  unreachable_planner sample_reporter silent_log_step sample_response
                  (Ok (VDict [("input", VStr "find failed ssh logins")]))
                  (VStr "find failed ssh logins") (World [] 0) eq_refl eq_refl)
           (Exn ToolError "planner unreachable") 0 eq_refl).
Defined.

Lemma analysis_survives_failures_witness :
  let request := Ok (VDict [("user_input", VStr "find failed ssh logins")]) in
  read_user_input (request_body request) = Ok (VStr "find failed ssh logins") /\
  wf_plan dummy_plan = true /\
  (forall goal content x', report_answer (fst (unreachable_reporter goal content x'))) /\
  exists combined w',
    run_full_analysis counting_tools sample_repr sample_now sample_planner
      unreachable_reporter silent_log_step sample_response request (World [] 0)
    = (Ok (PDict combined, 200%Z), w') /\
    dict_get "status" combined = Some (PValue (VBool true)) /\
    (dict_mem "formatted_report" combined = true \/
     dict_mem "report_generation_error" combined = true).
Proof.
  cbv zeta. split; [reflexivity|]. split; [reflexivity|].
  assert (Hrep : forall goal content x',
             report_answer (fst (unreachable_reporter goal content x')))
    by (intros goal content x'; exact I).
  split; [exact Hrep|].
  destruct (analysis_survives_failures counting_tools sample_repr sample_now
              sample_planner unreachable_reporter silent_log_step sample_response
              (Ok (VDict [("user_input", VStr "find failed ssh logins")]))
              (VStr "find failed ssh logins") _ _ dummy_plan 0 (World [] 0)
              eq_refl eq_refl eq_refl eq_refl eq_refl eq_refl eq_refl Hrep)
    as (combined & w' & _ & _ & _ & _ & _ & Hrun & _ & _ & _ & Hst & _ & _ & _ & Hreport).
  exists combined, w'. auto.
Defined.

Lemma planner_answer_without_tasks_witness :
  let request := Ok (VDict [("user_input", VStr "find failed ssh logins")]) in
  read_user_input (request_body request) = Ok (VStr "find failed ssh logins") /\
  dict_get "plans" (@nil (string * value)) = None /\
  run_full_analysis counting_tools sample_repr sample_now planless_planner
    sample_reporter silent_log_step sample_response request (World [] 0)
  = (Ok (PDict [("status", PValue (VBool false));
                ("error", PValue (VStr "Executor failed"));
                ("details", PRun (RunInvalid "Invalid plan format"))], 500%Z),
     World [] 0).
Proof.
  cbv zeta. split; [reflexivity|]. split; [reflexivity|].
  exact (proj1 (planner_answer_without_tasks counting_tools sample_repr sample_now
                  planless_planner sample_reporter silent_log_step sample_response
                  (Ok (VDict [("user_input", VStr "find failed ssh logins")]))
                  (VStr "find failed ssh logins") _ 0 (World [] 0)
                  eq_refl eq_refl eq_refl eq_refl)
           [] eq_refl eq_refl).
Defined.

Lemma run_cyber_investigation_status_witness :
  py_truthy (VStr "") = false /\
  fst (run_cyber_investigation counting_tools sample_repr sample_now sample_planner
         sample_reporter silent_log_step sample_response sample_decode
         sample_response_str sample_format_exc (VStr "") (World [] 0))
  = Ok (VDict [("status", VBool true);
               ("result",
                VDict [("status", VBool false);
                       ("error", VStr "Missing 'user_input' or 'input' in request payload");
                       ("received", VDict [("user_input", VStr "")])])]).
Proof.
  split; [reflexivity|].
  exact (proj1 (proj2 (proj2 (run_cyber_investigation_status counting_tools sample_repr
                                sample_now sample_planner sample_reporter silent_log_step
                                sample_response sample_decode sample_response_str
                                sample_format_exc (VStr "") (World [] 0)))
                  _ eq_refl eq_refl)).
Defined.

(** The whole pipeline on the plan of the self-test, with tools that
    answer and a report generator that answers.  The first result, the
    number 0, is falsy, so the search builds a query of its own: the second
    result is the answer to the third call. *)
Example full_analysis_run :
  fst (run_full_analysis counting_tools sample_repr sample_now sample_planner
         sample_reporter silent_log_step sample_response
         (Ok (VDict [("user_input", VStr "find failed ssh logins")])) (World [] 0))
  = Ok (PDict [("status", PValue (VBool true));
               ("executed_at", PValue (VStr "2025-01-01 00:00:00"));
               ("goal", PValue (VStr "find failed ssh logins"));
               ("plan", PValue (VDict [("plans", VList dummy_plan)]));
               ("task_results",
                PValue (VList [success (VStr "1") (VInt 0); success (VStr "2") (VInt 2)]));
               ("aggregated_results", PCache [(VStr "1", VInt 0); (VStr "2", VInt 2)]);
               ("formatted_report", PValue (VStr "Executive Summary"))],
        200%Z).
Proof. reflexivity. Qed.
